(** * AI Code Review: change triage, model client and review orchestrator

    A shallow embedding of the review pipeline of [ai_code_review]
    ([git/analyzer.py], [bedrock/models.py], [bedrock/client.py],
    [review/engine.py]) together with the properties its specification
    states about it.

    Conventions.  A Python [int] is a [Z]; a Python [float] is a binary64
    [PrimFloat.float]; a Python [str] is a [string], one [ascii] per
    character; a Python [dict] is an insertion-ordered association list
    with unique keys; a function that may raise returns a [result]. *)

From Stdlib Require Import ZArith List String Ascii Bool Lia Permutation.
From Stdlib Require Import QArith.
From Stdlib Require Import PrimFloat Uint63 DecimalString.
Import ListNotations.

Set Warnings "-inexact-float,-register-all".
Local Open Scope string_scope.
Local Open Scope list_scope.
Local Open Scope Z_scope.

(* ===================================================================== *)
(** ** Python runtime pieces used by the code *)
(* ===================================================================== *)

Module Py.

(** *** Dictionaries: insertion ordered, keyed by strings *)

Definition dict (V : Type) : Type := list (string * V).

Definition keys {V} (d : dict V) : list string := map fst d.
Definition values {V} (d : dict V) : list V := map snd d.
Definition len {A} (l : list A) : Z := Z.of_nat (List.length l).

Fixpoint dict_get {V} (k : string) (d : dict V) : option V :=
  match d with
  | [] => None
  | (k', v) :: d' => if String.eqb k k' then Some v else dict_get k d'
  end.

Definition dict_get_default {V} (k : string) (dflt : V) (d : dict V) : V :=
  match dict_get k d with Some v => v | None => dflt end.

Definition dict_contains {V} (k : string) (d : dict V) : bool :=
  match dict_get k d with Some _ => true | None => false end.

(** The truth value of a list or a dictionary: it is not empty. *)
Definition nonempty {A} (l : list A) : bool :=
  match l with [] => false | _ => true end.

(** No string occurs twice: the keys of a dictionary. *)
Fixpoint distinct (l : list string) : bool :=
  match l with
  | [] => true
  | x :: l' => negb (existsb (String.eqb x) l') && distinct l'
  end.

(** [d[k] = v]: an existing key keeps its position, a new key goes last. *)
Fixpoint dict_set {V} (k : string) (v : V) (d : dict V) : dict V :=
  match d with
  | [] => [(k, v)]
  | (k', v') :: d' =>
      if String.eqb k k' then (k', v) :: d' else (k', v') :: dict_set k v d'
  end.

(** [dict(items)] *)
Definition dict_of_items {V} (items : list (string * V)) : dict V :=
  fold_left (fun d kv => dict_set (fst kv) (snd kv) d) items [].

(** [d.update(e)] *)
Definition dict_update {V} (d e : dict V) : dict V :=
  fold_left (fun d kv => dict_set (fst kv) (snd kv) d) e d.

(** *** Slices [l[:n]] and [l[n:]] with Python's index normalisation *)

Definition slice_index (n : Z) (size : nat) : nat :=
  let n' := if n <? 0 then n + Z.of_nat size else n in
  Z.to_nat (Z.max 0 (Z.min n' (Z.of_nat size))).

Definition slice_to {A} (n : Z) (l : list A) : list A :=
  firstn (slice_index n (List.length l)) l.

Definition slice_from {A} (n : Z) (l : list A) : list A :=
  skipn (slice_index n (List.length l)) l.

(** *** [sorted(l, key=key, reverse=True)]

    The built-in sort is stable, also with [reverse=True]: elements with
    equal keys keep their original relative order.  It is modelled by an
    insertion sort that puts an element in front of the first element
    whose key is not larger. *)

Fixpoint insert_desc {A} (key : A -> Z) (x : A) (l : list A) : list A :=
  match l with
  | [] => [x]
  | y :: l' => if key y <=? key x then x :: l else y :: insert_desc key x l'
  end.

Definition sorted_reverse {A} (key : A -> Z) (l : list A) : list A :=
  fold_right (insert_desc key) [] l.

(** *** [sum] over integers: accumulate from [0], left to right *)

Definition sum (l : list Z) : Z := fold_left Z.add l 0.

(** *** Strings *)

(** [str.isspace] on the characters below 256. *)
Definition isspace (c : ascii) : bool :=
  let n := nat_of_ascii c in
  ((9 <=? n) && (n <=? 13) || (28 <=? n) && (n <=? 32)
   || (n =? 133) || (n =? 160))%nat.

Definition is_empty (s : string) : bool :=
  match s with EmptyString => true | _ => false end.

Fixpoint lstrip (s : string) : string :=
  match s with
  | EmptyString => EmptyString
  | String c s' => if isspace c then lstrip s' else s
  end.

Fixpoint rstrip (s : string) : string :=
  match s with
  | EmptyString => EmptyString
  | String c s' =>
      let r := rstrip s' in
      if isspace c && is_empty r then EmptyString else String c r
  end.

(** [s.strip()] *)
Definition strip (s : string) : string := rstrip (lstrip s).

(** [s.find(c)]: the index of the first [c], or [-1]. *)
Fixpoint find (c : ascii) (s : string) : Z :=
  match s with
  | EmptyString => -1
  | String a s' =>
      if Ascii.eqb a c then 0
      else let i := find c s' in if i <? 0 then -1 else i + 1
  end.

(** [s.rfind(c)]: the index of the last [c], or [-1]. *)
Fixpoint rfind (c : ascii) (s : string) : Z :=
  match s with
  | EmptyString => -1
  | String a s' =>
      let i := rfind c s' in
      if 0 <=? i then i + 1 else if Ascii.eqb a c then 0 else -1
  end.

(** [c in s] *)
Fixpoint occurs (c : ascii) (s : string) : bool :=
  match s with
  | EmptyString => false
  | String a s' => Ascii.eqb a c || occurs c s'
  end.

(** [s[a:b]] for indices that are not negative. *)
Definition str_slice (a b : Z) (s : string) : string :=
  substring (Z.to_nat a) (Z.to_nat (b - a)) s.

(** [str(n)] for an integer. *)
Definition str_of_int (n : Z) : string :=
  DecimalString.NilZero.string_of_int (Z.to_int n).

(** *** Floats *)

(** [float(n)]; exact while [|n| <= 2^53]. *)
Definition float_of_int (n : Z) : float :=
  match n with
  | Z0 => PrimFloat.zero
  | Zpos _ => PrimFloat.of_uint63 (Uint63.of_Z n)
  | Zneg p => PrimFloat.opp (PrimFloat.of_uint63 (Uint63.of_Z (Zpos p)))
  end.

(** [a / b] on integers: the correctly rounded quotient.  For operands up
    to [2^53] in magnitude it is the binary64 quotient of the converted
    operands; [b] is never zero where the code divides. *)
Definition truediv (a b : Z) : float :=
  PrimFloat.div (float_of_int a) (float_of_int b).

(** *** Dynamically typed values, as [json.loads] produces them *)

Inductive json :=
| JNull
| JBool (b : bool)
| JInt (n : Z)
| JFloat (f : float)
| JStr (s : string)
| JList (l : list json)
| JDict (d : list (string * json)).

(** *** Exceptions *)

Inductive exn_class :=
| BedrockError | NetworkError | ValidationError | JSONDecodeError
| ValueError | TypeError | AttributeError | KeyError | OtherException.

(** An exception instance: its class and [str(e)]. *)
Record exn := Exn { exn_cls : exn_class; exn_str : string }.

Inductive result (A : Type) :=
| Ok (a : A)
| Raise (e : exn).
Arguments Ok {A} a.
Arguments Raise {A} e.

Definition bind {A B} (r : result A) (k : A -> result B) : result B :=
  match r with Ok a => k a | Raise e => Raise e end.

End Py.

Import Py.

Notation "x <- c ;; k" := (Py.bind c (fun x => k))
  (at level 61, c at next level, right associativity).

(* ===================================================================== *)
(** ** Change triage ([git/analyzer.py]) *)
(* ===================================================================== *)

Module Analyzer.

(** [git/operations.py], [FileChange] *)
Record FileChange := mkFileChange {
  filename : string;
  status : string;
  lines_added : Z;
  lines_removed : Z;
  diff : string;
  old_filename : option string
}.

Record AnalysisResult := mkAnalysisResult {
  filtered_changes : dict FileChange;
  excluded_files : list string;
  binary_files : list string;
  large_files : list string;
  total_lines_added : Z;
  total_lines_removed : Z;
  file_count : Z
}.

(** The [git] section of the configuration, as [ChangeAnalyzer.__init__]
    reads it. *)
Record GitConfig := mkGitConfig {
  exclude_patterns : list string;
  include_patterns : list string;
  binary_file_extensions : list string;
  max_diff_size : Z;
  max_files : Z
}.

(** What [config/validator.py] demands of the [git] section. *)
Definition git_config_valid (cfg : GitConfig) : Prop :=
  100 <= max_diff_size cfg /\ 1 <= max_files cfg.

(** The local variables of the triage loop. *)
Record Triage := mkTriage {
  t_filtered : dict FileChange;
  t_excluded : list string;
  t_binary : list string;
  t_large : list string;
  t_added : Z;
  t_removed : Z
}.

Definition triage_init : Triage := mkTriage [] [] [] [] 0 0.

Definition change_size (item : string * FileChange) : Z :=
  lines_added (snd item) + lines_removed (snd item).

Definition added_of (item : string * FileChange) : Z := lines_added (snd item).
Definition removed_of (item : string * FileChange) : Z := lines_removed (snd item).

Section WithLibrary.

(** [fnmatch.fnmatch name pattern] and [Path(name).suffix.lower()] are
    library functions; the triage is stated for any behaviour of them. *)
Variable fnmatch : string -> string -> bool.
Variable suffix_lower : string -> string.

Variable cfg : GitConfig.

Definition _should_exclude_file (name : string) : bool :=
  existsb (fun pattern => fnmatch name pattern) (exclude_patterns cfg).

Definition _should_include_file (name : string) : bool :=
  match include_patterns cfg with
  | [] => true
  | _ => existsb (fun pattern => fnmatch name pattern) (include_patterns cfg)
  end.

Definition _is_binary_file (name : string) : bool :=
  existsb (String.eqb (suffix_lower name)) (binary_file_extensions cfg).

(** One iteration of [for filename, change in changes.items()]. *)
Definition triage_step (t : Triage) (item : string * FileChange) : Triage :=
  let '(name, change) := item in
  if _should_exclude_file name then
    mkTriage (t_filtered t) (t_excluded t ++ [name]) (t_binary t) (t_large t)
             (t_added t) (t_removed t)
  else if nonempty (include_patterns cfg) && negb (_should_include_file name) then
    mkTriage (t_filtered t) (t_excluded t ++ [name]) (t_binary t) (t_large t)
             (t_added t) (t_removed t)
  else if _is_binary_file name then
    mkTriage (t_filtered t) (t_excluded t) (t_binary t ++ [name]) (t_large t)
             (t_added t) (t_removed t)
  else if max_diff_size cfg <? lines_added change + lines_removed change then
    mkTriage (t_filtered t) (t_excluded t) (t_binary t) (t_large t ++ [name])
             (t_added t) (t_removed t)
  else
    mkTriage (dict_set name change (t_filtered t)) (t_excluded t) (t_binary t)
             (t_large t) (t_added t + lines_added change)
             (t_removed t + lines_removed change).

Definition triage_loop (changes : dict FileChange) : Triage :=
  fold_left triage_step changes triage_init.

(** The cap on the number of files, applied to the loop's outcome. *)
Definition limit_files (t : Triage) : dict FileChange * list string :=
  if max_files cfg <? len (t_filtered t) then
    let sorted_files := sorted_reverse change_size (t_filtered t) in
    let limited_changes := dict_of_items (slice_to (max_files cfg) sorted_files) in
    (limited_changes,
     t_excluded t ++ map fst (slice_from (max_files cfg) sorted_files))
  else (t_filtered t, t_excluded t).

(** The four outcomes of the per-file checks of the loop, in the order the
    loop tries them; used to describe the loop's result. *)
Inductive Bucket := InExcluded | InBinary | InLarge | InFiltered.

Definition classify (item : string * FileChange) : Bucket :=
  if _should_exclude_file (fst item) then InExcluded
  else if nonempty (include_patterns cfg) && negb (_should_include_file (fst item))
  then InExcluded
  else if _is_binary_file (fst item) then InBinary
  else if max_diff_size cfg <? lines_added (snd item) + lines_removed (snd item)
  then InLarge
  else InFiltered.

Definition Bucket_eqb (a b : Bucket) : bool :=
  match a, b with
  | InExcluded, InExcluded | InBinary, InBinary
  | InLarge, InLarge | InFiltered, InFiltered => true
  | _, _ => false
  end.

Definition in_bucket (b : Bucket) (changes : dict FileChange) : dict FileChange :=
  filter (fun item => Bucket_eqb (classify item) b) changes.

(** The files that pass every check, in the input's iteration order. *)
Definition survivors (changes : dict FileChange) : dict FileChange :=
  in_bucket InFiltered changes.

Definition analyze_changes (changes : dict FileChange) : AnalysisResult :=
  let t := triage_loop changes in
  let '(filtered, excluded) := limit_files t in
  mkAnalysisResult filtered excluded (t_binary t) (t_large t)
                   (t_added t) (t_removed t) (len filtered).

End WithLibrary.

End Analyzer.

(* ===================================================================== *)
(** ** Model catalog ([bedrock/models.py]) *)
(* ===================================================================== *)

Module Models.

Record ModelInfo := mkModelInfo {
  model_id : string;
  provider : string;
  name : string;
  description : string;
  max_tokens : Z;
  input_cost_per_1k : float;
  output_cost_per_1k : float;
  context_window : Z;
  supports_system_prompt : bool;
  recommended_for_code : bool
}.

(** [ModelManager._initialize_models] *)
Definition _initialize_models : dict ModelInfo :=
  let models := [] in
  let models := dict_set "anthropic.claude-3-5-sonnet-20241022-v2:0"
    (mkModelInfo "anthropic.claude-3-5-sonnet-20241022-v2:0" "anthropic"
       "Claude 3.5 Sonnet"
       "Most capable model for complex reasoning and code analysis"
       8192 0.003 0.015 200000 true true) models in
  let models := dict_set "anthropic.claude-3-haiku-20240307-v1:0"
    (mkModelInfo "anthropic.claude-3-haiku-20240307-v1:0" "anthropic"
       "Claude 3 Haiku"
       "Fastest and most cost-effective model for simple tasks"
       4096 0.00025 0.00125 200000 true true) models in
  let models := dict_set "anthropic.claude-3-sonnet-20240229-v1:0"
    (mkModelInfo "anthropic.claude-3-sonnet-20240229-v1:0" "anthropic"
       "Claude 3 Sonnet" "Balanced model for most use cases"
       4096 0.003 0.015 200000 true true) models in
  let models := dict_set "meta.llama3-70b-instruct-v1:0"
    (mkModelInfo "meta.llama3-70b-instruct-v1:0" "meta"
       "Llama 3 70B Instruct"
       "Large language model good for complex reasoning"
       2048 0.00265 0.0035 8192 true true) models in
  let models := dict_set "meta.llama3-8b-instruct-v1:0"
    (mkModelInfo "meta.llama3-8b-instruct-v1:0" "meta"
       "Llama 3 8B Instruct" "Smaller, faster model for basic tasks"
       2048 0.0003 0.0006 8192 true true) models in
  let models := dict_set "cohere.command-r-plus-v1:0"
    (mkModelInfo "cohere.command-r-plus-v1:0" "cohere"
       "Command R+" "Advanced model for complex tasks and reasoning"
       4000 0.003 0.015 128000 true true) models in
  let models := dict_set "cohere.command-r-v1:0"
    (mkModelInfo "cohere.command-r-v1:0" "cohere"
       "Command R" "Balanced model for general use cases"
       4000 0.0005 0.0015 128000 true true) models in
  let models := dict_set "ai21.jamba-instruct-v1:0"
    (mkModelInfo "ai21.jamba-instruct-v1:0" "ai21"
       "Jamba Instruct" "Hybrid architecture model with long context"
       4096 0.0005 0.0007 256000 true true) models in
  models.

(** [self._models], set once in [__init__] and never written again. *)
Definition _models : dict ModelInfo := Eval cbv in _initialize_models.

(** [self._models[model_id]] *)
Definition models_subscript (model_id : string) : result ModelInfo :=
  match dict_get model_id _models with
  | Some info => Ok info
  | None => Raise (Exn KeyError ("'" ++ model_id ++ "'")%string)
  end.

Definition get_model_info (model_id : string) : result ModelInfo :=
  if negb (dict_contains model_id _models) then
    Raise (Exn ValueError ("Unsupported model: " ++ model_id)%string)
  else models_subscript model_id.

Definition is_model_supported (model_id : string) : bool :=
  dict_contains model_id _models.

Definition get_cost_estimate (model_id : string) (input_tokens output_tokens : Z)
  : result float :=
  if negb (is_model_supported model_id) then Ok 0%float
  else
    model_info <- get_model_info model_id ;;
    let input_cost :=
      (truediv input_tokens 1000 * input_cost_per_1k model_info)%float in
    let output_cost :=
      (truediv output_tokens 1000 * output_cost_per_1k model_info)%float in
    Ok (input_cost + output_cost)%float.

End Models.

(* ===================================================================== *)
(** ** Model client ([bedrock/client.py]) *)
(* ===================================================================== *)

Module Client.

Record BedrockResponse := mkBedrockResponse {
  content : string;
  model_id : string;
  input_tokens : Z;
  output_tokens : Z;
  stop_reason : string;
  cost_estimate : float
}.

(** [utils/exceptions.py]: the text of a [BedrockError] and of a
    [NetworkError]; an empty [service_error] counts as none. *)
Definition bedrock_error (message service_error : string) : exn :=
  if is_empty service_error
  then Exn BedrockError ("AWS Bedrock error: " ++ message)%string
  else Exn BedrockError
         ("AWS Bedrock error: " ++ message ++ " (" ++ service_error ++ ")")%string.

Definition network_error (message : string) : exn :=
  Exn NetworkError ("Network error: " ++ message)%string.

(** What the [try] block of [_invoke_model_once] can do: return the parsed
    response, or raise.  For a [ClientError] the code and the message are
    the ones the handler reads from [e.response]; for the other exceptions
    the text is [str(e)]. *)
Inductive attempt :=
| Returned (response : BedrockResponse)
| RaisedClientError (error_code error_message : string)
| RaisedBotoCoreError (text : string)
| RaisedJSONDecodeError (text : string)
| RaisedOther (text : string).

Definition _invoke_model_once (a : attempt) : result BedrockResponse :=
  match a with
  | Returned response => Ok response
  | RaisedClientError error_code error_message =>
      if (error_code =? "ThrottlingException")%string then
        Raise (bedrock_error ("Rate limit exceeded: " ++ error_message)%string
                             error_code)
      else if (error_code =? "ValidationException")%string then
        Raise (bedrock_error ("Invalid request: " ++ error_message)%string
                             error_code)
      else if (error_code =? "ModelNotReadyException")%string then
        Raise (bedrock_error ("Model not ready: " ++ error_message)%string
                             error_code)
      else if (error_code =? "ServiceQuotaExceededException")%string then
        Raise (bedrock_error ("Service quota exceeded: " ++ error_message)%string
                             error_code)
      else
        Raise (bedrock_error
                 ("Bedrock API error (" ++ error_code ++ "): " ++ error_message)%string
                 error_code)
  | RaisedBotoCoreError text =>
      Raise (network_error ("Network error calling Bedrock: " ++ text)%string)
  | RaisedJSONDecodeError text =>
      Raise (bedrock_error ("Failed to parse Bedrock response: " ++ text)%string "")
  | RaisedOther text =>
      Raise (bedrock_error ("Unexpected error calling Bedrock: " ++ text)%string "")
  end.

Definition with_content (response : BedrockResponse) (text : string)
  : BedrockResponse :=
  mkBedrockResponse text (model_id response) (input_tokens response)
                    (output_tokens response) (stop_reason response)
                    (cost_estimate response).

(** What [invoke_model] does to the outside, in order. *)
Inductive event :=
| Invoked (attempt_no : Z)
| Slept (seconds : Q).

(** [range(n)] *)
Definition range (n : Z) : list Z := map Z.of_nat (seq 0 (Z.to_nat n)).

(** [time.sleep(seconds)] refuses a negative argument. *)
Definition sleep (seconds : Q) : result unit :=
  if Qle_bool 0 seconds then Ok tt
  else Raise (Exn ValueError "sleep length must be non-negative").

Definition is_BedrockError (e : exn) : bool :=
  match exn_cls e with BedrockError => true | _ => false end.

Section Invoke.

(** The connection settings the retry loop reads.  [retry_delay] is a
    number; multiplying it by a power of two is exact in binary floating
    point as well, so the rational product is the duration slept. *)
Variable retry_attempts : Z.
Variable retry_delay : Q.

(** The service: what the [attempt_no]-th call of [_invoke_model_once]
    within one [invoke_model] meets. *)
Variable service : Z -> attempt.

(** [for attempt in range(self.retry_attempts + 1)], with the events so far. *)
Fixpoint invoke_loop (attempts : list Z) (log : list event)
  : result BedrockResponse * list event :=
  match attempts with
  | [] => (Raise (bedrock_error "All retry attempts exhausted" ""), log)
  | attempt_no :: rest =>
      let log := log ++ [Invoked attempt_no] in
      match _invoke_model_once (service attempt_no) with
      | Ok response => (Ok response, log)
      | Raise e =>
          if is_BedrockError e then
            if attempt_no =? retry_attempts then (Raise e, log)
            else
              let seconds := (retry_delay * inject_Z (2 ^ attempt_no))%Q in
              match sleep seconds with
              | Ok _ => invoke_loop rest (log ++ [Slept seconds])
              | Raise e' => (Raise e', log)
              end
          else (Raise e, log)
      end
  end.

Definition invoke_model : result BedrockResponse * list event :=
  invoke_loop (range (retry_attempts + 1)) [].

End Invoke.

(** What [config/validator.py] demands of the retry settings. *)
Definition retry_config_valid (retry_attempts : Z) (retry_delay : Q) : Prop :=
  0 <= retry_attempts <= 10 /\ (1 # 10 <= retry_delay)%Q /\ (retry_delay <= 60)%Q.

(** The attempt ends in a [BedrockError], the kind the loop retries. *)
Definition retryable (a : attempt) : bool :=
  match _invoke_model_once a with
  | Ok _ => false
  | Raise e => is_BedrockError e
  end.

(** The delay before the retry that follows attempt [k]. *)
Definition backoff (retry_delay : Q) (k : Z) : Q :=
  (retry_delay * inject_Z (2 ^ k))%Q.

(** A failed attempt followed by its backoff sleep. *)
Definition failed_round (retry_delay : Q) (k : Z) : list event :=
  [Invoked k; Slept (backoff retry_delay k)].

Definition invocations (log : list event) : list Z :=
  flat_map (fun ev => match ev with Invoked k => [k] | Slept _ => [] end) log.

Definition sleeps (log : list event) : list Q :=
  flat_map (fun ev => match ev with Invoked _ => [] | Slept d => [d] end) log.

End Client.

(* ===================================================================== *)
(** ** Review orchestrator ([review/models.py], [review/engine.py]) *)
(* ===================================================================== *)

Module Engine.

(** The fields of an issue hold whatever the model's JSON held. *)
Record ReviewIssue := mkReviewIssue {
  rule : json;
  severity : json;
  line : json;
  message : json;
  suggestion : json;
  file_path : json
}.

Record FileReviewResult := mkFileReviewResult {
  filename : string;
  issues : list ReviewIssue;
  summary : json;
  total_issues : Z;
  error_count : Z;
  warning_count : Z;
  info_count : Z;
  suggestion_count : Z;
  tokens_used : Z;
  cost_estimate : float
}.

Record ReviewResult := mkReviewResult {
  files : dict FileReviewResult;
  total_files : Z;
  run_total_issues : Z;
  total_errors : Z;
  total_warnings : Z;
  total_info : Z;
  total_suggestions : Z;
  total_tokens : Z;
  total_cost : float;
  run_summary : string
}.

(** The [review] and [performance] settings [ReviewEngine.__init__] reads. *)
Record ReviewConfig := mkReviewConfig {
  enabled_rules : list string;
  severity_threshold : string;
  max_issues_per_file : Z;
  batch_size : Z;
  parallel_processing : bool;
  max_workers : Z
}.

Definition SEVERITY_LEVELS : list string :=
  ["error"; "warning"; "info"; "suggestion"].

(** What [config/validator.py] demands of the [review] section. *)
Definition review_config_valid (cfg : ReviewConfig) : Prop :=
  In (severity_threshold cfg) SEVERITY_LEVELS
  /\ 1 <= max_issues_per_file cfg
  /\ 1 <= batch_size cfg.

(** [v == s] for a string [s]. *)
Definition eq_str (v : json) (s : string) : bool :=
  match v with JStr t => String.eqb t s | _ => false end.

(** [v in l] for a list of strings. *)
Definition in_strs (v : json) (l : list string) : bool :=
  existsb (eq_str v) l.

Definition type_name (v : json) : string :=
  match v with
  | JNull => "NoneType" | JBool _ => "bool" | JInt _ => "int"
  | JFloat _ => "float" | JStr _ => "str" | JList _ => "list"
  | JDict _ => "dict"
  end.

(** [for x in v]: the elements of a list, the keys of a dict, the
    characters of a string; other values are not iterable. *)
Definition iterate (v : json) : result (list json) :=
  match v with
  | JList l => Ok l
  | JDict d => Ok (map JStr (keys d))
  | JStr s => Ok (map (fun c => JStr (String c EmptyString)) (list_ascii_of_string s))
  | _ => Raise (Exn TypeError
                  ("'" ++ type_name v ++ "' object is not iterable")%string)
  end.

Definition _create_error_result (name error_message : string) : FileReviewResult :=
  let error_issue :=
    mkReviewIssue (JStr "system") (JStr "error") JNull
                  (JStr ("Review failed: " ++ error_message)%string)
                  JNull (JStr name) in
  mkFileReviewResult name [error_issue]
    (JStr ("Review failed: " ++ error_message)%string) 1 1 0 0 0 0 0%float.

Definition _create_empty_file_result (name : string) : FileReviewResult :=
  mkFileReviewResult name [] (JStr "No issues found") 0 0 0 0 0 0 0%float.

Definition _create_empty_result : ReviewResult :=
  mkReviewResult [] 0 0 0 0 0 0 0 0%float "No files to review".

Definition severity_levels : dict Z :=
  [("suggestion", 1); ("info", 2); ("warning", 3); ("error", 4)].

(** [severity_levels.get(key, default)] for a key of any type: a list or a
    dict cannot be hashed. *)
Definition levels_get (key : json) (default : Z) : result Z :=
  match key with
  | JStr s => Ok (dict_get_default s default severity_levels)
  | JList _ | JDict _ =>
      Raise (Exn TypeError ("unhashable type: '" ++ type_name key ++ "'")%string)
  | _ => Ok default
  end.

(** Lines 284-286: an unknown severity becomes ["info"]. *)
Definition coerce_severity (v : json) : json :=
  if negb (in_strs v ["error"; "warning"; "info"; "suggestion"])
  then JStr "info" else v.

Definition validate_severity (issue : ReviewIssue) : ReviewIssue :=
  mkReviewIssue (rule issue) (coerce_severity (severity issue)) (line issue)
                (message issue) (suggestion issue) (file_path issue).

(** The [ReviewIssue(...)] of the loop: [issue_data.get] exists on a dict
    only. *)
Definition make_issue (name : string) (issue_data : json) : result ReviewIssue :=
  match issue_data with
  | JDict d =>
      Ok (mkReviewIssue (dict_get_default "rule" (JStr "unknown") d)
                        (dict_get_default "severity" (JStr "info") d)
                        (dict_get_default "line" JNull d)
                        (dict_get_default "message" (JStr "") d)
                        (dict_get_default "suggestion" JNull d)
                        (JStr name))
  | _ => Raise (Exn AttributeError
                  ("'" ++ type_name issue_data
                   ++ "' object has no attribute 'get'")%string)
  end.

Definition count_severity (s : string) (l : list ReviewIssue) : Z :=
  Py.sum (map (fun _ => 1) (filter (fun issue => eq_str (severity issue) s) l)).

Definition _get_change_type_description (status : string) : string :=
  dict_get_default status ("Unknown (" ++ status ++ ")")%string
    [("A", "Added (new file)"); ("M", "Modified (existing file)");
     ("D", "Deleted (removed file)"); ("R", "Renamed (moved file)");
     ("C", "Copied (duplicated file)")].

Definition _build_system_prompt : string :=
  ("You are an expert code reviewer with deep knowledge of software engineering best practices, "
   ++ "security vulnerabilities, performance optimization, and code maintainability. "
   ++ "Your role is to provide constructive, specific, and actionable feedback on code changes. "
   ++ "Focus on identifying real issues that could impact code quality, security, or maintainability. "
   ++ "Be concise but thorough in your analysis.")%string.

(** [l[a:b]] for indices that are not negative. *)
Definition list_slice {A} (a b : Z) (l : list A) : list A :=
  firstn (Z.to_nat (b - a)) (skipn (Z.to_nat a) l).

(** [range(0, stop, step)]: empty when [step] is negative; a zero [step]
    raises, which the caller writes out. *)
Definition range_step (stop step : Z) : list Z :=
  if step <=? 0 then []
  else map (fun k => k * step) (Client.range ((stop + step - 1) / step)).

(** The level of a severity in [severity_levels]; an unknown one counts as
    ["info"]. *)
Definition severity_level (s : string) : Z := dict_get_default s 2 severity_levels.

(** The level of the configured threshold; an unknown one counts as
    ["warning"]. *)
Definition threshold_level (cfg : ReviewConfig) : Z :=
  dict_get_default (severity_threshold cfg) 3 severity_levels.

Definition issue_level (issue : ReviewIssue) : Z :=
  match severity issue with JStr s => severity_level s | _ => 2 end.

(** The issues the model returned, in its order: the entries that are
    objects, read with the defaults, with the severity coerced. *)
Definition parsed_issues (name : string) (entries : list json) : list ReviewIssue :=
  flat_map (fun issue_data =>
              match make_issue name issue_data with
              | Ok issue => [validate_severity issue]
              | Raise _ => []
              end) entries.

Section WithCollaborators.

(** The configuration manager's [get_rule_templates], the rule processor's
    [load_rules_for_file], the prompt builder and the model client's
    [invoke_model] are taken as they behave: each returns or raises. *)
Variable get_rule_templates : string -> result (list string).
Variable load_rules_for_file : string -> list string -> result (dict json).
Variable _build_review_prompt :
  string -> Analyzer.FileChange -> dict json -> result string.
Variable invoke_model : string -> string -> result Client.BedrockResponse.

(** [json.loads] on the text cut out of the response.  That text is empty
    or begins with an opening brace, so a value that comes back is an
    object. *)
Variable json_loads : string -> result (dict json).

(** [sum] over floats: which rounding it performs depends on the
    interpreter (plain left-to-right addition, or compensated summation). *)
Variable float_sum : list float -> float.

(** [as_completed]: the order in which the submitted batches finish. *)
Variable as_completed :
  list (dict FileReviewResult) -> list (dict FileReviewResult).

Variable cfg : ReviewConfig.

Definition _meets_severity_threshold (sev : json) : result bool :=
  let threshold_level := dict_get_default (severity_threshold cfg) 3 severity_levels in
  issue_level <- levels_get sev 2 ;;
  Ok (threshold_level <=? issue_level).

(** One iteration of [for issue_data in ...]: whatever is raised while an
    entry is handled is logged and the entry is skipped. *)
Definition issue_step (name : string) (issues : list ReviewIssue) (issue_data : json)
  : list ReviewIssue :=
  let attempt :=
    issue <- make_issue name issue_data ;;
    let issue := validate_severity issue in
    keep <- _meets_severity_threshold (severity issue) ;;
    Ok (if keep then issues ++ [issue] else issues) in
  match attempt with
  | Ok issues' => issues'
  | Raise _ => issues
  end.

(** [ValidationError("No JSON found in response")] *)
Definition no_json_found : exn :=
  Exn ValidationError "Validation error: No JSON found in response".

(** The JSON block of the stripped content: from the first opening brace to
    the last closing brace. *)
Definition json_block (text : string) : result string :=
  let json_start := find "{"%char text in
  let json_end := rfind "}"%char text + 1 in
  if (json_start =? -1) || (json_end =? 0) then Raise no_json_found
  else Ok (str_slice json_start json_end text).

(** The [try] block of [_parse_review_response]. *)
Definition parse_review_body (name : string) (response : Client.BedrockResponse)
  : result FileReviewResult :=
  let content := strip (Client.content response) in
  json_content <- json_block content ;;
  parsed_response <- json_loads json_content ;;
  if negb (dict_contains "issues" parsed_response) then
    Raise (Exn ValidationError
             "Validation error: Response missing 'issues' field")
  else
    entries <- iterate (dict_get_default "issues" (JList []) parsed_response) ;;
    let issues := fold_left (issue_step name) entries [] in
    let issues :=
      if max_issues_per_file cfg <? len issues
      then slice_to (max_issues_per_file cfg) issues else issues in
    Ok (mkFileReviewResult name issues
          (dict_get_default "summary" (JStr "No summary provided") parsed_response)
          (len issues)
          (count_severity "error" issues)
          (count_severity "warning" issues)
          (count_severity "info" issues)
          (count_severity "suggestion" issues)
          (Client.input_tokens response + Client.output_tokens response)
          (Client.cost_estimate response)).

Definition _parse_review_response (name : string) (response : Client.BedrockResponse)
  : FileReviewResult :=
  match parse_review_body name response with
  | Ok r => r
  | Raise e =>
      match exn_cls e with
      | JSONDecodeError =>
          _create_error_result name ("Invalid JSON response: " ++ exn_str e)%string
      | ValidationError =>
          _create_error_result name ("Invalid response format: " ++ exn_str e)%string
      | _ => _create_error_result name ("Parsing error: " ++ exn_str e)%string
      end
  end.

Definition _review_single_file (name : string) (change : Analyzer.FileChange)
  : result FileReviewResult :=
  rule_templates <- get_rule_templates name ;;
  if negb (nonempty rule_templates) then Ok (_create_empty_file_result name)
  else
    rules <- load_rules_for_file name rule_templates ;;
    if negb (nonempty rules) then Ok (_create_empty_file_result name)
    else
      prompt <- _build_review_prompt name change rules ;;
      let system_prompt := _build_system_prompt in
      response <- invoke_model prompt system_prompt ;;
      Ok (_parse_review_response name response).

(** The body shared by [_review_file_batch] and [_review_files_sequential]:
    review the file, and turn an exception into an error result. *)
Definition review_step (results : dict FileReviewResult)
  (item : string * Analyzer.FileChange) : dict FileReviewResult :=
  let '(name, change) := item in
  match _review_single_file name change with
  | Ok r => dict_set name r results
  | Raise e => dict_set name (_create_error_result name (exn_str e)) results
  end.

Definition _review_file_batch (batch : dict Analyzer.FileChange)
  : dict FileReviewResult :=
  fold_left review_step batch [].

Definition _review_files_sequential (changes : dict Analyzer.FileChange)
  : dict FileReviewResult :=
  fold_left review_step changes [].

(** The batches are cut from the items and submitted in order; their
    results are merged in the order in which they complete.  A batch never
    raises, so the handler around [future.result()] has nothing to do. *)
Definition submitted_batches (changes : dict Analyzer.FileChange)
  : list (dict Analyzer.FileChange) :=
  let file_items := changes in
  map (fun i => dict_of_items (list_slice i (i + batch_size cfg) file_items))
      (range_step (len file_items) (batch_size cfg)).

Definition _review_files_parallel (changes : dict Analyzer.FileChange)
  : result (dict FileReviewResult) :=
  if max_workers cfg <=? 0 then
    Raise (Exn ValueError "max_workers must be greater than 0")
  else if batch_size cfg =? 0 then
    Raise (Exn ValueError "range() arg 3 must not be zero")
  else
    let futures := map _review_file_batch (submitted_batches changes) in
    Ok (fold_left dict_update (as_completed futures) []).

(** What a file ends up with: its review, or the error result made from
    the exception its review raised. *)
Definition file_outcome (name : string) (change : Analyzer.FileChange)
  : FileReviewResult :=
  match _review_single_file name change with
  | Ok r => r
  | Raise e => _create_error_result name (exn_str e)
  end.

Definition outcome_item (item : string * Analyzer.FileChange)
  : string * FileReviewResult :=
  (fst item, file_outcome (fst item) (snd item)).

Definition _aggregate_results (file_results : dict FileReviewResult) : ReviewResult :=
  let results := values file_results in
  let total_files := len file_results in
  let total_issues := Py.sum (map total_issues results) in
  let total_errors := Py.sum (map error_count results) in
  let total_warnings := Py.sum (map warning_count results) in
  let total_info := Py.sum (map info_count results) in
  let total_suggestions := Py.sum (map suggestion_count results) in
  let total_tokens := Py.sum (map tokens_used results) in
  let total_cost := float_sum (map cost_estimate results) in
  let summary :=
    if total_issues =? 0 then
      ("âœ… No issues found in " ++ str_of_int total_files ++ " files")%string
    else
      ("Found " ++ str_of_int total_issues ++ " issues in "
       ++ str_of_int total_files ++ " files: "
       ++ str_of_int total_errors ++ " errors, "
       ++ str_of_int total_warnings ++ " warnings, "
       ++ str_of_int total_info ++ " info, "
       ++ str_of_int total_suggestions ++ " suggestions")%string in
  mkReviewResult file_results total_files total_issues total_errors
                 total_warnings total_info total_suggestions total_tokens
                 total_cost summary.

Definition review_changes (changes : dict Analyzer.FileChange) : result ReviewResult :=
  if negb (nonempty changes) then Ok _create_empty_result
  else
    file_results <-
      (if parallel_processing cfg && (1 <? len changes)
       then _review_files_parallel changes
       else Ok (_review_files_sequential changes)) ;;
    Ok (_aggregate_results file_results).

End WithCollaborators.

End Engine.

(* ===================================================================== *)
(** ** Sample inputs *)
(* ===================================================================== *)

Module Samples.

(** On patterns without wildcard [fnmatch] is equality. *)
Definition fnmatch_literal (name pattern : string) : bool :=
  String.eqb name pattern.

(** The suffix of a plain lower-case file name: from its last dot on,
    unless the dot comes first. *)
Definition plain_suffix (name : string) : string :=
  let i := rfind "."%char name in
  if 0 <? i then str_slice i (Z.of_nat (String.length name)) name else "".

Definition git_config : Analyzer.GitConfig :=
  Analyzer.mkGitConfig ["Makefile"] [] [".png"] 100 2.

Definition change (name : string) (added removed : Z) : string * Analyzer.FileChange :=
  (name, Analyzer.mkFileChange name "M" added removed "@@" None).

(** Seven changed files: one excluded by pattern, one binary, one too
    large, and four survivors of sizes 7, 10, 7 and 2. *)
Definition changes : dict Analyzer.FileChange :=
  [change "a.py" 5 2; change "Makefile" 1 0; change "logo.png" 0 0;
   change "big.py" 200 0; change "b.py" 10 0; change "c.py" 5 2;
   change "d.py" 1 1].

Definition analysis : Analyzer.AnalysisResult :=
  Analyzer.analyze_changes fnmatch_literal plain_suffix git_config changes.

(** A double quote, which a string literal cannot hold. *)
Definition dq : string := String (ascii_of_nat 34) "".

(** The text of an object with no issues, and what is between its braces. *)
Definition object_inner : string :=
  (dq ++ "issues" ++ dq ++ ": [], " ++ dq ++ "summary" ++ dq ++ ": "
   ++ dq ++ "fine" ++ dq)%string.

Definition object_text : string := ("{" ++ object_inner ++ "}")%string.

Definition object_value : dict json :=
  [("issues", JList []); ("summary", JStr "fine")].

(** The text of an object with a suggestion and an error. *)
Definition findings_text : string :=
  ("{" ++ dq ++ "issues" ++ dq ++ ": [{" ++ dq ++ "severity" ++ dq ++ ": "
   ++ dq ++ "suggestion" ++ dq ++ "}, {" ++ dq ++ "severity" ++ dq ++ ": "
   ++ dq ++ "error" ++ dq ++ "}]}")%string.

Definition findings_value : dict json :=
  [("issues", JList [JDict [("severity", JStr "suggestion")];
                     JDict [("severity", JStr "error")]])].

(** The text of an object without the key [issues]. *)
Definition other_text : string :=
  ("{" ++ dq ++ "summary" ++ dq ++ ": " ++ dq ++ "fine" ++ dq ++ "}")%string.

(** A parser that knows the three texts above and rejects all else. *)
Definition json_loads (text : string) : result (dict json) :=
  if String.eqb text object_text then Ok object_value
  else if String.eqb text findings_text then Ok findings_value
  else if String.eqb text other_text then Ok [("summary", JStr "fine")]
  else Raise (Exn JSONDecodeError "Expecting value: line 1 column 1 (char 0)").

Definition response (text : string) : Client.BedrockResponse :=
  Client.mkBedrockResponse text "anthropic.claude-3-haiku-20240307-v1:0"
                           120 30 "end_turn" 0%float.

Definition review_config : Engine.ReviewConfig :=
  Engine.mkReviewConfig ["style"] "warning" 10 1 true 4.

(** Every file has one template and one rule; the prompt is the file's
    name; the model is throttled on [bad.py] and answers in prose around
    the object on every other file. *)
Definition get_rule_templates (name : string) : result (list string) :=
  Ok ["python"].

Definition load_rules_for_file (name : string) (templates : list string)
  : result (dict json) :=
  Ok [("style", JDict [("prompt", JStr "Check the style")])].

Definition build_review_prompt (name : string) (c : Analyzer.FileChange)
  (rules : dict json) : result string :=
  Ok name.

Definition throttled : Client.attempt :=
  Client.RaisedClientError "ThrottlingException" "slow down".

Definition invoke_model (prompt system_prompt : string)
  : result Client.BedrockResponse :=
  if String.eqb prompt "bad.py" then Client._invoke_model_once throttled
  else Ok (response ("Here is my review: " ++ object_text ++ " Done.")%string).

(** The same, with a model that answers on every file. *)
Definition invoke_model_always (prompt system_prompt : string)
  : result Client.BedrockResponse :=
  Ok (response ("Here is my review: " ++ object_text ++ " Done.")%string).

Definition batch : dict Analyzer.FileChange :=
  [change "ok.py" 3 1; change "bad.py" 4 0; change "fine.py" 1 1].

(** Plain left-to-right addition of floats. *)
Definition float_sum (l : list float) : float :=
  fold_left PrimFloat.add l 0%float.

(** Batches complete in the reverse of the order of submission. *)
Definition as_completed (l : list (dict Engine.FileReviewResult))
  : list (dict Engine.FileReviewResult) := rev l.

(** A service that is always throttled, and one whose second attempt meets
    a transport failure. *)
Definition always_throttled (attempt_no : Z) : Client.attempt := throttled.

Definition drops_connection (attempt_no : Z) : Client.attempt :=
  if attempt_no =? 1 then Client.RaisedBotoCoreError "Connection reset"
  else throttled.

End Samples.

(** [x] comes before [y] in [l]. *)
Definition precedes {A} (x y : A) (l : list A) : Prop :=
  exists l1 l2 l3, l = l1 ++ x :: l2 ++ y :: l3.

(** The sum of [f] over [l]. *)
Fixpoint total {A} (f : A -> Z) (l : list A) : Z :=
  match l with
  | [] => 0
  | x :: l' => f x + total f l'
  end.

(** [l] is in descending order of [key]. *)
Fixpoint descending {A} (key : A -> Z) (l : list A) : Prop :=
  match l with
  | [] => True
  | x :: l' => Forall (fun y => key y <= key x) l' /\ descending key l'
  end.

(** The elements of [l] whose key is [k], in the order of [l]. *)
Definition with_key {A} (key : A -> Z) (k : Z) (l : list A) : list A :=
  filter (fun x => key x =? k) l.

(* ===================================================================== *)
(** ** More of the Python runtime *)
(* ===================================================================== *)

Module PyMore.

(** A loop whose body may raise: the first exception ends it. *)
Fixpoint for_each {S A} (step : S -> A -> result S) (l : list A) (s : S)
  : result S :=
  match l with
  | [] => Ok s
  | x :: l' => s' <- step s x ;; for_each step l' s'
  end.

(** [d[k].append(x)]: the subscript raises on a missing key. *)
Definition append_at (k x : string) (d : dict (list string))
  : result (dict (list string)) :=
  match dict_get k d with
  | Some l => Ok (dict_set k (l ++ [x]) d)
  | None => Raise (Exn KeyError ("'" ++ k ++ "'")%string)
  end.

(** [s.split(c)] for a separator of one character: at least one piece,
    empty pieces kept. *)
Fixpoint split (c : ascii) (s : string) : list string :=
  match s with
  | EmptyString => [EmptyString]
  | String a s' =>
      if Ascii.eqb a c then EmptyString :: split c s'
      else match split c s' with
           | piece :: pieces => String a piece :: pieces
           | [] => [String a EmptyString]
           end
  end.

(** [sep.join(l)] *)
Fixpoint join (sep : string) (l : list string) : string :=
  match l with
  | [] => EmptyString
  | [x] => x
  | x :: l' => (x ++ sep ++ join sep l')%string
  end.

(** The line feed, and [s.startswith(p)]. *)
Definition LF : ascii := ascii_of_nat 10.
Definition startswith (p s : string) : bool := String.prefix p s.

(** The truth value of a dynamically typed value. *)
Definition truthy (v : json) : bool :=
  match v with
  | JNull => false
  | JBool b => b
  | JInt n => negb (n =? 0)
  | JFloat f => negb (PrimFloat.eqb f 0%float)
  | JStr s => negb (is_empty s)
  | JList l => nonempty l
  | JDict d => nonempty d
  end.

(** [l.sort(key=key, reverse=True)] and [l.sort(key=key)] for float keys:
    stable, comparing keys with [<] only.  As with the integer sort, an
    element is inserted in front of the elements it was before. *)
Fixpoint insert_desc_float {A} (key : A -> float) (x : A) (l : list A) : list A :=
  match l with
  | [] => [x]
  | y :: l' =>
      if PrimFloat.ltb (key x) (key y) then y :: insert_desc_float key x l'
      else x :: l
  end.

Definition sorted_reverse_float {A} (key : A -> float) (l : list A) : list A :=
  fold_right (insert_desc_float key) [] l.

Fixpoint insert_asc_float {A} (key : A -> float) (x : A) (l : list A) : list A :=
  match l with
  | [] => [x]
  | y :: l' =>
      if PrimFloat.ltb (key y) (key x) then y :: insert_asc_float key x l'
      else x :: l
  end.

Definition sorted_float {A} (key : A -> float) (l : list A) : list A :=
  fold_right (insert_asc_float key) [] l.

End PyMore.

Import PyMore.

(* ===================================================================== *)
(** ** Change reports ([git/analyzer.py], the helpers beside the triage) *)
(* ===================================================================== *)

Module Reports.

(** *** [categorize_changes] *)

Definition categories_init : dict (list string) :=
  [("added", []); ("modified", []); ("deleted", []); ("renamed", []);
   ("copied", [])].

Definition categorize_step (categories : dict (list string))
  (item : string * Analyzer.FileChange) : result (dict (list string)) :=
  let '(name, change) := item in
  if (Analyzer.status change =? "A")%string then append_at "added" name categories
  else if (Analyzer.status change =? "M")%string then
    append_at "modified" name categories
  else if (Analyzer.status change =? "D")%string then
    append_at "deleted" name categories
  else if (Analyzer.status change =? "R")%string then
    append_at "renamed" name categories
  else if (Analyzer.status change =? "C")%string then
    append_at "copied" name categories
  else Ok categories.

Definition categorize_changes (changes : dict Analyzer.FileChange)
  : result (dict (list string)) :=
  for_each categorize_step changes categories_init.

(** The names of the files of one status, in the input's order. *)
Definition with_status (s : string) (changes : dict Analyzer.FileChange)
  : list string :=
  keys (filter (fun item => (Analyzer.status (snd item) =? s)%string) changes).

(** *** [get_change_statistics] *)

Record ChangeStats := mkChangeStats {
  total_files : Z;
  total_lines_added : Z;
  total_lines_removed : Z;
  files_added : Z;
  files_modified : Z;
  files_deleted : Z;
  files_renamed : Z;
  largest_change : Z;
  smallest_change : Z
}.

(** The counters while the loop runs; [smallest] is [None] while it still
    holds [float('inf')]. *)
Record Running := mkRunning {
  r_added : Z;
  r_removed : Z;
  r_files_added : Z;
  r_files_modified : Z;
  r_files_deleted : Z;
  r_files_renamed : Z;
  r_largest : Z;
  r_smallest : option Z
}.

Definition running_init : Running := mkRunning 0 0 0 0 0 0 0 None.

Definition statistics_step (r : Running) (change : Analyzer.FileChange) : Running :=
  let r := mkRunning (r_added r + Analyzer.lines_added change)
                     (r_removed r + Analyzer.lines_removed change)
                     (r_files_added r) (r_files_modified r) (r_files_deleted r)
                     (r_files_renamed r) (r_largest r) (r_smallest r) in
  let r :=
    if (Analyzer.status change =? "A")%string then
      mkRunning (r_added r) (r_removed r) (r_files_added r + 1)
                (r_files_modified r) (r_files_deleted r) (r_files_renamed r)
                (r_largest r) (r_smallest r)
    else if (Analyzer.status change =? "M")%string then
      mkRunning (r_added r) (r_removed r) (r_files_added r)
                (r_files_modified r + 1) (r_files_deleted r) (r_files_renamed r)
                (r_largest r) (r_smallest r)
    else if (Analyzer.status change =? "D")%string then
      mkRunning (r_added r) (r_removed r) (r_files_added r)
                (r_files_modified r) (r_files_deleted r + 1) (r_files_renamed r)
                (r_largest r) (r_smallest r)
    else if (Analyzer.status change =? "R")%string then
      mkRunning (r_added r) (r_removed r) (r_files_added r)
                (r_files_modified r) (r_files_deleted r) (r_files_renamed r + 1)
                (r_largest r) (r_smallest r)
    else r in
  let total_lines := Analyzer.lines_added change + Analyzer.lines_removed change in
  let largest := if r_largest r <? total_lines then total_lines else r_largest r in
  let smallest :=
    match r_smallest r with
    | None => Some total_lines
    | Some s => if total_lines <? s then Some total_lines else Some s
    end in
  mkRunning (r_added r) (r_removed r) (r_files_added r) (r_files_modified r)
            (r_files_deleted r) (r_files_renamed r) largest smallest.

Definition get_change_statistics (changes : dict Analyzer.FileChange) : ChangeStats :=
  let r := fold_left statistics_step (values changes) running_init in
  mkChangeStats (len changes) (r_added r) (r_removed r) (r_files_added r)
                (r_files_modified r) (r_files_deleted r) (r_files_renamed r)
                (r_largest r)
                (match r_smallest r with None => 0 | Some s => s end).

Definition size_of (change : Analyzer.FileChange) : Z :=
  Analyzer.lines_added change + Analyzer.lines_removed change.

Definition has_status (s : string) (change : Analyzer.FileChange) : bool :=
  (Analyzer.status change =? s)%string.

(** The number of elements of [l] that satisfy [p]. *)
Definition count {A} (p : A -> bool) (l : list A) : Z := len (filter p l).

(** A file whose status is none of the four letters the loop counts. *)
Definition uncounted (change : Analyzer.FileChange) : bool :=
  negb (has_status "A" change || has_status "M" change
        || has_status "D" change || has_status "R" change).

(** What the running counters hold once the loop has seen [done]. *)
Definition counted (r : Running) (done : list Analyzer.FileChange) : Prop :=
  r_added r = total Analyzer.lines_added done
  /\ r_removed r = total Analyzer.lines_removed done
  /\ r_files_added r = count (has_status "A") done
  /\ r_files_modified r = count (has_status "M") done
  /\ r_files_deleted r = count (has_status "D") done
  /\ r_files_renamed r = count (has_status "R") done
  /\ 0 <= r_largest r
  /\ (forall c, In c done -> size_of c <= r_largest r)
  /\ (r_largest r = 0 \/ exists c, In c done /\ size_of c = r_largest r)
  /\ match r_smallest r with
     | None => done = []
     | Some s => (forall c, In c done -> s <= size_of c)
                 /\ exists c, In c done /\ size_of c = s
     end.

(** *** [chunk_large_diffs] *)

Definition is_header_line (line : string) : bool :=
  startswith "diff --git" line || startswith "index " line
  || startswith "---" line || startswith "+++" line.

(** The leading header lines: the loop stops at the first other line. *)
Fixpoint header_of (diff_lines : list string) : list string :=
  match diff_lines with
  | [] => []
  | line :: rest => if is_header_line line then line :: header_of rest else []
  end.

Definition render (header_lines body : list string) : string :=
  join (String LF "") (header_lines ++ body).

(** One iteration of [for line in content_lines], on the pair of [chunks]
    and [current_chunk]. *)
Definition chunk_step (chunk_size : Z) (header_lines : list string)
  (state : list string * list string) (line : string)
  : list string * list string :=
  let '(chunks, current_chunk) := state in
  let current_chunk := current_chunk ++ [line] in
  if chunk_size <=? len current_chunk
  then (chunks ++ [render header_lines current_chunk], [])
  else (chunks, current_chunk).

Definition chunk_diff (chunk_size : Z) (diff : string) : list string :=
  let diff_lines := split LF diff in
  if len diff_lines <=? chunk_size then [diff]
  else
    let header_lines := header_of diff_lines in
    let content_lines := slice_from (len header_lines) diff_lines in
    let '(chunks, current_chunk) :=
      fold_left (chunk_step chunk_size header_lines) content_lines ([], []) in
    if nonempty current_chunk
    then chunks ++ [render header_lines current_chunk]
    else chunks.

Definition chunk_large_diffs (changes : dict Analyzer.FileChange) (chunk_size : Z)
  : dict (list string) :=
  fold_left (fun chunked_diffs item =>
               dict_set (fst item) (chunk_diff chunk_size (Analyzer.diff (snd item)))
                        chunked_diffs)
            changes [].

(** The size a full chunk body has: [chunk_size], and 1 when [chunk_size]
    is smaller than that. *)
Definition body_size (chunk_size : Z) : Z := Z.max 1 chunk_size.

(** While the loop runs: the chunks made so far are full bodies, and they
    and the lines collected since are what has been read. *)
Definition chunking (chunk_size : Z) (header_lines : list string)
  (state : list string * list string) (done : list string) : Prop :=
  exists full,
    fst state = map (render header_lines) full
    /\ List.concat full ++ snd state = done
    /\ Forall (fun body => len body = body_size chunk_size) full
    /\ len (snd state) < body_size chunk_size.

Section WithLibrary.

Variable fnmatch : string -> string -> bool.
Variable suffix_lower : string -> string.
(** [s.lower()] *)
Variable lower : string -> string.

(** *** [get_file_types] *)

Definition group_key (name : string) : string :=
  let file_ext := suffix_lower name in
  if is_empty file_ext then "no_extension" else file_ext.

Definition file_types_step (file_types : dict (list string)) (name : string)
  : result (dict (list string)) :=
  let file_ext := suffix_lower name in
  let file_ext := if is_empty file_ext then "no_extension" else file_ext in
  let file_types :=
    if negb (dict_contains file_ext file_types)
    then dict_set file_ext [] file_types else file_types in
  append_at file_ext name file_types.

Definition get_file_types (changes : dict Analyzer.FileChange)
  : result (dict (list string)) :=
  for_each file_types_step (keys changes) [].

(** The files of one group, in the input's order, and a group as the
    dictionary holds it: absent when it would be empty. *)
Definition grouped (file_ext : string) (names : list string) : list string :=
  filter (fun name => String.eqb (group_key name) file_ext) names.

Definition group_entry (files : list string) : option (list string) :=
  match files with [] => None | _ => Some files end.

(** *** [prioritize_files] *)

Definition in_list (s : string) (l : list string) : bool :=
  existsb (String.eqb s) l.

Definition calculate_priority (name : string) (change : Analyzer.FileChange) : float :=
  let score := 0%float in
  let total_lines := Analyzer.lines_added change + Analyzer.lines_removed change in
  let score := (score + float_of_int total_lines * 0.1)%float in
  let file_ext := suffix_lower name in
  let score :=
    if in_list file_ext [".py"; ".js"; ".ts"; ".java"; ".go"; ".rs"]
    then (score + float_of_int 100)%float
    else if in_list file_ext [".jsx"; ".tsx"; ".cpp"; ".c"; ".cs"]
    then (score + float_of_int 50)%float
    else score in
  let score :=
    if (Analyzer.status change =? "A")%string
    then (score + float_of_int 75)%float else score in
  let score :=
    if existsb (fun pattern => fnmatch (lower name) pattern)
               ["*auth*"; "*security*"; "*password*"; "*token*"; "*key*"]
    then (score + float_of_int 200)%float else score in
  let score :=
    if existsb (fun pattern => fnmatch name pattern)
               ["*.config.*"; "*.env*"; "Dockerfile*"; "*.yml"; "*.yaml"]
    then (score + float_of_int 150)%float else score in
  score.

Definition prioritize_files (changes : dict Analyzer.FileChange) : list string :=
  let file_priorities :=
    map (fun item => (fst item, calculate_priority (fst item) (snd item))) changes in
  let file_priorities := sorted_reverse_float snd file_priorities in
  map fst file_priorities.

End WithLibrary.

End Reports.

(* ===================================================================== *)
(** ** The review run as a whole ([review/engine.py], [cli.py]) *)
(* ===================================================================== *)

Module Run.

Import Engine.

(** An issue whose severity is one of the four. *)
Definition known_severity (issue : ReviewIssue) : Prop :=
  exists s, severity issue = JStr s /\ In s SEVERITY_LEVELS.

(** The counters of a file's result agree with its issues. *)
Definition counters_consistent (r : FileReviewResult) : Prop :=
  total_issues r = len (issues r)
  /\ error_count r = count_severity "error" (issues r)
  /\ warning_count r = count_severity "warning" (issues r)
  /\ info_count r = count_severity "info" (issues r)
  /\ suggestion_count r = count_severity "suggestion" (issues r)
  /\ error_count r + warning_count r + info_count r + suggestion_count r
     = total_issues r
  /\ Forall known_severity (issues r).

(** The configuration with [parallel_processing] set. *)
Definition with_parallel (b : bool) (cfg : ReviewConfig) : ReviewConfig :=
  mkReviewConfig (enabled_rules cfg) (severity_threshold cfg)
                 (max_issues_per_file cfg) (batch_size cfg) b (max_workers cfg).

Section Command.

Variable fnmatch : string -> string -> bool.
Variable suffix_lower : string -> string.
Variable git_cfg : Analyzer.GitConfig.
Variable get_rule_templates : string -> result (list string).
Variable load_rules_for_file : string -> list string -> result (dict json).
Variable _build_review_prompt :
  string -> Analyzer.FileChange -> dict json -> result string.
Variable invoke_model : string -> string -> result Client.BedrockResponse.
Variable json_loads : string -> result (dict json).
Variable float_sum : list float -> float.
Variable as_completed :
  list (dict FileReviewResult) -> list (dict FileReviewResult).
Variable cfg : ReviewConfig.

(** The [review] command of [cli.py], from the changes it got from git to
    the result it shows: nothing to show when there are no changes or when
    the triage leaves none. *)
Definition review_command (changes : dict Analyzer.FileChange)
  : result (option ReviewResult) :=
  if negb (nonempty changes) then Ok None
  else
    let analysis_result :=
      Analyzer.analyze_changes fnmatch suffix_lower git_cfg changes in
    if negb (nonempty (Analyzer.filtered_changes analysis_result)) then Ok None
    else
      review_result <-
        review_changes get_rule_templates load_rules_for_file
          _build_review_prompt invoke_model json_loads float_sum as_completed
          cfg (Analyzer.filtered_changes analysis_result) ;;
      Ok (Some review_result).

End Command.

End Run.

(* ===================================================================== *)
(** ** [bedrock/models.py]: queries on the catalog *)
(* ===================================================================== *)

Module Catalog.

Import Models.

(** [ModelManager.list_models] *)
Definition list_models : list string := keys _models.

(** [ModelManager.list_models_by_provider] *)
Definition list_models_by_provider (provider' : string) : list string :=
  map fst (filter (fun item => String.eqb (provider (snd item)) provider') _models).

(** [ModelManager.get_recommended_models] *)
Definition get_recommended_models (use_case : string) : list string :=
  if String.eqb use_case "code_review" then
    ["anthropic.claude-3-5-sonnet-20241022-v2:0";
     "anthropic.claude-3-sonnet-20240229-v1:0";
     "meta.llama3-70b-instruct-v1:0";
     "cohere.command-r-plus-v1:0"]
  else if String.eqb use_case "cost_optimized" then
    ["anthropic.claude-3-haiku-20240307-v1:0";
     "meta.llama3-8b-instruct-v1:0";
     "cohere.command-r-v1:0"]
  else if String.eqb use_case "performance" then
    ["anthropic.claude-3-haiku-20240307-v1:0";
     "meta.llama3-8b-instruct-v1:0"]
  else if String.eqb use_case "long_context" then
    ["ai21.jamba-instruct-v1:0";
     "anthropic.claude-3-5-sonnet-20241022-v2:0";
     "cohere.command-r-plus-v1:0"]
  else
    ["anthropic.claude-3-5-sonnet-20241022-v2:0";
     "anthropic.claude-3-sonnet-20240229-v1:0";
     "meta.llama3-70b-instruct-v1:0"].

(** The entry [compare_models] makes for a model. *)
Definition comparison_entry (model_info : ModelInfo) (cost : float) : dict json :=
  [("name", JStr (name model_info));
   ("provider", JStr (provider model_info));
   ("max_tokens", JInt (max_tokens model_info));
   ("context_window", JInt (context_window model_info));
   ("input_cost_per_1k", JFloat (input_cost_per_1k model_info));
   ("output_cost_per_1k", JFloat (output_cost_per_1k model_info));
   ("recommended_for_code", JBool (recommended_for_code model_info));
   ("cost_per_review_estimate", JFloat cost)].

(** The body of the loop of [compare_models]. *)
Definition compare_step (comparison : dict (dict json)) (model_id : string)
  : result (dict (dict json)) :=
  if negb (is_model_supported model_id) then Ok comparison
  else
    model_info <- get_model_info model_id ;;
    cost <- get_cost_estimate model_id 2000 500 ;;
    Ok (dict_set model_id (comparison_entry model_info cost) comparison).

(** [ModelManager.compare_models] *)
Definition compare_models (model_ids : list string) : result (dict (dict json)) :=
  for_each compare_step model_ids [].

(** The truth value of an optional argument: [None] is false, and so are
    [0.0], [0] and the empty string. *)
Definition given_float (x : option float) : bool :=
  match x with Some f => negb (PrimFloat.eqb f 0%float) | None => false end.

Definition given_int (x : option Z) : bool :=
  match x with Some n => negb (n =? 0) | None => false end.

Definition given_str (x : option string) : bool :=
  match x with Some s => negb (is_empty s) | None => false end.

Section Criteria.

Variable max_cost_per_1k : option float.
Variable min_context_window : option Z.
Variable provider' : option string.
Variable code_optimized : bool.

(** The body of the loop of [get_model_by_criteria]: the comparisons are
    made only where the argument is given, so the [None] cases of the
    matches below are never reached. *)
Definition criteria_step (matching_models : list string)
  (item : string * ModelInfo) : list string :=
  let '(model_id, model_info) := item in
  if code_optimized && negb (recommended_for_code model_info)
  then matching_models
  else if given_str provider'
          && negb (match provider' with
                   | Some p => String.eqb (provider model_info) p
                   | None => false
                   end)
  then matching_models
  else if given_float max_cost_per_1k
          && match max_cost_per_1k with
             | Some c => PrimFloat.ltb c (output_cost_per_1k model_info)
             | None => false
             end
  then matching_models
  else if given_int min_context_window
          && match min_context_window with
             | Some w => context_window model_info <? w
             | None => false
             end
  then matching_models
  else matching_models ++ [model_id].

(** The sort key [self._models[x].output_cost_per_1k]. *)
Definition cost_key (model_id : string) : result float :=
  model_info <- models_subscript model_id ;;
  Ok (output_cost_per_1k model_info).

(** [list.sort(key=...)] computes the key of every element, then sorts. *)
Definition sort_by_cost (l : list string) : result (list string) :=
  decorated <-
    for_each (fun acc x => k <- cost_key x ;; Ok (acc ++ [(x, k)])) l [] ;;
  Ok (map fst (sorted_float snd decorated)).

(** [ModelManager.get_model_by_criteria] *)
Definition get_model_by_criteria : result (list string) :=
  let matching_models := fold_left criteria_step _models [] in
  sort_by_cost matching_models.

(** What the four checks of the loop come to. *)
Definition meets_criteria (model_info : ModelInfo) : bool :=
  (negb code_optimized || recommended_for_code model_info)
  && (match provider' with
      | Some p => is_empty p || String.eqb (provider model_info) p
      | None => true
      end)
  && (match max_cost_per_1k with
      | Some c => PrimFloat.eqb c 0%float
                  || negb (PrimFloat.ltb c (output_cost_per_1k model_info))
      | None => true
      end)
  && (match min_context_window with
      | Some w => (w =? 0) || negb (context_window model_info <? w)
      | None => true
      end).

End Criteria.

(** The output cost of a model of the catalog. *)
Definition output_cost (model_id : string) : float :=
  match dict_get model_id _models with
  | Some model_info => output_cost_per_1k model_info
  | None => 0%float
  end.

(** Costs that do not go down along the list. *)
Fixpoint ascending_cost (l : list string) : Prop :=
  match l with
  | [] => True
  | x :: l' =>
      Forall (fun y => PrimFloat.leb (output_cost x) (output_cost y) = true) l'
      /\ ascending_cost l'
  end.

End Catalog.

(* ===================================================================== *)
(** ** [config/validator.py] and [bedrock/client.py]: the model a
       configuration names, and the request made for it *)
(* ===================================================================== *)

Module Requests.

Import Models.

(** [ConfigValidator.BEDROCK_MODELS], the values the schema allows for
    [bedrock.model]. *)
Definition BEDROCK_MODELS : list string :=
  ["anthropic.claude-3-5-sonnet-20241022-v2:0";
   "anthropic.claude-3-haiku-20240307-v1:0";
   "anthropic.claude-3-sonnet-20240229-v1:0";
   "meta.llama3-70b-instruct-v1:0";
   "meta.llama3-8b-instruct-v1:0";
   "cohere.command-r-plus-v1:0";
   "cohere.command-r-v1:0";
   "ai21.jamba-instruct-v1:0"].

(** The fields of [BedrockClient] the request builders read. *)
Record ClientConfig := mkClientConfig {
  client_model_id : string;
  client_max_tokens : json;
  client_temperature : json
}.

Section Builders.

Variable self : ClientConfig.

(** The truth value of [system_prompt: Optional[str]]. *)
Definition given (system_prompt : option string) : bool :=
  match system_prompt with Some s => negb (is_empty s) | None => false end.

Definition text_of (system_prompt : option string) : string :=
  match system_prompt with Some s => s | None => "None" end.

Definition NL : string := String LF "".

Definition _build_anthropic_request (prompt : string)
  (system_prompt : option string) : dict json :=
  let messages := JList [JDict [("role", JStr "user"); ("content", JStr prompt)]] in
  let request :=
    [("anthropic_version", JStr "bedrock-2023-05-31");
     ("max_tokens", client_max_tokens self);
     ("temperature", client_temperature self);
     ("messages", messages)] in
  if given system_prompt
  then dict_set "system" (JStr (text_of system_prompt)) request
  else request.

Definition _build_llama_request (prompt : string)
  (system_prompt : option string) : dict json :=
  let full_prompt :=
    if given system_prompt
    then ("<s>[INST] <<SYS>>" ++ NL ++ text_of system_prompt ++ NL
          ++ "<</SYS>>" ++ NL ++ NL ++ prompt ++ " [/INST]")%string
    else prompt in
  [("prompt", JStr full_prompt);
   ("max_gen_len", client_max_tokens self);
   ("temperature", client_temperature self);
   ("top_p", JFloat 0.9)].

Definition _build_cohere_request (prompt : string)
  (system_prompt : option string) : dict json :=
  let full_prompt :=
    if given system_prompt
    then (text_of system_prompt ++ NL ++ NL ++ prompt)%string
    else prompt in
  [("message", JStr full_prompt);
   ("max_tokens", client_max_tokens self);
   ("temperature", client_temperature self);
   ("p", JFloat 0.9)].

Definition _build_ai21_request (prompt : string)
  (system_prompt : option string) : dict json :=
  let full_prompt :=
    if given system_prompt
    then (text_of system_prompt ++ NL ++ NL ++ prompt)%string
    else prompt in
  [("messages",
    JList [JDict [("role", JStr "user"); ("content", JStr full_prompt)]]);
   ("max_tokens", client_max_tokens self);
   ("temperature", client_temperature self);
   ("top_p", JFloat 0.9)].

Definition _build_request_body (prompt : string)
  (system_prompt : option string) : result (dict json) :=
  model_info <- get_model_info (client_model_id self) ;;
  if String.eqb (provider model_info) "anthropic" then
    Ok (_build_anthropic_request prompt system_prompt)
  else if String.eqb (provider model_info) "meta" then
    Ok (_build_llama_request prompt system_prompt)
  else if String.eqb (provider model_info) "cohere" then
    Ok (_build_cohere_request prompt system_prompt)
  else if String.eqb (provider model_info) "ai21" then
    Ok (_build_ai21_request prompt system_prompt)
  else
    Raise (Client.bedrock_error
             ("Unsupported model provider: " ++ provider model_info) "").

End Builders.



End Requests.

(* ===================================================================== *)
(** ** [config/manager.py]: the rule templates of a file *)
(* ===================================================================== *)

Module Config.

(** A value of [review.rule_templates]: a template name, a list of names,
    or (before validation) anything else. *)
Inductive templates :=
| One (name : string)
| Many (names : list string)
| Other.

(** [x in seen] *)
Definition mem (x : string) (l : list string) : bool :=
  existsb (String.eqb x) l.

Section WithLibrary.

Variable fnmatch : string -> string -> bool.
Variable rule_templates : dict templates.

(** The body of the first loop of [get_rule_templates]. *)
Definition applicable_step (filename : string)
  (applicable_templates : list string) (item : string * templates)
  : list string :=
  let '(pattern, templates) := item in
  if fnmatch filename pattern then
    match templates with
    | One name => applicable_templates ++ [name]
    | Many names => applicable_templates ++ names
    | Other => applicable_templates
    end
  else applicable_templates.

(** The body of the second loop, on the pair of [seen] and
    [unique_templates]. *)
Definition unique_step (state : list string * list string) (template : string)
  : list string * list string :=
  let '(seen, unique_templates) := state in
  if negb (mem template seen)
  then (template :: seen, unique_templates ++ [template])
  else state.

Definition applicable (filename : string) : list string :=
  fold_left (applicable_step filename) rule_templates [].

(** [ConfigManager.get_rule_templates] *)
Definition get_rule_templates (filename : string) : list string :=
  let applicable_templates := applicable filename in
  let '(seen, unique_templates) :=
    fold_left unique_step applicable_templates ([], []) in
  unique_templates.

(** A value offers a template name. *)
Definition offers (value : templates) (name : string) : Prop :=
  match value with
  | One name' => name' = name
  | Many names => In name names
  | Other => False
  end.

End WithLibrary.

End Config.

(* ===================================================================== *)
(** ** [review/rules.py]: the rules of a file *)
(* ===================================================================== *)

Module Rules.

Section WithTemplates.

(** [_load_rule_template] reads the template files; [_apply_file_overrides]
    works on whatever the template holds for a rule.  Either may raise. *)
Variable _load_rule_template : string -> result (dict json).
Variable _apply_file_overrides : json -> string -> result json.
Variable enabled_rules : list string.

(** The body of the first loop of [load_rules_for_file]: a template that
    fails to load is skipped. *)
Definition load_step (all_rules : dict json) (template_name : string)
  : dict json :=
  match _load_rule_template template_name with
  | Ok template_rules =>
      if nonempty template_rules then dict_update all_rules template_rules
      else all_rules
  | Raise _ => all_rules
  end.

(** The body of the second loop. *)
Definition filter_step (filename : string) (filtered_rules : dict json)
  (item : string * json) : result (dict json) :=
  let '(rule_name, rule_config) := item in
  if Config.mem rule_name enabled_rules then
    final_config <- _apply_file_overrides rule_config filename ;;
    Ok (dict_set rule_name final_config filtered_rules)
  else Ok filtered_rules.

Definition merged_rules (template_names : list string) : dict json :=
  fold_left load_step template_names [].

(** [RuleProcessor.load_rules_for_file] *)
Definition load_rules_for_file (filename : string) (template_names : list string)
  : result (dict json) :=
  let all_rules := merged_rules template_names in
  for_each (filter_step filename) all_rules [].


End WithTemplates.

End Rules.

(* ===================================================================== *)
(** ** [git/operations.py]: counting the lines of a diff *)
(* ===================================================================== *)

Module Operations.

(** The body of the loop of [_count_diff_lines], on the pair of
    [lines_added] and [lines_removed]. *)
Definition count_step (counts : Z * Z) (line : string) : Z * Z :=
  let '(lines_added, lines_removed) := counts in
  if startswith "+" line && negb (startswith "+++" line)
  then (lines_added + 1, lines_removed)
  else if startswith "-" line && negb (startswith "---" line)
  then (lines_added, lines_removed + 1)
  else (lines_added, lines_removed).

(** [GitOperations._count_diff_lines] *)
Definition _count_diff_lines (diff : string) : Z * Z :=
  fold_left count_step (split LF diff) (0, 0).

(** Two diffs, one after the other on lines of their own. *)
Definition stacked (first second : string) : string :=
  (first ++ String LF second)%string.

End Operations.

(* ===================================================================== *)
(** ** [ui/interactive.py]: whether the push goes on *)
(* ===================================================================== *)

Module Interactive.

Import Engine.

Section Ask.

(** [Confirm.ask(prompt, default=...)]: the user's answer. *)
Variable ask : string -> bool -> bool.
Variable interactive_mode : bool.

Definition _get_interactive_decision (result : ReviewResult) : bool :=
  if 0 <? total_errors result then
    ask "[red]Do you want to continue with the push anyway?[/red]" false
  else if 0 <? total_warnings result then
    ask "[yellow]Continue with the push?[/yellow]" true
  else true.

(** [InteractiveUI.get_user_decision] *)
Definition get_user_decision (result : ReviewResult) : bool :=
  if negb interactive_mode then total_errors result =? 0
  else _get_interactive_decision result.

End Ask.

(** [sys.exit(0 if continue_push else 5)] at the end of both commands. *)
Definition exit_code (continue_push : bool) : Z :=
  if continue_push then 0 else 5.

(** A file's result holds an issue of the given severity. *)
Definition has_severity (s : string) (r : FileReviewResult) : Prop :=
  exists issue, In issue (issues r) /\ severity issue = JStr s.

End Interactive.

(* ===================================================================== *)
(** ** Further sample inputs *)
(* ===================================================================== *)

Module Cases.

(** A diff of a header of four lines and five lines of content. *)
Definition patch : string :=
  join (String LF "")
    ["diff --git a/x.py b/x.py"; "index 1a2b..3c4d 100644"; "--- a/x.py";
     "+++ b/x.py"; "@@ -1,2 +1,3 @@"; " keep"; "+one"; "+two"; "-three"].

Definition patched : dict Analyzer.FileChange :=
  [("x.py", Analyzer.mkFileChange "x.py" "M" 2 1 patch None);
   ("y.py", Analyzer.mkFileChange "y.py" "A" 1 0 "+new" None)].

(** [fnmatch] on the patterns used here: a leading star matches any
    beginning, every other character itself. *)
Definition fnmatch_star (name pattern : string) : bool :=
  match pattern with
  | String "*" rest =>
      (String.length rest <=? String.length name)%nat
      && String.eqb (substring (String.length name - String.length rest)
                               (String.length rest) name) rest
  | _ => String.eqb name pattern
  end.

Definition rule_templates : dict Config.templates :=
  [("*.py", Config.Many ["python"; "security"]);
   ("x.py", Config.Many ["security"; "legacy"; "python"]);
   ("*.md", Config.One "docs")].

(** Templates on disk: [broken] cannot be read. *)
Definition load_rule_template (template_name : string) : result (dict json) :=
  if String.eqb template_name "python" then
    Ok [("style", JDict [("severity", JStr "info")]);
        ("naming", JDict [("severity", JStr "warning")])]
  else if String.eqb template_name "security" then
    Ok [("secrets", JDict [("severity", JStr "error")]);
        ("style", JDict [("severity", JStr "warning")])]
  else if String.eqb template_name "broken" then
    Raise (Exn ValueError "mapping values are not allowed here")
  else Ok [].

(** Overrides that leave every rule as it is. *)
Definition apply_file_overrides (rule_config : json) (filename : string)
  : result json := Ok rule_config.

(** A user who takes the default answer. *)
Definition ask (prompt : string) (default : bool) : bool := default.

(** [f"{x:.4f}"] on the one cost of the sample runs, [0.0]. *)
Definition format_cost (x : float) : string := "0.0000".

End Cases.

(* ===================================================================== *)
(** ** [review/formatter.py]: the summary of a run *)
(* ===================================================================== *)

Module Formatter.

Import Engine.

Section WithConfig.

Variable color_output : bool.
(** [f"{x:.4f}"] *)
Variable format_cost : float -> string.

Definition ESC : string := String (ascii_of_nat 27) "".

Definition colors : dict string :=
  [("red", ESC ++ "[91m"); ("green", ESC ++ "[92m"); ("yellow", ESC ++ "[93m");
   ("blue", ESC ++ "[94m"); ("magenta", ESC ++ "[95m"); ("cyan", ESC ++ "[96m");
   ("white", ESC ++ "[97m"); ("reset", ESC ++ "[0m")]%string.

Definition _colorize (text color : string) (bold : bool) : string :=
  if negb color_output then text
  else
    let color_code := dict_get_default color (ESC ++ "[97m")%string colors in
    let reset_code := (ESC ++ "[0m")%string in
    let color_code :=
      if bold then (ESC ++ "[1m" ++ color_code)%string else color_code in
    (color_code ++ text ++ reset_code)%string.

(** The list [parts] of [format_summary_only]. *)
Definition summary_parts (result : ReviewResult) : list string :=
  let parts := [] in
  let parts :=
    if 0 <? total_errors result
    then parts ++ [(str_of_int (total_errors result) ++ " errors")%string]
    else parts in
  let parts :=
    if 0 <? total_warnings result
    then parts ++ [(str_of_int (total_warnings result) ++ " warnings")%string]
    else parts in
  let parts :=
    if 0 <? total_info result
    then parts ++ [(str_of_int (total_info result) ++ " info")%string]
    else parts in
  let parts :=
    if 0 <? total_suggestions result
    then parts ++ [(str_of_int (total_suggestions result) ++ " suggestions")%string]
    else parts in
  parts.

(** [ResultFormatter.format_summary_only] *)
Definition format_summary_only (result : ReviewResult) : string :=
  let lines := [] in
  let lines :=
    if run_total_issues result =? 0 then
      lines ++ [_colorize "âœ… No issues found" "green" false]
    else
      let summary :=
        ("Found " ++ str_of_int (run_total_issues result) ++ " issues: "
         ++ join ", " (summary_parts result))%string in
      if 0 <? total_errors result
      then lines ++ [_colorize ("âŒ " ++ summary)%string "red" false]
      else lines ++ [_colorize ("âš ï¸ " ++ summary)%string "yellow" false] in
  let lines :=
    if PrimFloat.ltb 0%float (total_cost result)
    then lines ++ [("Cost: $" ++ format_cost (total_cost result))%string]
    else lines in
  join (String LF "") lines.

(** [ResultFormatter.get_issue_counts_by_severity] *)
Definition get_issue_counts_by_severity (result : ReviewResult) : dict Z :=
  [("error", total_errors result); ("warning", total_warnings result);
   ("info", total_info result); ("suggestion", total_suggestions result)].

(** [ResultFormatter.get_files_with_issues] *)
Definition get_files_with_issues (result : ReviewResult) : list string :=
  map fst (filter (fun item => 0 <? total_issues (snd item)) (files result)).

End WithConfig.

End Formatter.

(* ===================================================================== *)
(** * Properties *)
(* ===================================================================== *)

(** ** Facts about the Python runtime model *)

Section PyFacts.

Context {V : Type}.

Lemma dict_set_fresh (k : string) (v : V) (d : dict V) :
  ~ In k (keys d) -> dict_set k v d = d ++ [(k, v)].
Proof.
  induction d as [|[k' v'] d IH]; simpl; intros Hk; [reflexivity|].
  destruct (String.eqb_spec k k') as [->|Hne].
  - exfalso. apply Hk. now left.
  - f_equal. apply IH. intros Hin. apply Hk. now right.
Qed.

Lemma dict_update_fresh (e d : dict V) :
  NoDup (keys d ++ keys e) -> dict_update d e = d ++ e.
Proof.
  unfold dict_update. revert d.
  induction e as [|[k v] e IH]; simpl; intros d Hnd.
  - now rewrite app_nil_r.
  - rewrite dict_set_fresh.
    + rewrite IH.
      * now rewrite <- app_assoc.
      * unfold keys in *. rewrite map_app. simpl. rewrite <- app_assoc. exact Hnd.
    + apply NoDup_remove_2 in Hnd. intros Hin. apply Hnd.
      apply in_or_app. now left.
Qed.

Lemma dict_of_items_nodup (items : list (string * V)) :
  NoDup (keys items) -> dict_of_items items = items.
Proof.
  intros Hnd. change (dict_of_items items) with (dict_update [] items).
  now rewrite dict_update_fresh.
Qed.

Lemma dict_get_app_fresh (k : string) (d e : dict V) :
  ~ In k (keys d) -> dict_get k (d ++ e) = dict_get k e.
Proof.
  induction d as [|[k' v'] d IH]; simpl; intros Hk; [reflexivity|].
  destruct (String.eqb_spec k k') as [->|Hne].
  - exfalso. apply Hk. now left.
  - apply IH. intros Hin. apply Hk. now right.
Qed.

Lemma dict_get_In (k : string) (v : V) (d : dict V) :
  NoDup (keys d) -> In (k, v) d -> dict_get k d = Some v.
Proof.
  induction d as [|[k' v'] d IH]; simpl; intros Hnd Hin; [contradiction|].
  inversion Hnd as [|? ? Hnotin Hnd']; subst.
  destruct Hin as [Heq|Hin].
  - inversion Heq; subst. now rewrite String.eqb_refl.
  - destruct (String.eqb_spec k k') as [->|Hne].
    + exfalso. apply Hnotin. change k' with (fst (k', v)). now apply in_map.
    + now apply IH.
Qed.

End PyFacts.

Lemma distinct_NoDup (l : list string) : distinct l = true -> NoDup l.
Proof.
  induction l as [|x l IH]; simpl; intros H; [constructor|].
  apply andb_true_iff in H as [Hx Hl]. constructor; [|now apply IH].
  intros Hin. apply negb_true_iff in Hx.
  assert (existsb (String.eqb x) l = true) as Hex.
  { apply existsb_exists. exists x. split; [exact Hin | apply String.eqb_refl]. }
  congruence.
Qed.

Section SliceFacts.

Context {A : Type}.

Lemma slice_to_from (n : Z) (l : list A) : slice_to n l ++ slice_from n l = l.
Proof. apply firstn_skipn. Qed.

Lemma slice_index_nonneg (n : Z) (size : nat) :
  0 <= n <= Z.of_nat size -> slice_index n size = Z.to_nat n.
Proof.
  intros Hn. unfold slice_index.
  destruct (Z.ltb_spec n 0); [lia|]. f_equal. lia.
Qed.

Lemma slice_to_length (n : Z) (l : list A) :
  0 <= n <= len l -> len (slice_to n l) = n.
Proof.
  intros Hn. unfold len, slice_to in *.
  rewrite slice_index_nonneg by exact Hn.
  rewrite length_firstn. lia.
Qed.

Lemma slice_from_length (n : Z) (l : list A) :
  0 <= n <= len l -> len (slice_from n l) = len l - n.
Proof.
  intros Hn. unfold len, slice_from in *.
  rewrite slice_index_nonneg by exact Hn.
  rewrite length_skipn. lia.
Qed.

End SliceFacts.

Section SortFacts.

Context {A : Type}.
Variable key : A -> Z.

Lemma insert_desc_perm (x : A) (l : list A) :
  Permutation (insert_desc key x l) (x :: l).
Proof.
  induction l as [|y l IH]; simpl; [reflexivity|].
  destruct (key y <=? key x); [reflexivity|].
  rewrite IH. apply perm_swap.
Qed.

Lemma sorted_reverse_perm (l : list A) :
  Permutation (sorted_reverse key l) l.
Proof.
  induction l as [|x l IH]; simpl; [reflexivity|].
  rewrite insert_desc_perm. now apply perm_skip.
Qed.

Lemma insert_desc_descending (x : A) (l : list A) :
  descending key l -> descending key (insert_desc key x l).
Proof.
  induction l as [|y l IH]; simpl; intros Hd.
  - split; [constructor | exact I].
  - destruct Hd as [Hall Hd].
    destruct (Z.leb_spec (key y) (key x)) as [Hle|Hgt]; simpl.
    + split; [|split; assumption].
      constructor; [exact Hle|].
      eapply Forall_impl; [|exact Hall]. simpl. intros; lia.
    + split; [|now apply IH].
      eapply Permutation_Forall.
      * symmetry. apply insert_desc_perm.
      * constructor; [lia | exact Hall].
Qed.

Lemma sorted_reverse_descending (l : list A) :
  descending key (sorted_reverse key l).
Proof.
  induction l as [|x l IH]; simpl; [exact I|].
  now apply insert_desc_descending.
Qed.

(** Stability: among the elements of one key the sort changes nothing. *)
Lemma insert_desc_with_key (k : Z) (x : A) (l : list A) :
  with_key key k (insert_desc key x l) = with_key key k (x :: l).
Proof.
  unfold with_key.
  induction l as [|y l IH]; simpl; [reflexivity|].
  destruct (Z.leb_spec (key y) (key x)) as [Hle|Hgt]; [reflexivity|].
  simpl. rewrite IH. simpl.
  destruct (Z.eqb_spec (key y) k), (Z.eqb_spec (key x) k); try reflexivity; lia.
Qed.

Lemma sorted_reverse_stable (k : Z) (l : list A) :
  with_key key k (sorted_reverse key l) = with_key key k l.
Proof.
  induction l as [|x l IH]; simpl; [reflexivity|].
  rewrite insert_desc_with_key. unfold with_key in *. simpl.
  now rewrite IH.
Qed.

Lemma descending_head (x : A) (l : list A) :
  descending key (x :: l) -> forall y, In y (x :: l) -> key y <= key x.
Proof.
  intros [Hall _] y [<-|Hy]; [lia|].
  rewrite Forall_forall in Hall. now apply Hall.
Qed.

Lemma in_with_key (y : A) (l : list A) :
  In y l -> In y (with_key key (key y) l).
Proof.
  intros Hy. apply filter_In. split; [exact Hy | apply Z.eqb_refl].
Qed.

Lemma with_key_in (k : Z) (y : A) (l : list A) :
  In y (with_key key k l) -> In y l.
Proof. intros Hy. now apply filter_In in Hy. Qed.

(** A descending list is determined by its elements of each key, taken in
    their order: two stable descending arrangements of the same input
    are the same list. *)
Lemma stable_descending_unique (l1 : list A) : forall l2 : list A,
  descending key l1 -> descending key l2 ->
  (forall k, with_key key k l1 = with_key key k l2) ->
  l1 = l2.
Proof.
  induction l1 as [|x l1 IH]; intros l2 Hd1 Hd2 Hk.
  - destruct l2 as [|y l2]; [reflexivity|].
    specialize (Hk (key y)). unfold with_key in Hk. simpl in Hk.
    rewrite Z.eqb_refl in Hk. discriminate Hk.
  - destruct l2 as [|y l2].
    + specialize (Hk (key x)). unfold with_key in Hk. simpl in Hk.
      rewrite Z.eqb_refl in Hk. discriminate Hk.
    + assert (Hyx : key y <= key x).
      { apply (descending_head x l1 Hd1).
        apply (with_key_in (key y)). rewrite Hk. apply in_with_key. now left. }
      assert (Hxy : key x <= key y).
      { apply (descending_head y l2 Hd2).
        apply (with_key_in (key x)). rewrite <- Hk. apply in_with_key. now left. }
      assert (Heq : key x = key y) by lia.
      pose proof (Hk (key x)) as Hx. unfold with_key in Hx. simpl in Hx.
      rewrite <- Heq, Z.eqb_refl in Hx. inversion Hx as [[Hxy' Htl]]. subst y.
      f_equal. apply IH; [apply Hd1 | apply Hd2 |].
      intros k. destruct (Z.eq_dec (key x) k) as [<-|Hne]; [exact Htl|].
      specialize (Hk k). unfold with_key in Hk. simpl in Hk.
      apply Z.eqb_neq in Hne. now rewrite Hne in Hk.
Qed.

Lemma descending_app (l1 l2 : list A) :
  descending key (l1 ++ l2) ->
  forall x y, In x l1 -> In y l2 -> key y <= key x.
Proof.
  induction l1 as [|z l1 IH]; simpl; intros Hd x y Hx Hy; [contradiction|].
  destruct Hd as [Hall Hd]. destruct Hx as [->|Hx].
  - rewrite Forall_forall in Hall. apply Hall. apply in_or_app. now right.
  - now apply IH.
Qed.

(** Whatever stable sort arranges [l] in descending order of [key] produces
    the list [sorted_reverse key l]. *)
Lemma sorted_reverse_unique (l l' : list A) :
  descending key l' ->
  (forall k, with_key key k l' = with_key key k l) ->
  l' = sorted_reverse key l.
Proof.
  intros Hd Hk. apply stable_descending_unique.
  - exact Hd.
  - apply sorted_reverse_descending.
  - intros k. now rewrite Hk, sorted_reverse_stable.
Qed.

Lemma filter_eq_cons (p : A -> bool) (l : list A) (x : A) (r : list A) :
  filter p l = x :: r ->
  exists u v, l = u ++ x :: v /\ filter p v = r.
Proof.
  induction l as [|z l IH]; simpl; [discriminate|].
  destruct (p z) eqn:Hp; intros Heq.
  - inversion Heq; subst. now exists [], l.
  - destruct (IH Heq) as (u & v & -> & Hv). now exists (z :: u), v.
Qed.

Lemma filter_eq_app (p : A -> bool) (l a b : list A) :
  filter p l = a ++ b ->
  exists l1 l2, l = l1 ++ l2 /\ filter p l1 = a /\ filter p l2 = b.
Proof.
  revert a. induction l as [|z l IH]; simpl; intros a Heq.
  - symmetry in Heq. apply app_eq_nil in Heq as [-> ->]. now exists [], [].
  - destruct (p z) eqn:Hp.
    + destruct a as [|a0 a]; simpl in Heq.
      * exists [], (z :: l). simpl. now rewrite Hp.
      * inversion Heq; subst. destruct (IH a H1) as (l1 & l2 & -> & H1' & H2').
        exists (a0 :: l1), l2. simpl. rewrite Hp. now rewrite H1'.
    + destruct (IH a Heq) as (l1 & l2 & -> & H1' & H2').
      exists (z :: l1), l2. simpl. now rewrite Hp.
Qed.

Lemma filter_precedes (p : A -> bool) (l a b : list A) (x y : A) :
  filter p l = a ++ b -> In x a -> In y b -> precedes x y l.
Proof.
  intros Heq Hx Hy.
  destruct (filter_eq_app _ _ _ _ Heq) as (l1 & l2 & -> & H1 & H2).
  apply in_split in Hx as (a1 & a2 & ->).
  apply in_split in Hy as (b1 & b2 & ->).
  destruct (filter_eq_app _ _ _ _ H1) as (u1 & u2 & -> & _ & Hu2).
  destruct (filter_eq_cons _ _ _ _ Hu2) as (u & v & -> & _).
  destruct (filter_eq_app _ _ _ _ H2) as (w1 & w2 & -> & _ & Hw2).
  destruct (filter_eq_cons _ _ _ _ Hw2) as (w & w' & -> & _).
  exists (u1 ++ u), (v ++ w1 ++ w), w'.
  repeat (rewrite <- ?app_assoc; simpl). reflexivity.
Qed.

(** The first [n] of the sorted list against the rest: nothing kept is
    smaller than something dropped, and of two equal elements the kept
    one came first in the input. *)
Lemma sorted_reverse_split (l kept dropped : list A) :
  sorted_reverse key l = kept ++ dropped ->
  forall x y, In x kept -> In y dropped ->
    key y <= key x /\ (key x = key y -> precedes x y l).
Proof.
  intros Hs x y Hx Hy. split.
  - apply (descending_app kept dropped); try assumption.
    rewrite <- Hs. apply sorted_reverse_descending.
  - intros Hk.
    pose proof (sorted_reverse_stable (key x) l) as Hst.
    rewrite Hs in Hst. unfold with_key in Hst. rewrite filter_app in Hst.
    symmetry in Hst.
    apply (filter_precedes _ _ _ _ x y Hst).
    + apply filter_In. split; [assumption | apply Z.eqb_refl].
    + apply filter_In. split; [assumption | apply Z.eqb_eq; lia].
Qed.

End SortFacts.

(** ** What a validated configuration provides *)

Lemma git_config_valid_cap (cfg : Analyzer.GitConfig) :
  Analyzer.git_config_valid cfg -> 0 <= Analyzer.max_files cfg.
Proof. intros [_ H]. lia. Qed.

Lemma retry_config_valid_bounds (retry_attempts : Z) (retry_delay : Q) :
  Client.retry_config_valid retry_attempts retry_delay ->
  0 <= retry_attempts /\ (0 <= retry_delay)%Q.
Proof.
  intros ([H _] & Hd & _). split; [exact H|].
  eapply Qle_trans; [|exact Hd]. unfold Qle. simpl. lia.
Qed.

Lemma review_config_valid_bounds (cfg : Engine.ReviewConfig) :
  Engine.review_config_valid cfg ->
  0 <= Engine.max_issues_per_file cfg
  /\ In (Engine.severity_threshold cfg) Engine.SEVERITY_LEVELS
  /\ 1 <= Engine.batch_size cfg.
Proof. intros (Ht & Hm & Hb). repeat split; [lia | exact Ht | exact Hb]. Qed.

(** ** Change triage *)

Section AnalyzerFacts.

Import Analyzer.

Variable fnmatch : string -> string -> bool.
Variable suffix_lower : string -> string.
Variable cfg : GitConfig.

Let step := triage_step fnmatch suffix_lower cfg.
Let cls := classify fnmatch suffix_lower cfg.
Let bucket := in_bucket fnmatch suffix_lower cfg.
Let surv := survivors fnmatch suffix_lower cfg.
Let analyze := analyze_changes fnmatch suffix_lower cfg.

Lemma triage_step_classify (t : Triage) (item : string * FileChange) :
  step t item =
  match cls item with
  | InExcluded =>
      mkTriage (t_filtered t) (t_excluded t ++ [fst item]) (t_binary t)
               (t_large t) (t_added t) (t_removed t)
  | InBinary =>
      mkTriage (t_filtered t) (t_excluded t) (t_binary t ++ [fst item])
               (t_large t) (t_added t) (t_removed t)
  | InLarge =>
      mkTriage (t_filtered t) (t_excluded t) (t_binary t)
               (t_large t ++ [fst item]) (t_added t) (t_removed t)
  | InFiltered =>
      mkTriage (dict_set (fst item) (snd item) (t_filtered t)) (t_excluded t)
               (t_binary t) (t_large t) (t_added t + added_of item)
               (t_removed t + removed_of item)
  end.
Proof.
  destruct item as [name change].
  unfold step, cls, triage_step, classify, added_of, removed_of. simpl.
  destruct (_should_exclude_file fnmatch cfg name); [reflexivity|].
  destruct (nonempty (include_patterns cfg)
            && negb (_should_include_file fnmatch cfg name)); [reflexivity|].
  destruct (_is_binary_file suffix_lower cfg name); [reflexivity|].
  destruct (max_diff_size cfg <? lines_added change + lines_removed change);
    reflexivity.
Qed.

Lemma in_bucket_cons (b : Bucket) (item : string * FileChange) l :
  bucket b (item :: l) =
  if Bucket_eqb (cls item) b then item :: bucket b l else bucket b l.
Proof. reflexivity. Qed.

(** The loop, started in any state whose kept files do not clash with the
    files still to come, appends to each bucket the files of its class. *)
Lemma triage_fold (l : dict FileChange) : forall t : Triage,
  NoDup (keys (t_filtered t) ++ keys l) ->
  fold_left step l t =
  mkTriage (t_filtered t ++ bucket InFiltered l)
           (t_excluded t ++ keys (bucket InExcluded l))
           (t_binary t ++ keys (bucket InBinary l))
           (t_large t ++ keys (bucket InLarge l))
           (t_added t + total added_of (bucket InFiltered l))
           (t_removed t + total removed_of (bucket InFiltered l)).
Proof.
  induction l as [|item l IH]; intros t Hnd.
  - destruct t; simpl. now rewrite !app_nil_r, !Z.add_0_r.
  - simpl fold_left. rewrite triage_step_classify.
    rewrite !in_bucket_cons.
    assert (Hnd' : NoDup (keys (t_filtered t) ++ keys l)).
    { simpl in Hnd. now apply NoDup_remove_1 in Hnd. }
    assert (Hfresh : ~ In (fst item) (keys (t_filtered t))).
    { simpl in Hnd. apply NoDup_remove_2 in Hnd. intros Hin. apply Hnd.
      apply in_or_app. now left. }
    destruct (cls item) eqn:Hc; simpl Bucket_eqb; cbv iota;
      rewrite IH; simpl; try assumption.
    + now rewrite <- app_assoc.
    + now rewrite <- app_assoc.
    + now rewrite <- app_assoc.
    + rewrite dict_set_fresh by assumption.
      rewrite <- app_assoc. simpl. rewrite <- surjective_pairing.
      f_equal; lia.
    + rewrite dict_set_fresh by assumption.
      unfold keys. rewrite map_app. simpl. rewrite <- app_assoc.
      exact Hnd.
Qed.

Lemma triage_loop_spec (changes : dict FileChange) :
  NoDup (keys changes) ->
  triage_loop fnmatch suffix_lower cfg changes =
  mkTriage (surv changes)
           (keys (bucket InExcluded changes))
           (keys (bucket InBinary changes))
           (keys (bucket InLarge changes))
           (total added_of (surv changes))
           (total removed_of (surv changes)).
Proof.
  intros Hnd. unfold triage_loop. fold step.
  rewrite triage_fold by exact Hnd. reflexivity.
Qed.

Lemma buckets_partition (l : dict FileChange) :
  Permutation l (bucket InFiltered l ++ bucket InExcluded l
                 ++ bucket InBinary l ++ bucket InLarge l).
Proof.
  induction l as [|item l IH]; [reflexivity|].
  rewrite !in_bucket_cons.
  destruct (cls item); simpl Bucket_eqb; cbv iota.
  - simpl. now apply Permutation_cons_app.
  - simpl. rewrite app_assoc. apply Permutation_cons_app.
    now rewrite <- app_assoc.
  - simpl. rewrite 2 app_assoc. apply Permutation_cons_app.
    now rewrite <- 2 app_assoc.
  - simpl. now apply perm_skip.
Qed.

Lemma surv_keys_NoDup (changes : dict FileChange) :
  NoDup (keys changes) -> NoDup (keys (surv changes)).
Proof.
  unfold surv, survivors, in_bucket, keys.
  induction changes as [|item l IH]; simpl; intros Hnd; [constructor|].
  inversion Hnd as [|? ? Hnotin Hnd']; subst.
  destruct (Bucket_eqb _ _); simpl; [|now apply IH].
  constructor; [|now apply IH].
  intros Hin. apply Hnotin.
  apply in_map_iff in Hin as (x & Hx & Hin). apply filter_In in Hin as [Hin _].
  rewrite <- Hx. now apply in_map.
Qed.

Lemma keys_app {V} (a b : dict V) : keys (a ++ b) = keys a ++ keys b.
Proof. apply map_app. Qed.

Lemma sorted_keys_NoDup (changes : dict FileChange) :
  NoDup (keys changes) ->
  NoDup (keys (sorted_reverse change_size (surv changes))).
Proof.
  intros Hnd. apply surv_keys_NoDup in Hnd.
  eapply Permutation_NoDup; [|exact Hnd].
  apply Permutation_map. symmetry. apply sorted_reverse_perm.
Qed.

Lemma moved_perm {A} (s kept moved e b l : list A) :
  Permutation s (kept ++ moved) ->
  Permutation (s ++ e ++ b ++ l) (kept ++ (e ++ moved) ++ b ++ l).
Proof.
  intros Hs. rewrite Hs, <- app_assoc. apply Permutation_app_head.
  rewrite !app_assoc. do 2 apply Permutation_app_tail.
  apply Permutation_app_comm.
Qed.

(** The whole of [analyze_changes] on a well-formed dictionary. *)
Lemma analyze_changes_spec (changes : dict FileChange) :
  NoDup (keys changes) ->
  analyze changes =
  let sorted_files := sorted_reverse change_size (surv changes) in
  let n := max_files cfg in
  if n <? len (surv changes) then
    mkAnalysisResult (slice_to n sorted_files)
      (keys (bucket InExcluded changes) ++ keys (slice_from n sorted_files))
      (keys (bucket InBinary changes)) (keys (bucket InLarge changes))
      (total added_of (surv changes)) (total removed_of (surv changes))
      (len (slice_to n sorted_files))
  else
    mkAnalysisResult (surv changes)
      (keys (bucket InExcluded changes))
      (keys (bucket InBinary changes)) (keys (bucket InLarge changes))
      (total added_of (surv changes)) (total removed_of (surv changes))
      (len (surv changes)).
Proof.
  intros Hnd. unfold analyze, analyze_changes, limit_files.
  rewrite triage_loop_spec by exact Hnd. simpl.
  destruct (max_files cfg <? len (surv changes)); [|reflexivity].
  rewrite dict_of_items_nodup; [reflexivity|].
  pose proof (sorted_keys_NoDup changes Hnd) as Hs.
  rewrite <- (slice_to_from (max_files cfg)
                (sorted_reverse change_size (surv changes))) in Hs.
  rewrite keys_app in Hs. now apply NoDup_app_remove_r in Hs.
Qed.

(** C1.  On a change map (a dictionary, so with distinct filenames) and a
    configuration whose [max_files] is not negative, as the validator
    demands, the four buckets of the result are a partition of the input
    filenames: together they hold exactly the input filenames, none of
    them twice; [filtered_changes] has at most [max_files] entries; and the
    empty input gives the result with every bucket empty. *)
Theorem analyze_changes_partition (changes : dict FileChange) :
  NoDup (keys changes) ->
  0 <= max_files cfg ->
  let r := analyze changes in
  let buckets := keys (filtered_changes r) ++ excluded_files r
                 ++ binary_files r ++ large_files r in
  Permutation (keys changes) buckets
  /\ NoDup buckets
  /\ (forall f, In f (keys changes) <-> In f buckets)
  /\ len (filtered_changes r) <= max_files cfg
  /\ analyze [] = mkAnalysisResult [] [] [] [] 0 0 0.
Proof.
  intros Hnd Hmax r buckets.
  assert (Hperm : Permutation (keys changes) buckets).
  { subst buckets r. rewrite analyze_changes_spec by exact Hnd. cbv zeta.
    transitivity (keys (surv changes) ++ keys (bucket InExcluded changes)
                  ++ keys (bucket InBinary changes)
                  ++ keys (bucket InLarge changes)).
    - rewrite <- !keys_app. apply Permutation_map. apply buckets_partition.
    - destruct (max_files cfg <? len (surv changes)); simpl; [|reflexivity].
      apply moved_perm. rewrite <- keys_app, slice_to_from.
      apply Permutation_map. symmetry. apply sorted_reverse_perm. }
  split; [exact Hperm|].
  split; [eapply Permutation_NoDup; eassumption|].
  split; [intros f; split; apply Permutation_in;
          [exact Hperm | symmetry; exact Hperm]|].
  split.
  - subst r. rewrite analyze_changes_spec by exact Hnd. cbv zeta.
    destruct (Z.ltb_spec (max_files cfg) (len (surv changes))) as [Hlt|Hge];
      simpl; [|exact Hge].
    rewrite slice_to_length; [lia|].
    split; [exact Hmax|].
    unfold len in *. rewrite (Permutation_length (sorted_reverse_perm _ _)). lia.
  - unfold analyze, analyze_changes, limit_files. simpl.
    destruct (max_files cfg <? len []); [|reflexivity].
    unfold slice_to, slice_from. simpl. now rewrite firstn_nil, skipn_nil.
Qed.

Lemma total_app {A} (f : A -> Z) (l1 l2 : list A) :
  total f (l1 ++ l2) = total f l1 + total f l2.
Proof. induction l1 as [|x l1 IH]; simpl; [reflexivity | lia]. Qed.

Lemma total_perm {A} (f : A -> Z) (l1 l2 : list A) :
  Permutation l1 l2 -> total f l1 = total f l2.
Proof. induction 1; simpl; lia. Qed.

(** C2.  When more files survive the checks than [max_files] allows (and
    [max_files] is not negative, as the validator demands), the result
    keeps exactly [max_files] survivors and moves the others to the end of
    [excluded_files]; no kept file has fewer changed lines than a moved
    one, and of a kept and a moved file with equally many changed lines the
    kept one came first in the input's iteration order. *)
Theorem analyze_changes_cap (changes : dict FileChange) :
  NoDup (keys changes) ->
  0 <= max_files cfg ->
  max_files cfg < len (surv changes) ->
  let r := analyze changes in
  exists moved : dict FileChange,
    len (filtered_changes r) = max_files cfg
    /\ len moved = len (surv changes) - max_files cfg
    /\ Permutation (surv changes) (filtered_changes r ++ moved)
    /\ excluded_files r = keys (bucket InExcluded changes) ++ keys moved
    /\ (forall x y, In x (filtered_changes r) -> In y moved ->
          change_size y <= change_size x
          /\ (change_size x = change_size y -> precedes x y (surv changes))).
Proof.
  intros Hnd Hmax Hcap r. subst r.
  rewrite analyze_changes_spec by exact Hnd. cbv zeta.
  apply Z.ltb_lt in Hcap. rewrite Hcap. apply Z.ltb_lt in Hcap. simpl.
  set (sorted_files := sorted_reverse change_size (surv changes)).
  assert (Hlen : len sorted_files = len (surv changes)).
  { unfold len, sorted_files.
    now rewrite (Permutation_length (sorted_reverse_perm _ _)). }
  exists (slice_from (max_files cfg) sorted_files).
  split; [apply slice_to_length; lia|].
  split; [rewrite slice_from_length; lia|].
  split; [rewrite slice_to_from; symmetry; apply sorted_reverse_perm|].
  split; [reflexivity|].
  intros x y Hx Hy.
  apply (sorted_reverse_split change_size (surv changes)
           (slice_to (max_files cfg) sorted_files)
           (slice_from (max_files cfg) sorted_files)); try assumption.
  now rewrite slice_to_from.
Qed.

(** C9.  When the cap fires, the totals of the result are the sums over
    all the files that survived the checks: the kept files and the files
    the cap moved to [excluded_files] alike. *)
Theorem analyze_changes_totals_precap (changes : dict FileChange) :
  NoDup (keys changes) ->
  max_files cfg < len (surv changes) ->
  let r := analyze changes in
  total_lines_added r = total added_of (surv changes)
  /\ total_lines_removed r = total removed_of (surv changes)
  /\ exists moved : dict FileChange,
       Permutation (surv changes) (filtered_changes r ++ moved)
       /\ excluded_files r = keys (bucket InExcluded changes) ++ keys moved
       /\ total_lines_added r
          = total added_of (filtered_changes r) + total added_of moved
       /\ total_lines_removed r
          = total removed_of (filtered_changes r) + total removed_of moved.
Proof.
  intros Hnd Hcap r. subst r.
  rewrite analyze_changes_spec by exact Hnd. cbv zeta.
  apply Z.ltb_lt in Hcap. rewrite Hcap. simpl.
  split; [reflexivity|]. split; [reflexivity|].
  set (sorted_files := sorted_reverse change_size (surv changes)).
  exists (slice_from (max_files cfg) sorted_files).
  assert (Hp : Permutation (surv changes)
                 (slice_to (max_files cfg) sorted_files
                  ++ slice_from (max_files cfg) sorted_files)).
  { rewrite slice_to_from. symmetry. apply sorted_reverse_perm. }
  split; [exact Hp|]. split; [reflexivity|].
  rewrite <- !total_app. split; now apply total_perm.
Qed.

End AnalyzerFacts.

(** ** Model catalog *)

Section ModelsFacts.

Import Models.

Lemma dict_contains_keys {V} (k : string) (d : dict V) :
  dict_contains k d = true <-> In k (keys d).
Proof.
  unfold dict_contains. induction d as [|[k' v] d IH]; simpl.
  - split; [discriminate | contradiction].
  - destruct (String.eqb_spec k k') as [->|Hne].
    + split; [now left | reflexivity].
    + rewrite IH. split; [now right | intros [Heq|Hin]; congruence].
Qed.

(** The catalog holds the eight models of [_initialize_models]. *)
Lemma is_model_supported_catalog (id : string) :
  is_model_supported id = true <->
  In id ["anthropic.claude-3-5-sonnet-20241022-v2:0";
         "anthropic.claude-3-haiku-20240307-v1:0";
         "anthropic.claude-3-sonnet-20240229-v1:0";
         "meta.llama3-70b-instruct-v1:0";
         "meta.llama3-8b-instruct-v1:0";
         "cohere.command-r-plus-v1:0";
         "cohere.command-r-v1:0";
         "ai21.jamba-instruct-v1:0"].
Proof. unfold is_model_supported. now rewrite dict_contains_keys. Qed.

Lemma get_model_info_supported (id : string) :
  is_model_supported id = true ->
  exists info, dict_get id _models = Some info /\ get_model_info id = Ok info.
Proof.
  unfold is_model_supported, get_model_info, models_subscript, dict_contains.
  destruct (dict_get id _models) as [info|]; [|discriminate].
  intros _. now exists info.
Qed.

(** C10.  For a model that is not in the catalog the cost estimate is
    [0.0] and nothing is raised, while [get_model_info] raises for it; for
    a model of the catalog, and token counts that a float holds exactly,
    the estimate is
    [input_tokens / 1000 * input_cost_per_1k
     + output_tokens / 1000 * output_cost_per_1k]
    with the prices of its catalog entry. *)
Theorem get_cost_estimate_spec (id : string) (input_tokens output_tokens : Z) :
  (is_model_supported id = false ->
     get_cost_estimate id input_tokens output_tokens = Ok 0%float
     /\ get_model_info id
        = Raise (Exn ValueError ("Unsupported model: " ++ id)%string))
  /\ (is_model_supported id = true ->
      0 <= input_tokens <= 2 ^ 53 ->
      0 <= output_tokens <= 2 ^ 53 ->
      exists info,
        dict_get id _models = Some info
        /\ get_model_info id = Ok info
        /\ get_cost_estimate id input_tokens output_tokens
           = Ok (truediv input_tokens 1000 * input_cost_per_1k info
                 + truediv output_tokens 1000 * output_cost_per_1k info)%float).
Proof.
  split; intros Hs.
  - unfold get_cost_estimate, get_model_info.
    unfold is_model_supported in Hs. rewrite !Hs.
    unfold is_model_supported. rewrite Hs. simpl. split; reflexivity.
  - intros _ _.
    destruct (get_model_info_supported id Hs) as (info & Hget & Hinfo).
    exists info. split; [exact Hget|]. split; [exact Hinfo|].
    unfold get_cost_estimate. rewrite Hs, Hinfo. reflexivity.
Qed.

End ModelsFacts.

(** ** Model client *)

Section ClientFacts.

Import Client.

Variable retry_attempts : Z.
Variable retry_delay : Q.
Variable service : Z -> attempt.

Hypothesis attempts_nonneg : 0 <= retry_attempts.
Hypothesis delay_nonneg : (0 <= retry_delay)%Q.

Let loop := invoke_loop retry_attempts retry_delay service.

Lemma range_succ (n : Z) : 0 <= n -> range (n + 1) = range n ++ [n].
Proof.
  intros Hn. unfold range.
  replace (Z.to_nat (n + 1)) with (S (Z.to_nat n)) by lia.
  rewrite seq_S, map_app. simpl. now rewrite Z2Nat.id.
Qed.

Lemma seq_from (a n : nat) :
  map Z.of_nat (seq a n) = map (fun i => Z.of_nat a + Z.of_nat i) (seq 0 n).
Proof.
  revert a. induction n as [|n IH]; intros a; simpl; [reflexivity|].
  f_equal; [lia|].
  rewrite IH, <- seq_shift, map_map.
  apply map_ext. intros i. lia.
Qed.

Lemma range_bounds (n k : Z) : In k (range n) -> 0 <= k < n.
Proof.
  unfold range. rewrite in_map_iff. intros (i & <- & Hi).
  apply in_seq in Hi. lia.
Qed.

Lemma range_length (n : Z) : 0 <= n -> len (range n) = n.
Proof.
  intros Hn. unfold len, range. rewrite length_map, length_seq. lia.
Qed.

Lemma sleep_backoff (k : Z) : 0 <= k -> sleep (backoff retry_delay k) = Ok tt.
Proof.
  intros Hk. unfold sleep, backoff.
  assert (H : (0 <= retry_delay * inject_Z (2 ^ k))%Q).
  { apply Qmult_le_0_compat; [exact delay_nonneg|].
    unfold Qle. simpl. pose proof (Z.pow_nonneg 2 k). lia. }
  apply Qle_bool_iff in H. now rewrite H.
Qed.

Lemma retryable_raises (a : attempt) :
  retryable a = true ->
  exists e, _invoke_model_once a = Raise e /\ is_BedrockError e = true.
Proof.
  unfold retryable. destruct (_invoke_model_once a) as [r|e]; [discriminate|].
  intros He. now exists e.
Qed.

(** Attempts that fail in the retryable way before the last one: each is
    made, is followed by its backoff sleep, and the loop goes on. *)
Lemma invoke_loop_failed_rounds (pre rest : list Z) : forall log,
  Forall (fun k => 0 <= k < retry_attempts /\ retryable (service k) = true) pre ->
  loop (pre ++ rest) log
  = loop rest (log ++ flat_map (failed_round retry_delay) pre).
Proof.
  induction pre as [|k pre IH]; intros log Hall; simpl.
  - now rewrite app_nil_r.
  - inversion Hall as [|? ? [Hk Hr] Hall']; subst.
    destruct (retryable_raises _ Hr) as (e & He & Hb).
    unfold loop at 1. simpl. rewrite He, Hb.
    destruct (Z.eqb_spec k retry_attempts) as [Heq|_]; [lia|].
    fold (backoff retry_delay k). rewrite sleep_backoff by lia.
    fold loop. rewrite IH by exact Hall'.
    now rewrite <- !app_assoc.
Qed.

Lemma invocations_app (l1 l2 : list event) :
  invocations (l1 ++ l2) = invocations l1 ++ invocations l2.
Proof. apply flat_map_app. Qed.

Lemma sleeps_app (l1 l2 : list event) :
  sleeps (l1 ++ l2) = sleeps l1 ++ sleeps l2.
Proof. apply flat_map_app. Qed.

Lemma invocations_failed_rounds (l : list Z) :
  invocations (flat_map (failed_round retry_delay) l) = l.
Proof. induction l as [|k l IH]; simpl; [reflexivity | now rewrite IH]. Qed.

Lemma sleeps_failed_rounds (l : list Z) :
  sleeps (flat_map (failed_round retry_delay) l) = map (backoff retry_delay) l.
Proof. induction l as [|k l IH]; simpl; [reflexivity | now rewrite IH]. Qed.

Lemma failed_prefix (k : Z) :
  k <= retry_attempts ->
  (forall j, 0 <= j < k -> retryable (service j) = true) ->
  Forall (fun j => 0 <= j < retry_attempts /\ retryable (service j) = true)
         (range k).
Proof.
  intros Hk Hfail. apply Forall_forall. intros j Hj.
  apply range_bounds in Hj. split; [lia | apply Hfail; lia].
Qed.

(** C6.  With a retry count and a delay that are not negative, as the
    validator demands: when every attempt ends in a [BedrockError], the
    attempts [0 .. retry_attempts] are all made, attempt [k] below the last
    is followed by a sleep of [retry_delay * 2^k], and the failure of the
    last attempt is what the caller gets; and when the attempts before
    attempt [k] end in a [BedrockError] and attempt [k] meets a transport
    failure, that [NetworkError] is what the caller gets, attempt [k] being
    the last thing done. *)
Theorem invoke_model_retry_policy :
  let outcome := invoke_model retry_attempts retry_delay service in
  ((forall k, 0 <= k <= retry_attempts -> retryable (service k) = true) ->
     fst outcome = _invoke_model_once (service retry_attempts)
     /\ retryable (service retry_attempts) = true
     /\ snd outcome = flat_map (failed_round retry_delay) (range retry_attempts)
                      ++ [Invoked retry_attempts]
     /\ invocations (snd outcome) = range (retry_attempts + 1)
     /\ len (sleeps (snd outcome)) = retry_attempts
     /\ sleeps (snd outcome) = map (backoff retry_delay) (range retry_attempts))
  /\ (forall k text,
        0 <= k <= retry_attempts ->
        (forall j, 0 <= j < k -> retryable (service j) = true) ->
        service k = RaisedBotoCoreError text ->
        fst outcome
        = Raise (network_error ("Network error calling Bedrock: " ++ text)%string)
        /\ snd outcome = flat_map (failed_round retry_delay) (range k) ++ [Invoked k]
        /\ invocations (snd outcome) = range (k + 1)).
Proof.
  intros outcome. split.
  - intros Hfail.
    assert (Hout : outcome
                   = (_invoke_model_once (service retry_attempts),
                      flat_map (failed_round retry_delay) (range retry_attempts)
                      ++ [Invoked retry_attempts])).
    { subst outcome. unfold invoke_model. fold loop.
      rewrite range_succ by exact attempts_nonneg.
      rewrite invoke_loop_failed_rounds
        by (apply failed_prefix; [lia | intros; apply Hfail; lia]).
      destruct (retryable_raises _ (Hfail retry_attempts ltac:(lia)))
        as (e & He & Hb).
      unfold loop. simpl. rewrite He, Hb, Z.eqb_refl. reflexivity. }
    rewrite Hout. simpl.
    split; [reflexivity|]. split; [apply Hfail; lia|]. split; [reflexivity|].
    rewrite invocations_app, sleeps_app, invocations_failed_rounds,
      sleeps_failed_rounds. simpl. rewrite app_nil_r.
    split; [now rewrite range_succ|].
    split; [|reflexivity].
    unfold len. rewrite length_map. now apply range_length.
  - intros k text Hk Hfail Hnet.
    assert (Hout : outcome
                   = (Raise (network_error
                               ("Network error calling Bedrock: " ++ text)%string),
                      flat_map (failed_round retry_delay) (range k)
                      ++ [Invoked k])).
    { subst outcome. unfold invoke_model. fold loop.
      assert (Hsplit : range (retry_attempts + 1)
                       = range k ++ k :: map (fun i => k + 1 + i)
                                           (range (retry_attempts - k))).
      { unfold range.
        replace (Z.to_nat (retry_attempts + 1))
          with (Z.to_nat k + S (Z.to_nat (retry_attempts - k)))%nat by lia.
        rewrite seq_app, map_app. f_equal. simpl.
        f_equal; [lia|].
        rewrite seq_from. rewrite !map_map.
        apply map_ext. intros i. lia. }
      rewrite Hsplit.
      rewrite invoke_loop_failed_rounds by (apply failed_prefix; [lia|exact Hfail]).
      unfold loop. simpl. rewrite Hnet. reflexivity. }
    rewrite Hout. simpl. split; [reflexivity|]. split; [reflexivity|].
    rewrite invocations_app, invocations_failed_rounds. simpl.
    now rewrite range_succ by lia.
Qed.

End ClientFacts.

(** ** Review orchestrator: severities and aggregation *)

Section SeverityFacts.

Import Engine.

(** Compare a string with each of the four severities in turn. *)
Ltac severity_cases s :=
  destruct (String.eqb_spec s "error") as [->|?];
  [|destruct (String.eqb_spec s "warning") as [->|?];
    [|destruct (String.eqb_spec s "info") as [->|?];
      [|destruct (String.eqb_spec s "suggestion") as [->|?]]]].

Ltac known_severity name :=
  exists name; split; [reflexivity | simpl; tauto].

Lemma coerce_severity_valid (v : json) :
  exists s, coerce_severity v = JStr s /\ In s SEVERITY_LEVELS.
Proof.
  unfold coerce_severity, in_strs. simpl.
  destruct v as [| b | n | f | s | l | d]; simpl; try known_severity "info".
  severity_cases s; simpl.
  - known_severity "error".
  - known_severity "warning".
  - known_severity "info".
  - known_severity "suggestion".
  - known_severity "info".
Qed.

Lemma coerce_severity_fixed (s : string) :
  In s SEVERITY_LEVELS -> coerce_severity (JStr s) = JStr s.
Proof.
  simpl. intros [<-|[<-|[<-|[<-|[]]]]]; reflexivity.
Qed.

(** C8.  Coercion leaves each of the four severities as it is, turns every
    other string (and every value that is not a string) into ["info"], and
    applying it twice is applying it once. *)
Theorem coerce_severity_idempotent :
  coerce_severity (JStr "error") = JStr "error"
  /\ coerce_severity (JStr "warning") = JStr "warning"
  /\ coerce_severity (JStr "info") = JStr "info"
  /\ coerce_severity (JStr "suggestion") = JStr "suggestion"
  /\ (forall s, ~ In s SEVERITY_LEVELS -> coerce_severity (JStr s) = JStr "info")
  /\ (forall v, (forall s, v <> JStr s) -> coerce_severity v = JStr "info")
  /\ (forall v, coerce_severity (coerce_severity v) = coerce_severity v).
Proof.
  repeat (split; [reflexivity|]).
  split; [|split].
  - intros s Hs. unfold coerce_severity, in_strs. simpl.
    severity_cases s; simpl; try reflexivity; exfalso; apply Hs; simpl; tauto.
  - intros v Hv. destruct v; try reflexivity. now elim (Hv s).
  - intros v. destruct (coerce_severity_valid v) as (s & -> & Hs).
    now apply coerce_severity_fixed.
Qed.

End SeverityFacts.

Section AggregateFacts.

Import Engine.

Variable float_sum : list float -> float.

Lemma sum_from (l : list Z) (a : Z) :
  fold_left Z.add l a = a + total (fun x => x) l.
Proof.
  revert a. induction l as [|x l IH]; intros a; simpl; [lia|].
  rewrite IH. lia.
Qed.

Lemma sum_map_total {A} (f : A -> Z) (l : list A) :
  Py.sum (map f l) = total f l.
Proof.
  unfold Py.sum. rewrite sum_from. simpl.
  induction l as [|x l IH]; simpl; [reflexivity | now rewrite IH].
Qed.

(** C3.  In the result of [_aggregate_results] the files are the entries
    given, [total_files] is their number, every integer total is the sum of
    its per-file field over the entries, and [total_cost] is the float sum
    of the per-file cost estimates. *)
Theorem aggregate_results_totals (file_results : dict FileReviewResult) :
  let r := _aggregate_results float_sum file_results in
  let entries := values (files r) in
  files r = file_results
  /\ total_files r = len entries
  /\ run_total_issues r = total total_issues entries
  /\ total_errors r = total error_count entries
  /\ total_warnings r = total warning_count entries
  /\ total_info r = total info_count entries
  /\ total_suggestions r = total suggestion_count entries
  /\ total_tokens r = total tokens_used entries
  /\ total_cost r = float_sum (map cost_estimate entries).
Proof.
  simpl. rewrite !sum_map_total.
  repeat split. unfold len, values. now rewrite length_map.
Qed.

(** The integer totals do not depend on the order of the entries. *)
Lemma aggregate_results_order (d1 d2 : dict FileReviewResult) :
  Permutation d1 d2 ->
  let r1 := _aggregate_results float_sum d1 in
  let r2 := _aggregate_results float_sum d2 in
  total_files r1 = total_files r2
  /\ run_total_issues r1 = run_total_issues r2
  /\ total_errors r1 = total_errors r2
  /\ total_warnings r1 = total_warnings r2
  /\ total_info r1 = total_info r2
  /\ total_suggestions r1 = total_suggestions r2
  /\ total_tokens r1 = total_tokens r2.
Proof.
  intros Hp. simpl. rewrite !sum_map_total.
  assert (Hv : Permutation (values d1) (values d2)) by now apply Permutation_map.
  repeat split; try (now apply total_perm).
  unfold len. now rewrite (Permutation_length Hp).
Qed.

End AggregateFacts.

(** ** Review orchestrator: reading the model's answer *)

Section IssueFacts.

Import Engine.

Variable cfg : ReviewConfig.

Lemma meets_after_coercion (v : json) :
  _meets_severity_threshold cfg (coerce_severity v)
  = Ok (threshold_level cfg
        <=? match coerce_severity v with JStr s => severity_level s | _ => 2 end).
Proof.
  destruct (coerce_severity_valid v) as (s & -> & _). reflexivity.
Qed.

Lemma issue_step_spec (name : string) (issues : list ReviewIssue) (e : json) :
  issue_step cfg name issues e
  = issues ++ filter (fun i => threshold_level cfg <=? issue_level i)
                     (parsed_issues name [e]).
Proof.
  unfold issue_step, parsed_issues. simpl.
  destruct (make_issue name e) as [issue|err]; simpl.
  - rewrite meets_after_coercion. simpl. unfold issue_level. simpl.
    destruct (threshold_level cfg <=? _); [reflexivity | now rewrite app_nil_r].
  - now rewrite app_nil_r.
Qed.

(** The loop over the entries keeps, in order, the parsed issues whose
    level reaches the threshold. *)
Lemma issue_loop_spec (name : string) (entries : list json) :
  forall issues,
  fold_left (issue_step cfg name) entries issues
  = issues ++ filter (fun i => threshold_level cfg <=? issue_level i)
                     (parsed_issues name entries).
Proof.
  induction entries as [|e entries IH]; intros issues; simpl.
  - now rewrite app_nil_r.
  - rewrite IH, issue_step_spec. unfold parsed_issues. simpl.
    rewrite app_nil_r, filter_app, <- app_assoc. reflexivity.
Qed.

Lemma truncate_firstn {A} (n : Z) (l : list A) :
  0 <= n ->
  (if n <? len l then slice_to n l else l) = firstn (Z.to_nat n) l.
Proof.
  intros Hn. unfold len. destruct (Z.ltb_spec n (Z.of_nat (List.length l))).
  - unfold slice_to. rewrite slice_index_nonneg by lia. reflexivity.
  - symmetry. apply firstn_all2. lia.
Qed.

End IssueFacts.

Section StringFacts.

Local Open Scope string_scope.

Lemma append_assoc (a b c : string) : (a ++ b) ++ c = a ++ (b ++ c).
Proof. induction a as [|x a IH]; simpl; [reflexivity | now rewrite IH]. Qed.


Lemma occurs_append (c : ascii) (a b : string) :
  occurs c (a ++ b) = occurs c a || occurs c b.
Proof.
  induction a as [|x a IH]; simpl; [reflexivity|].
  now rewrite IH, orb_assoc.
Qed.

Lemma find_occurs (c : ascii) (s : string) :
  (occurs c s = false -> find c s = -1)
  /\ (occurs c s = true -> 0 <= find c s).
Proof.
  induction s as [|x s [IH1 IH2]]; simpl.
  - split; [reflexivity | discriminate].
  - destruct (Ascii.eqb x c); simpl.
    + split; [discriminate | lia].
    + destruct (occurs c s).
      * split; [discriminate|]. intros _. specialize (IH2 eq_refl).
        destruct (Z.ltb_spec (find c s) 0); lia.
      * split; [|discriminate]. intros _. now rewrite (IH1 eq_refl).
Qed.

Lemma rfind_occurs (c : ascii) (s : string) :
  (occurs c s = false -> rfind c s = -1)
  /\ (occurs c s = true -> 0 <= rfind c s).
Proof.
  induction s as [|x s [IH1 IH2]]; simpl.
  - split; [reflexivity | discriminate].
  - destruct (occurs c s).
    + rewrite orb_true_r. split; [discriminate|]. intros _.
      specialize (IH2 eq_refl). destruct (Z.leb_spec 0 (rfind c s)); lia.
    + rewrite orb_false_r. rewrite (IH1 eq_refl). simpl.
      destruct (Ascii.eqb x c); split; (discriminate || reflexivity || lia).
Qed.

(** The first [c] is where the [c]-free prefix ends. *)
Lemma find_first (c : ascii) (pre rest : string) :
  occurs c pre = false ->
  find c (pre ++ String c rest) = Z.of_nat (String.length pre).
Proof.
  induction pre as [|x pre IH]; simpl.
  - now rewrite Ascii.eqb_refl.
  - destruct (Ascii.eqb x c); simpl; [discriminate|].
    intros Hpre. rewrite (IH Hpre).
    destruct (Z.ltb_spec (Z.of_nat (String.length pre)) 0); lia.
Qed.

(** The last [c] is where the [c]-free suffix begins. *)
Lemma rfind_last (c : ascii) (a post : string) :
  occurs c post = false ->
  rfind c (a ++ String c post) = Z.of_nat (String.length a).
Proof.
  intros Hpost. induction a as [|x a IH]; simpl.
  - rewrite (proj1 (rfind_occurs c post) Hpost). simpl.
    now rewrite Ascii.eqb_refl.
  - rewrite IH. destruct (Z.leb_spec 0 (Z.of_nat (String.length a))); lia.
Qed.

Lemma occurs_split_first (c : ascii) (s : string) :
  occurs c s = true ->
  exists pre rest, s = pre ++ String c rest /\ occurs c pre = false.
Proof.
  induction s as [|x s IH]; simpl; [discriminate|].
  destruct (Ascii.eqb_spec x c) as [->|Hne]; simpl.
  - intros _. now exists "", s.
  - intros Hs. destruct (IH Hs) as (pre & rest & -> & Hpre).
    exists (String x pre), rest. split; [reflexivity|]. simpl.
    apply Ascii.eqb_neq in Hne. now rewrite Hne.
Qed.

Lemma occurs_split_last (c : ascii) (s : string) :
  occurs c s = true ->
  exists a post, s = a ++ String c post /\ occurs c post = false.
Proof.
  induction s as [|x s IH]; simpl; [discriminate|].
  destruct (occurs c s) eqn:Hs.
  - intros _. destruct (IH eq_refl) as (a & post & -> & Hpost).
    now exists (String x a), post.
  - rewrite orb_false_r. intros Hx. apply Ascii.eqb_eq in Hx as ->.
    now exists "", s.
Qed.

Lemma lstrip_keeps (c : ascii) (pre rest : string) :
  isspace c = false ->
  exists pre', lstrip (pre ++ String c rest) = pre' ++ String c rest
               /\ (occurs c pre = false -> occurs c pre' = false).
Proof.
  intros Hc. induction pre as [|x pre (pre' & IH & Hocc)]; simpl.
  - exists "". simpl. now rewrite Hc.
  - destruct (isspace x).
    + exists pre'. split; [exact IH|].
      intros H. apply orb_false_iff in H as [_ H]. now apply Hocc.
    + exists (String x pre). split; [reflexivity | trivial].
Qed.

Lemma rstrip_keeps (c : ascii) (a post : string) :
  isspace c = false ->
  rstrip (a ++ String c post) = a ++ String c (rstrip post).
Proof.
  intros Hc. induction a as [|x a IH]; simpl.
  - now rewrite Hc.
  - rewrite IH. destruct a; simpl; now rewrite andb_false_r.
Qed.

Lemma occurs_lstrip (c : ascii) (s : string) :
  occurs c s = false -> occurs c (lstrip s) = false.
Proof.
  induction s as [|x s IH]; simpl; [trivial|].
  intros H. destruct (isspace x); [|exact H].
  apply orb_false_iff in H as [_ H]. now apply IH.
Qed.

Lemma occurs_rstrip (c : ascii) (s : string) :
  occurs c s = false -> occurs c (rstrip s) = false.
Proof.
  induction s as [|x s IH]; simpl; [trivial|].
  intros H. apply orb_false_iff in H as [Hx H].
  destruct (isspace x && is_empty (rstrip s)); simpl; [reflexivity|].
  now rewrite Hx, IH.
Qed.

Lemma occurs_strip (c : ascii) (s : string) :
  occurs c s = false -> occurs c (strip s) = false.
Proof. intros H. unfold strip. now apply occurs_rstrip, occurs_lstrip. Qed.

Lemma substring_skip (p s : string) (m : nat) :
  substring (String.length p) m (p ++ s) = substring 0 m s.
Proof. induction p as [|x p IH]; simpl; [reflexivity | exact IH]. Qed.

Lemma substring_prefix (a b : string) :
  substring 0 (String.length a) (a ++ b) = a.
Proof.
  induction a as [|x a IH]; simpl; [now destruct b | now rewrite IH].
Qed.

Lemma length_append (a b : string) :
  String.length (a ++ b) = (String.length a + String.length b)%nat.
Proof. induction a as [|x a IH]; simpl; [reflexivity | now rewrite IH]. Qed.

End StringFacts.

Section ParseFacts.

Import Engine.

Variable json_loads : string -> result (dict json).
Variable cfg : ReviewConfig.

Let parse := _parse_review_response json_loads cfg.
Let body := parse_review_body json_loads cfg.

(** An object between a prefix without opening brace and a suffix without
    closing brace is the JSON block of the text. *)
Lemma json_block_found (pre mid post : string) :
  occurs "{" pre = false ->
  occurs "}" post = false ->
  json_block (strip (pre ++ "{" ++ mid ++ "}" ++ post)%string)
  = Ok ("{" ++ mid ++ "}")%string.
Proof.
  intros Hpre Hpost. unfold strip.
  change ("{" ++ mid ++ "}" ++ post)%string
    with (String "{" (mid ++ String "}" post)%string).
  destruct (lstrip_keeps "{" pre (mid ++ String "}" post)%string eq_refl)
    as (pre' & -> & Hpre').
  specialize (Hpre' Hpre).
  replace (pre' ++ String "{" (mid ++ String "}" post))%string
    with ((pre' ++ String "{" mid) ++ String "}" post)%string
    by (rewrite append_assoc; reflexivity).
  rewrite rstrip_keeps by reflexivity.
  pose proof (occurs_rstrip "}" post Hpost) as Hpost'.
  set (post' := rstrip post) in *.
  unfold json_block.
  rewrite rfind_last by exact Hpost'.
  replace ((pre' ++ String "{" mid) ++ String "}" post')%string
    with (pre' ++ String "{" (mid ++ String "}" post'))%string
    by (rewrite append_assoc; reflexivity).
  rewrite find_first by exact Hpre'.
  rewrite length_append. simpl String.length.
  destruct (Z.eqb_spec (Z.of_nat (String.length pre')) (-1)) as [?|_]; [lia|].
  destruct (Z.eqb_spec
              (Z.of_nat (String.length pre' + S (String.length mid)) + 1) 0)
    as [?|_]; [lia|].
  simpl orb. cbv iota. f_equal. unfold str_slice.
  rewrite Nat2Z.id.
  replace (Z.to_nat (Z.of_nat (String.length pre' + S (String.length mid)) + 1
                     - Z.of_nat (String.length pre')))
    with (String.length (String "{" (mid ++ String "}" "")))
    by (simpl; rewrite length_append; simpl; lia).
  rewrite substring_skip.
  replace (String "{" (mid ++ String "}" post'))%string
    with (String "{" (mid ++ String "}" "") ++ post')%string
    by (simpl; rewrite append_assoc; reflexivity).
  apply substring_prefix.
Qed.

Lemma json_block_missing (text : string) :
  occurs "{" text = false \/ occurs "}" text = false ->
  json_block (strip text) = Raise no_json_found.
Proof.
  intros H. unfold json_block.
  destruct H as [H|H]; apply occurs_strip in H.
  - rewrite (proj1 (find_occurs _ _) H). reflexivity.
  - rewrite (proj1 (rfind_occurs _ _) H). simpl. now rewrite orb_true_r.
Qed.

(** Every text is of one of three kinds: a brace is missing; the first
    opening brace comes before the last closing brace, and the block is
    what lies between them; or every closing brace comes before the first
    opening brace. *)
Lemma json_block_cases (text : string) :
  (occurs "{" text = false \/ occurs "}" text = false)
  \/ (exists pre mid post,
        text = (pre ++ "{" ++ mid ++ "}" ++ post)%string
        /\ occurs "{" pre = false /\ occurs "}" post = false)
  \/ (exists pre rest,
        text = (pre ++ "{" ++ rest)%string
        /\ occurs "{" pre = false /\ occurs "}" rest = false).
Proof.
  destruct (occurs "{" text) eqn:Hopen; [|now left; left].
  destruct (occurs_split_first _ _ Hopen) as (pre & rest & -> & Hpre).
  destruct (occurs "}" rest) eqn:Hclose.
  - destruct (occurs_split_last _ _ Hclose) as (mid & post & -> & Hpost).
    right; left. now exists pre, mid, post.
  - right; right. now exists pre, rest.
Qed.

(** The response enters the function through its stripped content's JSON
    block only, as far as the text is concerned. *)
Lemma parse_same_block (name : string) (r1 r2 : Client.BedrockResponse) :
  json_block (strip (Client.content r1)) = json_block (strip (Client.content r2)) ->
  Client.input_tokens r1 = Client.input_tokens r2 ->
  Client.output_tokens r1 = Client.output_tokens r2 ->
  Client.cost_estimate r1 = Client.cost_estimate r2 ->
  parse name r1 = parse name r2.
Proof.
  intros Hb Hi Ho Hc. unfold parse, _parse_review_response, parse_review_body.
  now rewrite Hb, Hi, Ho, Hc.
Qed.

Lemma error_result_one_issue (name msg : string) :
  issues (_create_error_result name msg)
  = [mkReviewIssue (JStr "system") (JStr "error") JNull
                   (JStr ("Review failed: " ++ msg)%string) JNull (JStr name)].
Proof. reflexivity. Qed.

(** C5.  What is handed to the JSON parser is the text from the first
    opening brace to the last closing brace of the content: an object with
    text before it that has no opening brace and text after it that has no
    closing brace is cut out and read as if it were the whole content.
    Content without an opening or without a closing brace, a block the
    parser rejects, and an object without the key [issues] each give the
    file's error result, with its one [system] issue; nothing is raised. *)
Theorem parse_review_response_block (name : string)
  (response : Client.BedrockResponse) :
  (forall pre mid post,
     occurs "{" pre = false -> occurs "}" post = false ->
     let object := ("{" ++ mid ++ "}")%string in
     let wrapped := Client.with_content response (pre ++ object ++ post)%string in
     json_block (strip (Client.content wrapped)) = Ok object
     /\ parse name wrapped = parse name (Client.with_content response object))
  /\ (occurs "{" (Client.content response) = false
      \/ occurs "}" (Client.content response) = false ->
      parse name response
      = _create_error_result name
          "Invalid response format: Validation error: No JSON found in response")
  /\ (forall text e,
        json_block (strip (Client.content response)) = Ok text ->
        json_loads text = Raise e ->
        exists msg, parse name response = _create_error_result name msg
                    /\ (exn_cls e = JSONDecodeError ->
                        msg = ("Invalid JSON response: " ++ exn_str e)%string))
  /\ (forall text parsed,
        json_block (strip (Client.content response)) = Ok text ->
        json_loads text = Ok parsed ->
        dict_contains "issues" parsed = false ->
        parse name response
        = _create_error_result name
            "Invalid response format: Validation error: Response missing 'issues' field")
  /\ (forall msg, exists issue,
        issues (_create_error_result name msg) = [issue]
        /\ rule issue = JStr "system" /\ severity issue = JStr "error").
Proof.
  split; [|split; [|split; [|split]]].
  - intros pre mid post Hpre Hpost object wrapped.
    assert (Hb : json_block (strip (Client.content wrapped)) = Ok object).
    { subst wrapped object. simpl Client.content.
      rewrite append_assoc. simpl. apply (json_block_found pre mid post Hpre Hpost). }
    split; [exact Hb|].
    apply parse_same_block; try reflexivity.
    rewrite Hb. symmetry. simpl Client.content. subst object.
    pose proof (json_block_found "" mid "" eq_refl eq_refl) as H0.
    exact H0.
  - intros Hmiss. unfold parse, _parse_review_response, parse_review_body.
    now rewrite (json_block_missing _ Hmiss).
  - intros text e Hb Hl. unfold parse, _parse_review_response, parse_review_body.
    rewrite Hb. simpl. rewrite Hl. simpl.
    destruct (exn_cls e) eqn:Hcls; eexists; (split; [reflexivity|]);
      intros; (reflexivity || discriminate).
  - intros text parsed Hb Hl Hmiss.
    unfold parse, _parse_review_response, parse_review_body.
    rewrite Hb. simpl. rewrite Hl. simpl. now rewrite Hmiss.
  - intros msg. eexists. rewrite error_result_one_issue. repeat split.
Qed.

Lemma parse_review_body_issues (name : string) (response : Client.BedrockResponse)
  (text : string) (parsed : dict json) (entries : list json) :
  0 <= max_issues_per_file cfg ->
  json_block (strip (Client.content response)) = Ok text ->
  json_loads text = Ok parsed ->
  dict_get "issues" parsed = Some (JList entries) ->
  issues (parse name response)
  = firstn (Z.to_nat (max_issues_per_file cfg))
      (filter (fun i => threshold_level cfg <=? issue_level i)
              (parsed_issues name entries)).
Proof.
  intros Hmax Hb Hl Hi.
  unfold parse, _parse_review_response, parse_review_body.
  rewrite Hb. simpl. rewrite Hl. simpl.
  unfold dict_contains, dict_get_default. rewrite Hi. simpl.
  rewrite issue_loop_spec. simpl.
  now rewrite truncate_firstn.
Qed.

(** C7.  With a per-file cap that is not negative and a threshold that is
    one of the four severities, as the validator demands: the levels are
    ordered suggestion, info, warning, error; of the issues the model
    returned exactly those whose level is at least the threshold's are
    retained, in the model's order; the issues of the result are the first
    [max_issues_per_file] of the retained ones; and under the threshold
    ["warning"] a ["suggestion"] issue is not retained while an ["error"]
    issue is. *)
Theorem parse_review_response_threshold (name : string)
  (response : Client.BedrockResponse)
  (text : string) (parsed : dict json) (entries : list json) :
  0 <= max_issues_per_file cfg ->
  In (severity_threshold cfg) SEVERITY_LEVELS ->
  json_block (strip (Client.content response)) = Ok text ->
  json_loads text = Ok parsed ->
  dict_get "issues" parsed = Some (JList entries) ->
  let returned := parsed_issues name entries in
  let retained :=
    filter (fun i => severity_level (severity_threshold cfg) <=? issue_level i)
           returned in
  severity_level "suggestion" < severity_level "info"
    < severity_level "warning"
  /\ severity_level "warning" < severity_level "error"
  /\ (forall i, In i retained <->
        In i returned
        /\ severity_level (severity_threshold cfg) <= issue_level i)
  /\ issues (parse name response)
     = firstn (Z.to_nat (max_issues_per_file cfg)) retained
  /\ (severity_threshold cfg = "warning" ->
      forall i, In i returned ->
        (severity i = JStr "suggestion" -> ~ In i retained)
        /\ (severity i = JStr "error" -> In i retained)).
Proof.
  intros Hmax Hthr Hb Hl Hi returned retained.
  assert (Hlevel : threshold_level cfg = severity_level (severity_threshold cfg)).
  { unfold threshold_level, severity_level.
    simpl in Hthr. destruct Hthr as [<-|[<-|[<-|[<-|[]]]]]; reflexivity. }
  split; [vm_compute; repeat split|].
  split; [vm_compute; reflexivity|].
  split; [|split].
  - intros i. subst retained. rewrite filter_In, Z.leb_le. reflexivity.
  - subst retained returned. rewrite <- Hlevel.
    now apply (parse_review_body_issues name response text parsed entries).
  - intros Hw i Hin. subst retained. rewrite filter_In, Hw.
    unfold issue_level. split; intros ->.
    + intros [_ H]. vm_compute in H. discriminate H.
    + split; [exact Hin | vm_compute; reflexivity].
Qed.

End ParseFacts.

(** ** Review orchestrator: batches and failure isolation *)

Section ChunkFacts.

Context {A : Type}.

Lemma chunks_concat (b : nat) : forall (m : nat) (l : list A),
  (List.length l <= m * b)%nat ->
  List.concat (map (fun k => firstn b (skipn (k * b) l)) (seq 0 m)) = l.
Proof.
  induction m as [|m IH]; intros l Hlen.
  - destruct l; [reflexivity | simpl in Hlen; lia].
  - simpl seq. rewrite <- seq_shift. simpl map. rewrite map_map.
    simpl List.concat.
    transitivity (firstn b l ++ skipn b l); [|apply firstn_skipn].
    f_equal.
    rewrite <- (IH (skipn b l)) at 1
      by (rewrite length_skipn; simpl in Hlen; lia).
    f_equal. apply map_ext. intros k.
    rewrite skipn_skipn. do 2 f_equal. lia.
Qed.

Lemma NoDup_firstn (n : nat) (l : list A) : NoDup l -> NoDup (firstn n l).
Proof.
  intros H. rewrite <- (firstn_skipn n l) in H.
  now apply NoDup_app_remove_r in H.
Qed.

Lemma NoDup_skipn (n : nat) (l : list A) : NoDup l -> NoDup (skipn n l).
Proof.
  intros H. rewrite <- (firstn_skipn n l) in H.
  now apply NoDup_app_remove_l in H.
Qed.

Lemma Permutation_concat (l1 l2 : list (list A)) :
  Permutation l1 l2 -> Permutation (List.concat l1) (List.concat l2).
Proof.
  induction 1; simpl.
  - reflexivity.
  - now apply Permutation_app_head.
  - rewrite !app_assoc. apply Permutation_app_tail, Permutation_app_comm.
  - etransitivity; eassumption.
Qed.

End ChunkFacts.

Lemma range_step_chunks {A} (bs : Z) (l : list A) :
  1 <= bs ->
  map (fun i => Engine.list_slice i (i + bs) l) (Engine.range_step (len l) bs)
  = map (fun k => firstn (Z.to_nat bs) (skipn (k * Z.to_nat bs) l))
        (seq 0 (Z.to_nat ((len l + bs - 1) / bs))).
Proof.
  intros Hbs. unfold Engine.range_step, Client.range.
  destruct (Z.leb_spec bs 0); [lia|].
  rewrite !map_map. apply map_ext. intros k.
  unfold Engine.list_slice. f_equal; [f_equal; lia|]. f_equal. nia.
Qed.

Lemma dict_update_concat {V} (batches : list (dict V)) : forall acc : dict V,
  NoDup (keys acc ++ keys (List.concat batches)) ->
  fold_left dict_update batches acc = acc ++ List.concat batches.
Proof.
  induction batches as [|b batches IH]; intros acc Hnd; simpl.
  - now rewrite app_nil_r.
  - simpl in Hnd. rewrite keys_app, app_assoc in Hnd.
    rewrite dict_update_fresh by (now apply NoDup_app_remove_r in Hnd).
    rewrite IH by (now rewrite keys_app).
    now rewrite app_assoc.
Qed.

Section BatchFacts.

Import Engine.

Variable get_rule_templates : string -> result (list string).
Variable load_rules_for_file : string -> list string -> result (dict json).
Variable _build_review_prompt :
  string -> Analyzer.FileChange -> dict json -> result string.
Variable invoke_model : string -> string -> result Client.BedrockResponse.
Variable json_loads : string -> result (dict json).
Variable as_completed :
  list (dict FileReviewResult) -> list (dict FileReviewResult).
Variable cfg : ReviewConfig.

Let review :=
  _review_single_file get_rule_templates load_rules_for_file
    _build_review_prompt invoke_model json_loads cfg.
Let outcome :=
  file_outcome get_rule_templates load_rules_for_file
    _build_review_prompt invoke_model json_loads cfg.
Let step :=
  review_step get_rule_templates load_rules_for_file
    _build_review_prompt invoke_model json_loads cfg.
Let review_batch :=
  _review_file_batch get_rule_templates load_rules_for_file
    _build_review_prompt invoke_model json_loads cfg.

Let outcome_item :=
  Engine.outcome_item get_rule_templates load_rules_for_file
    _build_review_prompt invoke_model json_loads cfg.

Lemma review_step_outcome (results : dict FileReviewResult)
  (item : string * Analyzer.FileChange) :
  step results item = dict_set (fst item) (outcome (fst item) (snd item)) results.
Proof.
  destruct item as [name change]. unfold step, review_step, outcome, file_outcome.
  simpl. now destruct (_review_single_file _ _ _ _ _ _ name change).
Qed.

Lemma review_fold (l : dict Analyzer.FileChange) :
  forall results : dict FileReviewResult,
  NoDup (keys results ++ keys l) ->
  fold_left step l results = results ++ map outcome_item l.
Proof.
  induction l as [|item l IH]; intros results Hnd; simpl.
  - now rewrite app_nil_r.
  - rewrite review_step_outcome.
    rewrite dict_set_fresh.
    + rewrite IH.
      * now rewrite <- app_assoc.
      * rewrite keys_app. simpl. now rewrite <- app_assoc.
    + simpl in Hnd. apply NoDup_remove_2 in Hnd. intros Hin. apply Hnd.
      apply in_or_app. now left.
Qed.

Lemma keys_outcomes (l : dict Analyzer.FileChange) :
  keys (map outcome_item l) = keys l.
Proof. unfold keys. rewrite map_map. reflexivity. Qed.

Lemma review_batch_spec (batch : dict Analyzer.FileChange) :
  NoDup (keys batch) -> review_batch batch = map outcome_item batch.
Proof.
  intros Hnd. unfold review_batch, _review_file_batch. fold step.
  now rewrite review_fold.
Qed.

Lemma lookup_outcome (l : dict Analyzer.FileChange) (name : string)
  (change : Analyzer.FileChange) (results : dict FileReviewResult) :
  NoDup (keys l) ->
  Permutation results (map outcome_item l) ->
  In (name, change) l ->
  dict_get name results = Some (outcome name change).
Proof.
  intros Hnd Hp Hin. apply dict_get_In.
  - eapply Permutation_NoDup.
    + apply Permutation_map. symmetry. exact Hp.
    + fold (keys (map outcome_item l)). now rewrite keys_outcomes.
  - eapply Permutation_in; [symmetry; exact Hp|].
    change (name, outcome name change) with (outcome_item (name, change)).
    now apply in_map.
Qed.

(** With batches that have at least one file and at least one worker, the
    parallel run ends, whatever the order in which the batches complete,
    with one entry per file: the file's own outcome. *)
Lemma review_files_parallel_spec (changes : dict Analyzer.FileChange) :
  (forall l, Permutation (as_completed l) l) ->
  1 <= batch_size cfg ->
  1 <= max_workers cfg ->
  NoDup (keys changes) ->
  exists results,
    _review_files_parallel get_rule_templates load_rules_for_file
      _build_review_prompt invoke_model json_loads as_completed cfg changes
    = Ok results
    /\ Permutation results (map outcome_item changes).
Proof.
  intros Hperm Hbs Hw Hnd. unfold _review_files_parallel.
  destruct (Z.leb_spec (max_workers cfg) 0); [lia|].
  destruct (Z.eqb_spec (batch_size cfg) 0); [lia|].
  eexists. split; [reflexivity|].
  fold review_batch.
  set (b := Z.to_nat (batch_size cfg)).
  set (m := Z.to_nat ((len changes + batch_size cfg - 1) / batch_size cfg)).
  set (chunks := map (fun k => firstn b (skipn (k * b) changes)) (seq 0 m)).
  assert (Hchunks : submitted_batches cfg changes = chunks).
  { unfold submitted_batches. rewrite <- map_map with (g := dict_of_items).
    rewrite range_step_chunks by exact Hbs. fold b m chunks.
    rewrite <- (map_id chunks) at 2. apply map_ext_in.
    intros c Hc. apply dict_of_items_nodup.
    unfold chunks in Hc. apply in_map_iff in Hc as (k & <- & _).
    unfold keys. rewrite <- firstn_map, <- skipn_map.
    now apply NoDup_firstn, NoDup_skipn. }
  assert (Hcat : List.concat chunks = changes).
  { apply chunks_concat. unfold m, b, len.
    pose proof (Z.div_mod (Z.of_nat (List.length changes) + batch_size cfg - 1)
                  (batch_size cfg) ltac:(lia)) as Hdm.
    pose proof (Z.mod_pos_bound
                  (Z.of_nat (List.length changes) + batch_size cfg - 1)
                  (batch_size cfg) ltac:(lia)) as Hmb.
    assert (0 <= (Z.of_nat (List.length changes) + batch_size cfg - 1)
                 / batch_size cfg) by (apply Z.div_pos; lia).
    nia. }
  assert (Hfut : List.concat (map review_batch chunks) = map outcome_item changes).
  { rewrite <- Hcat. rewrite concat_map. f_equal.
    apply map_ext_in. intros c Hc. apply review_batch_spec.
    unfold chunks in Hc. apply in_map_iff in Hc as (k & <- & _).
    unfold keys. rewrite <- firstn_map, <- skipn_map.
    now apply NoDup_firstn, NoDup_skipn. }
  rewrite Hchunks.
  assert (Hp : Permutation (List.concat (as_completed (map review_batch chunks)))
                 (map outcome_item changes)).
  { rewrite <- Hfut. apply Permutation_concat, Hperm. }
  rewrite dict_update_concat.
  - exact Hp.
  - simpl. eapply Permutation_NoDup.
    + apply Permutation_map. symmetry. exact Hp.
    + fold (keys (map outcome_item changes)). now rewrite keys_outcomes.
Qed.

End BatchFacts.

Section IsolationFacts.

Import Engine.

Variable get_rule_templates : string -> result (list string).
Variable load_rules_for_file : string -> list string -> result (dict json).
Variable _build_review_prompt :
  string -> Analyzer.FileChange -> dict json -> result string.
Variable invoke_model : string -> string -> result Client.BedrockResponse.
Variable json_loads : string -> result (dict json).
Variable as_completed :
  list (dict FileReviewResult) -> list (dict FileReviewResult).
Variable cfg : ReviewConfig.

Let review :=
  _review_single_file get_rule_templates load_rules_for_file
    _build_review_prompt invoke_model json_loads cfg.
Let outcome :=
  file_outcome get_rule_templates load_rules_for_file
    _build_review_prompt invoke_model json_loads cfg.
Let review_batch :=
  _review_file_batch get_rule_templates load_rules_for_file
    _build_review_prompt invoke_model json_loads cfg.

(** C4.  In a batch (a dictionary, so with distinct filenames) every file
    gets an entry, and the entry of a file is its own outcome: the result
    of its review, or, when its review raised, the error result with the
    one issue of rule [system] and severity [error] whose message holds the
    failure's text.  So a file's entry is the same in any run in which its
    own review goes the same way, whatever happens to the other files; and
    the same holds for the files of a sequential run and of a parallel run,
    in whatever order the batches complete. *)
Theorem review_file_batch_isolation (batch : dict Analyzer.FileChange) :
  NoDup (keys batch) ->
  keys (review_batch batch) = keys batch
  /\ (forall name change,
        In (name, change) batch ->
        dict_get name (review_batch batch) = Some (outcome name change)
        /\ (forall e,
              review name change = Raise e ->
              outcome name change = _create_error_result name (exn_str e)
              /\ issues (outcome name change)
                 = [mkReviewIssue (JStr "system") (JStr "error") JNull
                      (JStr ("Review failed: " ++ exn_str e)%string)
                      JNull (JStr name)])
        /\ (forall r, review name change = Ok r -> outcome name change = r)
        /\ (forall get_rule_templates' load_rules_for_file'
                   _build_review_prompt' invoke_model' json_loads',
              _review_single_file get_rule_templates' load_rules_for_file'
                _build_review_prompt' invoke_model' json_loads' cfg name change
              = review name change ->
              dict_get name
                (_review_file_batch get_rule_templates' load_rules_for_file'
                   _build_review_prompt' invoke_model' json_loads' cfg batch)
              = dict_get name (review_batch batch)))
  /\ (forall name change,
        In (name, change) batch ->
        dict_get name
          (_review_files_sequential get_rule_templates load_rules_for_file
             _build_review_prompt invoke_model json_loads cfg batch)
        = Some (outcome name change))
  /\ ((forall l, Permutation (as_completed l) l) ->
      1 <= batch_size cfg ->
      1 <= max_workers cfg ->
      exists results,
        _review_files_parallel get_rule_templates load_rules_for_file
          _build_review_prompt invoke_model json_loads as_completed cfg batch
        = Ok results
        /\ forall name change,
             In (name, change) batch ->
             dict_get name results = Some (outcome name change)).
Proof.
  intros Hnd.
  assert (Hlookup : forall gt lr bp im jl name change,
             In (name, change) batch ->
             dict_get name (_review_file_batch gt lr bp im jl cfg batch)
             = Some (file_outcome gt lr bp im jl cfg name change)).
  { intros gt lr bp im jl name change Hin.
    apply (lookup_outcome gt lr bp im jl cfg batch name change); try assumption.
    rewrite review_batch_spec by exact Hnd. reflexivity. }
  split; [|split; [|split]].
  - unfold review_batch. rewrite review_batch_spec by exact Hnd.
    apply keys_outcomes.
  - intros name change Hin.
    split; [apply Hlookup; exact Hin|].
    split; [|split].
    + intros e He. unfold outcome, file_outcome. fold review. rewrite He.
      split; reflexivity.
    + intros r Hr. unfold outcome, file_outcome. fold review. now rewrite Hr.
    + intros gt lr bp im jl Hsame. unfold review_batch.
      rewrite (Hlookup gt lr bp im jl name change Hin).
      rewrite (Hlookup get_rule_templates load_rules_for_file
                 _build_review_prompt invoke_model json_loads name change Hin).
      unfold file_outcome. fold review. now rewrite Hsame.
  - intros name change Hin. apply Hlookup. exact Hin.
  - intros Hperm Hbs Hw.
    destruct (review_files_parallel_spec get_rule_templates load_rules_for_file
                _build_review_prompt invoke_model json_loads as_completed cfg
                batch Hperm Hbs Hw Hnd) as (results & Hres & Hp).
    exists results. split; [exact Hres|].
    intros name change Hin.
    now apply (lookup_outcome get_rule_templates load_rules_for_file
                 _build_review_prompt invoke_model json_loads cfg batch).
Qed.

End IsolationFacts.

(* ===================================================================== *)
(** * The properties on the sample inputs *)
(* ===================================================================== *)

Section Runs.

Import Samples.

(** The sample triage: two files kept, the cap moves two survivors. *)
Example analysis_run :
  keys (Analyzer.filtered_changes analysis) = ["b.py"; "a.py"]
  /\ Analyzer.excluded_files analysis = ["Makefile"; "c.py"; "d.py"]
  /\ Analyzer.binary_files analysis = ["logo.png"]
  /\ Analyzer.large_files analysis = ["big.py"]
  /\ Analyzer.total_lines_added analysis = 21
  /\ Analyzer.total_lines_removed analysis = 5
  /\ Analyzer.file_count analysis = 2.
Proof. vm_compute. repeat split. Qed.

(** The totals of the sample are not the sums over the files returned. *)
Example analysis_totals_not_recomputed :
  Analyzer.total_lines_added analysis = 21
  /\ total Analyzer.added_of (Analyzer.filtered_changes analysis) = 15.
Proof. vm_compute. split; reflexivity. Qed.

Lemma changes_distinct : NoDup (keys changes).
Proof. apply distinct_NoDup. reflexivity. Qed.

Lemma analyze_changes_partition_witness :
  let r := analysis in
  Permutation (keys changes)
    (keys (Analyzer.filtered_changes r) ++ Analyzer.excluded_files r
     ++ Analyzer.binary_files r ++ Analyzer.large_files r)
  /\ len (Analyzer.filtered_changes r) <= 2.
Proof.
  pose proof (analyze_changes_partition fnmatch_literal plain_suffix git_config
                changes changes_distinct ltac:(simpl; lia)) as H.
  exact (conj (proj1 H) (proj1 (proj2 (proj2 (proj2 H))))).
Defined.

Lemma analyze_changes_cap_witness :
  exists moved : dict Analyzer.FileChange,
    len (Analyzer.filtered_changes analysis) = 2
    /\ len moved = 4 - 2
    /\ Analyzer.excluded_files analysis = ["Makefile"] ++ keys moved
    /\ (forall x y, In x (Analyzer.filtered_changes analysis) -> In y moved ->
          Analyzer.change_size y <= Analyzer.change_size x).
Proof.
  destruct (analyze_changes_cap fnmatch_literal plain_suffix git_config
              changes changes_distinct ltac:(simpl; lia)
              ltac:(vm_compute; reflexivity))
    as (moved & H1 & H2 & _ & H4 & H5).
  exists moved. split; [exact H1|]. split; [exact H2|]. split; [exact H4|].
  intros x y Hx Hy. exact (proj1 (H5 x y Hx Hy)).
Defined.

Lemma analyze_changes_totals_precap_witness :
  Analyzer.total_lines_added analysis = 5 + 10 + 5 + 1
  /\ Analyzer.total_lines_removed analysis = 2 + 0 + 2 + 1.
Proof.
  pose proof (analyze_changes_totals_precap fnmatch_literal plain_suffix
                git_config changes changes_distinct
                ltac:(vm_compute; reflexivity)) as H.
  exact (conj (proj1 H) (proj1 (proj2 H))).
Defined.

(** Two thousand input and one thousand output tokens on Claude 3 Haiku. *)
Example cost_estimate_run :
  Models.get_cost_estimate "anthropic.claude-3-haiku-20240307-v1:0" 2000 1000
  = Ok 0.00175%float.
Proof. vm_compute. reflexivity. Qed.

Lemma get_cost_estimate_spec_witness :
  Models.get_cost_estimate "acme.model-v1" 2000 1000 = Ok 0%float
  /\ Models.get_model_info "acme.model-v1"
     = Raise (Exn ValueError "Unsupported model: acme.model-v1")
  /\ exists info,
       Models.get_model_info "cohere.command-r-v1:0" = Ok info
       /\ Models.get_cost_estimate "cohere.command-r-v1:0" 2000 1000
          = Ok (truediv 2000 1000 * Models.input_cost_per_1k info
                + truediv 1000 1000 * Models.output_cost_per_1k info)%float.
Proof.
  destruct (proj1 (get_cost_estimate_spec "acme.model-v1" 2000 1000) eq_refl)
    as [H1 H2].
  destruct (proj2 (get_cost_estimate_spec "cohere.command-r-v1:0" 2000 1000)
              eq_refl ltac:(lia) ltac:(lia)) as (info & _ & H3 & H4).
  split; [exact H1|]. split; [exact H2|].
  exists info. split; [exact H3 | exact H4].
Defined.

(** Three retries after the first attempt, with delays 1/2, 1 and 2. *)
Example invoke_model_run :
  Client.invoke_model 3 (1 # 2) always_throttled
  = (Client._invoke_model_once throttled,
     [Client.Invoked 0; Client.Slept (1 # 2); Client.Invoked 1;
      Client.Slept (2 # 2); Client.Invoked 2; Client.Slept (4 # 2);
      Client.Invoked 3]).
Proof. vm_compute. reflexivity. Qed.

Lemma invoke_model_retry_policy_witness :
  Client.invocations (snd (Client.invoke_model 3 (1 # 2) always_throttled))
  = [0; 1; 2; 3]
  /\ Client.sleeps (snd (Client.invoke_model 3 (1 # 2) always_throttled))
     = map (Client.backoff (1 # 2)) [0; 1; 2]
  /\ fst (Client.invoke_model 3 (1 # 2) drops_connection)
     = Raise (Client.network_error "Network error calling Bedrock: Connection reset")
  /\ Client.invocations (snd (Client.invoke_model 3 (1 # 2) drops_connection))
     = [0; 1].
Proof.
  assert (Hd : (0 <= 1 # 2)%Q) by (unfold Qle; simpl; lia).
  destruct (proj1 (invoke_model_retry_policy 3 (1 # 2) always_throttled
                     ltac:(lia) Hd) (fun k _ => eq_refl))
    as (_ & _ & _ & H1 & _ & H2).
  assert (Hfail : forall j, 0 <= j < 1 -> Client.retryable (drops_connection j) = true).
  { intros j Hj. assert (j = 0) as -> by lia. reflexivity. }
  destruct (proj2 (invoke_model_retry_policy 3 (1 # 2) drops_connection
                     ltac:(lia) Hd) 1 "Connection reset" ltac:(lia) Hfail eq_refl)
    as (H3 & _ & H4).
  split; [exact H1|]. split; [exact H2|]. split; [exact H3 | exact H4].
Defined.

Lemma coerce_severity_idempotent_witness :
  Engine.coerce_severity (JStr "critical") = JStr "info"
  /\ Engine.coerce_severity (JInt 3) = JStr "info".
Proof.
  destruct coerce_severity_idempotent as (_ & _ & _ & _ & H5 & H6 & _).
  split.
  - apply H5. simpl. intros [H|[H|[H|[H|[]]]]]; discriminate H.
  - apply H6. intros s H. discriminate H.
Defined.

Lemma batch_distinct : NoDup (keys batch).
Proof. apply distinct_NoDup. reflexivity. Qed.

(** In the sample batch the model is throttled on [bad.py] only: that file
    gets the error result, and [ok.py] gets what it gets when the model
    answers on every file. *)
Lemma review_file_batch_isolation_witness :
  let failure :=
    Engine._create_error_result "bad.py"
      "AWS Bedrock error: Rate limit exceeded: slow down (ThrottlingException)" in
  let results :=
    Engine._review_file_batch get_rule_templates load_rules_for_file
      build_review_prompt invoke_model json_loads review_config batch in
  keys results = ["ok.py"; "bad.py"; "fine.py"]
  /\ dict_get "bad.py" results = Some failure
  /\ dict_get "ok.py"
       (Engine._review_file_batch get_rule_templates load_rules_for_file
          build_review_prompt invoke_model_always json_loads review_config batch)
     = dict_get "ok.py" results
  /\ exists merged,
       Engine._review_files_parallel get_rule_templates load_rules_for_file
         build_review_prompt invoke_model json_loads as_completed
         review_config batch = Ok merged
       /\ dict_get "bad.py" merged = Some failure.
Proof.
  destruct (review_file_batch_isolation get_rule_templates load_rules_for_file
              build_review_prompt invoke_model json_loads as_completed
              review_config batch batch_distinct) as (Hkeys & Hfile & _ & Hpar).
  destruct (Hfile "bad.py" (snd (change "bad.py" 4 0))
              (or_intror (or_introl eq_refl))) as (Hget & Hfail & _ & _).
  destruct (Hfail (Client.bedrock_error "Rate limit exceeded: slow down"
                     "ThrottlingException") eq_refl) as [Hout _].
  split; [exact Hkeys|]. split; [|split].
  - cbv zeta. rewrite Hget, Hout. reflexivity.
  - destruct (Hfile "ok.py" (snd (change "ok.py" 3 1)) (or_introl eq_refl))
      as (_ & _ & _ & Hsame).
    exact (Hsame get_rule_templates load_rules_for_file build_review_prompt
             invoke_model_always json_loads eq_refl).
  - destruct (Hpar (fun l => Permutation_sym (Permutation_rev l))
                ltac:(simpl; lia) ltac:(simpl; lia)) as (merged & Hrun & Hall).
    exists merged. split; [exact Hrun|].
    rewrite (Hall "bad.py" (snd (change "bad.py" 4 0))
               (or_intror (or_introl eq_refl))).
    now rewrite Hout.
Defined.

Lemma parse_review_response_block_witness :
  let parse := Engine._parse_review_response json_loads review_config "ok.py" in
  Engine.json_block (strip ("Here is my review: " ++ object_text ++ " Done.")%string)
  = Ok object_text
  /\ parse (response ("Here is my review: " ++ object_text ++ " Done.")%string)
     = parse (response object_text)
  /\ parse (response "I cannot review this file.")
     = Engine._create_error_result "ok.py"
         "Invalid response format: Validation error: No JSON found in response"
  /\ parse (response "{oops}")
     = Engine._create_error_result "ok.py"
         "Invalid JSON response: Expecting value: line 1 column 1 (char 0)"
  /\ parse (response other_text)
     = Engine._create_error_result "ok.py"
         "Invalid response format: Validation error: Response missing 'issues' field".
Proof.
  destruct (parse_review_response_block json_loads review_config "ok.py"
              (response "I cannot review this file."))
    as (Hblock & Hnone & _ & _ & _).
  destruct (Hblock "Here is my review: "%string object_inner " Done."%string
              eq_refl eq_refl) as [H1 H2].
  destruct (parse_review_response_block json_loads review_config "ok.py"
              (response "{oops}")) as (_ & _ & Hbad & _ & _).
  destruct (Hbad "{oops}"%string
              (Exn JSONDecodeError "Expecting value: line 1 column 1 (char 0)")
              eq_refl eq_refl) as (msg & Hparse & Hmsg).
  destruct (parse_review_response_block json_loads review_config "ok.py"
              (response other_text)) as (_ & _ & _ & Hmissing & _).
  split; [exact H1|]. split; [exact H2|].
  split; [exact (Hnone (or_introl eq_refl))|].
  split; [cbv zeta; rewrite Hparse, (Hmsg eq_refl); reflexivity|].
  exact (Hmissing other_text [("summary", JStr "fine")] eq_refl eq_refl eq_refl).
Defined.

(** Prose that itself holds a brace moves the first opening brace: the
    block then starts in the prose, and the sample parser rejects it. *)
Example brace_in_prose_run :
  Engine.json_block (strip ("See {x}: " ++ object_text ++ " Done.")%string)
  = Ok ("{x}: " ++ object_text)%string
  /\ Engine._parse_review_response json_loads review_config "ok.py"
       (response ("See {x}: " ++ object_text ++ " Done.")%string)
     = Engine._create_error_result "ok.py"
         "Invalid JSON response: Expecting value: line 1 column 1 (char 0)".
Proof. vm_compute. split; reflexivity. Qed.

(** The whole run on the sample batch, in parallel with batches of one
    file: three files, one issue, the tokens of the two answered files. *)
Example review_changes_run :
  exists r,
    Engine.review_changes get_rule_templates load_rules_for_file
      build_review_prompt invoke_model json_loads float_sum as_completed
      review_config batch = Ok r
    /\ keys (Engine.files r) = ["fine.py"; "bad.py"; "ok.py"]
    /\ Engine.total_files r = 3
    /\ Engine.run_total_issues r = 1
    /\ Engine.total_errors r = 1
    /\ Engine.total_tokens r = 300
    /\ Engine.run_summary r
       = "Found 1 issues in 3 files: 1 errors, 0 warnings, 0 info, 0 suggestions".
Proof. eexists. split; [vm_compute; reflexivity|]. vm_compute. repeat split. Qed.

(** Under the threshold ["warning"], of a suggestion and an error the model
    returned only the error is in the result. *)
Lemma parse_review_response_threshold_witness :
  let entries := [JDict [("severity", JStr "suggestion")];
                  JDict [("severity", JStr "error")]] in
  let issue sev :=
    Engine.mkReviewIssue (JStr "unknown") (JStr sev) JNull (JStr "") JNull
                         (JStr "x.py") in
  Engine.issues
    (Engine._parse_review_response json_loads review_config "x.py"
       (response findings_text))
  = [issue "error"]
  /\ ~ In (issue "suggestion")
          (filter (fun i => Engine.severity_level "warning" <=? Engine.issue_level i)
                  (Engine.parsed_issues "x.py" entries)).
Proof.
  intros entries issue.
  destruct (parse_review_response_threshold json_loads review_config "x.py"
              (response findings_text) findings_text findings_value entries
              ltac:(simpl; lia) (or_intror (or_introl eq_refl))
              eq_refl eq_refl eq_refl) as (_ & _ & _ & H & Hwarning).
  split; [exact H|].
  exact (proj1 (Hwarning eq_refl (issue "suggestion") (or_introl eq_refl)) eq_refl).
Defined.

End Runs.

(* ===================================================================== *)
(** * Further properties *)
(* ===================================================================== *)

(** ** Dictionaries *)

Section DictFacts.

Context {V : Type}.

Lemma dict_get_set_same (k : string) (v : V) (d : dict V) :
  dict_get k (dict_set k v d) = Some v.
Proof.
  induction d as [|[k' v'] d IH]; simpl.
  - now rewrite String.eqb_refl.
  - destruct (String.eqb_spec k k') as [->|Hne]; simpl.
    + now rewrite String.eqb_refl.
    + apply String.eqb_neq in Hne. now rewrite Hne.
Qed.

Lemma dict_get_set_other (k k' : string) (v : V) (d : dict V) :
  k <> k' -> dict_get k (dict_set k' v d) = dict_get k d.
Proof.
  intros Hne. induction d as [|[k0 v0] d IH]; simpl.
  - apply String.eqb_neq in Hne. now rewrite Hne.
  - destruct (String.eqb_spec k' k0) as [->|Hne']; simpl.
    + apply String.eqb_neq in Hne. now rewrite Hne.
    + now rewrite IH.
Qed.

Lemma dict_get_None (k : string) (d : dict V) :
  dict_get k d = None <-> ~ In k (keys d).
Proof.
  induction d as [|[k' v'] d IH]; simpl.
  - tauto.
  - destruct (String.eqb_spec k k') as [->|Hne].
    + split; [discriminate | intros H; elim H; now left].
    + rewrite IH. split; [intros H [Heq|Hin]; congruence | tauto].
Qed.

Lemma keys_dict_set (k : string) (v : V) (d : dict V) :
  keys (dict_set k v d) = if dict_contains k d then keys d else keys d ++ [k].
Proof.
  unfold dict_contains. induction d as [|[k' v'] d IH]; simpl; [reflexivity|].
  destruct (String.eqb_spec k k') as [->|Hne]; simpl; [reflexivity|].
  rewrite IH. now destruct (dict_get k d).
Qed.

Lemma NoDup_keys_dict_set (k : string) (v : V) (d : dict V) :
  NoDup (keys d) -> NoDup (keys (dict_set k v d)).
Proof.
  intros Hnd. rewrite keys_dict_set. unfold dict_contains.
  destruct (dict_get k d) eqn:Hget; [exact Hnd|].
  apply dict_get_None in Hget.
  apply NoDup_app; [exact Hnd | repeat constructor; simpl; tauto |].
  intros x Hx [<-|[]]. contradiction.
Qed.

Lemma dict_get_Some_In (k : string) (v : V) (d : dict V) :
  dict_get k d = Some v -> In (k, v) d.
Proof.
  induction d as [|[k' v'] d IH]; simpl; [discriminate|].
  destruct (String.eqb_spec k k') as [->|Hne].
  - intros H. inversion H. now left.
  - intros H. right. now apply IH.
Qed.

End DictFacts.

(** ** Change reports *)

Section CategorizeFacts.

Import Reports.

(** The status is the given letter: decide the other comparisons. *)
Ltac status_is H := try rewrite H; simpl.

Lemma categorize_from (l : dict Analyzer.FileChange) :
  forall a m d r c : list string,
  for_each categorize_step l
    [("added", a); ("modified", m); ("deleted", d); ("renamed", r); ("copied", c)]
  = Ok [("added", a ++ with_status "A" l); ("modified", m ++ with_status "M" l);
        ("deleted", d ++ with_status "D" l); ("renamed", r ++ with_status "R" l);
        ("copied", c ++ with_status "C" l)].
Proof.
  induction l as [|[name change] l IH]; intros a m d r c.
  - simpl. unfold with_status. simpl. now rewrite !app_nil_r.
  - simpl for_each. unfold categorize_step, with_status. simpl filter.
    destruct (String.eqb_spec (Analyzer.status change) "A") as [HA|HA];
      [status_is HA; rewrite IH; unfold with_status; now rewrite <- !app_assoc|].
    destruct (String.eqb_spec (Analyzer.status change) "M") as [HM|HM];
      [status_is HM; rewrite IH; unfold with_status; now rewrite <- !app_assoc|].
    destruct (String.eqb_spec (Analyzer.status change) "D") as [HD|HD];
      [status_is HD; rewrite IH; unfold with_status; now rewrite <- !app_assoc|].
    destruct (String.eqb_spec (Analyzer.status change) "R") as [HR|HR];
      [status_is HR; rewrite IH; unfold with_status; now rewrite <- !app_assoc|].
    destruct (String.eqb_spec (Analyzer.status change) "C") as [HC|HC];
      [status_is HC; rewrite IH; unfold with_status; now rewrite <- !app_assoc|].
    simpl. rewrite IH. reflexivity.
Qed.

(** X1.  [categorize_changes] never raises; its result has the five
    categories, in their fixed order, and each category lists, in the
    input's order, exactly the files whose status is the category's letter.
    A file with any other status is in no category. *)
Theorem categorize_changes_by_status (changes : dict Analyzer.FileChange) :
  categorize_changes changes
  = Ok [("added", with_status "A" changes);
        ("modified", with_status "M" changes);
        ("deleted", with_status "D" changes);
        ("renamed", with_status "R" changes);
        ("copied", with_status "C" changes)].
Proof. unfold categorize_changes, categories_init. now rewrite categorize_from. Qed.

End CategorizeFacts.

Section FileTypesFacts.

Import Reports.

Variable suffix_lower : string -> string.

Let key := group_key suffix_lower.
Let group := grouped suffix_lower.
Let step := file_types_step suffix_lower.

Lemma grouped_snoc (ext name : string) (done : list string) :
  group ext (done ++ [name])
  = group ext done ++ (if String.eqb (key name) ext then [name] else []).
Proof. unfold group, grouped. now rewrite filter_app. Qed.

Lemma group_entry_app (l : list string) (x : string) :
  group_entry (l ++ [x]) = Some (l ++ [x]).
Proof. now destruct l. Qed.

Lemma file_types_step_spec (d : dict (list string)) (done : list string)
  (name : string) :
  NoDup (keys d) ->
  (forall ext, dict_get ext d = group_entry (group ext done)) ->
  exists d',
    step d name = Ok d'
    /\ NoDup (keys d')
    /\ forall ext, dict_get ext d' = group_entry (group ext (done ++ [name])).
Proof.
  intros Hnd Hget. unfold step, file_types_step.
  fold (group_key suffix_lower name). fold key.
  set (g := key name).
  set (d1 := if negb (dict_contains g d) then dict_set g [] d else d).
  assert (Hnd1 : NoDup (keys d1)).
  { unfold d1. destruct (dict_contains g d); simpl;
      [exact Hnd | now apply NoDup_keys_dict_set]. }
  assert (Hg : dict_get g d1 = Some (group g done)).
  { unfold d1, dict_contains. specialize (Hget g).
    destruct (dict_get g d) as [l|] eqn:Hd; simpl.
    - rewrite Hd, Hget. destruct (group g done); [discriminate|].
      simpl in Hget. now inversion Hget.
    - rewrite dict_get_set_same. destruct (group g done); [reflexivity|].
      discriminate Hget. }
  assert (Hother : forall ext, ext <> g -> dict_get ext d1 = dict_get ext d).
  { intros ext Hne. unfold d1. destruct (dict_contains g d); simpl;
      [reflexivity | now apply dict_get_set_other]. }
  unfold append_at. rewrite Hg.
  eexists. split; [reflexivity|]. split; [now apply NoDup_keys_dict_set|].
  intros ext. rewrite grouped_snoc. fold g.
  destruct (String.eqb_spec g ext) as [<-|Hne].
  - rewrite dict_get_set_same. now rewrite group_entry_app.
  - rewrite dict_get_set_other by congruence.
    rewrite Hother by congruence. now rewrite app_nil_r.
Qed.

Lemma file_types_from (names : list string) :
  forall (d : dict (list string)) (done : list string),
  NoDup (keys d) ->
  (forall ext, dict_get ext d = group_entry (group ext done)) ->
  exists d',
    for_each step names d = Ok d'
    /\ NoDup (keys d')
    /\ forall ext, dict_get ext d' = group_entry (group ext (done ++ names)).
Proof.
  induction names as [|name names IH]; intros d done Hnd Hget.
  - exists d. rewrite app_nil_r. now repeat split.
  - destruct (file_types_step_spec d done name Hnd Hget) as (d1 & Hs & Hnd1 & Hget1).
    destruct (IH d1 (done ++ [name]) Hnd1 Hget1) as (d' & Hrun & Hnd' & Hget').
    exists d'. simpl. rewrite Hs. simpl. split; [exact Hrun|].
    split; [exact Hnd'|]. intros ext. rewrite Hget'. now rewrite <- app_assoc.
Qed.

(** X2.  [get_file_types] never raises.  Its result has one entry per
    extension that occurs (["no_extension"] standing for the empty one),
    no extension twice, and the entry of an extension lists, in the
    input's order, exactly the files with that extension; so every file is
    in one group and no group is empty. *)
Theorem get_file_types_groups (changes : dict Analyzer.FileChange) :
  exists file_types,
    get_file_types suffix_lower changes = Ok file_types
    /\ NoDup (keys file_types)
    /\ (forall ext, dict_get ext file_types = group_entry (group ext (keys changes)))
    /\ (forall name, In name (keys changes) ->
          exists files, dict_get (key name) file_types = Some files /\ In name files)
    /\ (forall ext files, In (ext, files) file_types -> files <> []).
Proof.
  destruct (file_types_from (keys changes) [] [] (NoDup_nil _) (fun _ => eq_refl))
    as (d & Hrun & Hnd & Hget).
  exists d. simpl in Hget. split; [exact Hrun|]. split; [exact Hnd|].
  split; [exact Hget|]. split.
  - intros name Hin. exists (group (key name) (keys changes)).
    assert (Hmem : In name (group (key name) (keys changes))).
    { apply filter_In. split; [exact Hin | apply String.eqb_refl]. }
    split; [|exact Hmem].
    rewrite Hget. destruct (group (key name) (keys changes)); [contradiction|].
    reflexivity.
  - intros ext files Hin Hnil. subst files.
    apply (dict_get_In ext [] d Hnd) in Hin. rewrite Hget in Hin.
    destruct (group ext (keys changes)); discriminate Hin.
Qed.

End FileTypesFacts.

Section StatisticsFacts.

Import Reports.

Lemma count_snoc {A} (p : A -> bool) (l : list A) (x : A) :
  count p (l ++ [x]) = count p l + (if p x then 1 else 0).
Proof.
  unfold count, len. rewrite filter_app, length_app. simpl.
  destruct (p x); simpl; lia.
Qed.

Lemma total_snoc {A} (f : A -> Z) (l : list A) (x : A) :
  total f (l ++ [x]) = total f l + f x.
Proof. rewrite total_app. simpl. lia. Qed.

Lemma count_cons {A} (p : A -> bool) (x : A) (l : list A) :
  count p (x :: l) = (if p x then 1 else 0) + count p l.
Proof.
  unfold count, len. simpl filter. destruct (p x); simpl List.length; lia.
Qed.

(** A file has exactly one of the five kinds of status. *)
Lemma status_kinds (c : Analyzer.FileChange) :
  (if has_status "A" c then 1 else 0) + (if has_status "M" c then 1 else 0)
  + (if has_status "D" c then 1 else 0) + (if has_status "R" c then 1 else 0)
  + (if uncounted c then 1 else 0) = 1.
Proof.
  unfold uncounted, has_status.
  destruct (String.eqb_spec (Analyzer.status c) "A") as [HA|HA];
    [try rewrite HA; reflexivity|].
  destruct (String.eqb_spec (Analyzer.status c) "M") as [HM|HM];
    [try rewrite HM; reflexivity|].
  destruct (String.eqb_spec (Analyzer.status c) "D") as [HD|HD];
    [try rewrite HD; reflexivity|].
  destruct (String.eqb_spec (Analyzer.status c) "R") as [HR|HR];
    [try rewrite HR; reflexivity|].
  reflexivity.
Qed.

Lemma count_partition (done : list Analyzer.FileChange) :
  count (has_status "A") done + count (has_status "M") done
  + count (has_status "D") done + count (has_status "R") done
  + count uncounted done = len done.
Proof.
  induction done as [|c done IH]; [reflexivity|].
  rewrite !count_cons. pose proof (status_kinds c) as Hc.
  replace (len (c :: done)) with (1 + len done)
    by (unfold len; simpl List.length; lia).
  lia.
Qed.

(** What one iteration does to each counter. *)
Lemma statistics_step_fields (r : Running) (c : Analyzer.FileChange) :
  let r' := statistics_step r c in
  let one (b : bool) := if b then 1 else 0 in
  r_added r' = r_added r + Analyzer.lines_added c
  /\ r_removed r' = r_removed r + Analyzer.lines_removed c
  /\ r_files_added r' = r_files_added r + one (has_status "A" c)
  /\ r_files_modified r' = r_files_modified r + one (has_status "M" c)
  /\ r_files_deleted r' = r_files_deleted r + one (has_status "D" c)
  /\ r_files_renamed r' = r_files_renamed r + one (has_status "R" c)
  /\ r_largest r' = Z.max (r_largest r) (size_of c)
  /\ r_smallest r'
     = Some (match r_smallest r with
             | None => size_of c
             | Some m => Z.min m (size_of c)
             end).
Proof.
  unfold statistics_step, has_status. fold (size_of c).
  assert (Hl : (if r_largest r <? size_of c then size_of c else r_largest r)
               = Z.max (r_largest r) (size_of c))
    by (destruct (Z.ltb_spec (r_largest r) (size_of c)); lia).
  assert (Hs : match r_smallest r with
               | None => Some (size_of c)
               | Some m => if size_of c <? m then Some (size_of c) else Some m
               end
               = Some (match r_smallest r with
                       | None => size_of c
                       | Some m => Z.min m (size_of c)
                       end)).
  { destruct (r_smallest r) as [m|]; [|reflexivity].
    destruct (Z.ltb_spec (size_of c) m); f_equal; lia. }
  destruct (String.eqb_spec (Analyzer.status c) "A") as [HA|HA];
  [try rewrite HA
  |destruct (String.eqb_spec (Analyzer.status c) "M") as [HM|HM];
   [try rewrite HM
   |destruct (String.eqb_spec (Analyzer.status c) "D") as [HD|HD];
    [try rewrite HD
    |destruct (String.eqb_spec (Analyzer.status c) "R") as [HR|HR];
     [try rewrite HR|]]]]; simpl; rewrite Hl, Hs; repeat split; lia.
Qed.

Lemma statistics_step_counted (r : Running) (done : list Analyzer.FileChange)
  (c : Analyzer.FileChange) :
  counted r done -> counted (statistics_step r c) (done ++ [c]).
Proof.
  intros (Ha & Hr & Hfa & Hfm & Hfd & Hfr & H0 & Hmax & Hatt & Hmin).
  destruct (statistics_step_fields r c)
    as (Ea & Er & Efa & Efm & Efd & Efr & El & Es).
  unfold counted.
  rewrite Ea, Er, Efa, Efm, Efd, Efr, El, Es, !count_snoc, !total_snoc.
  split; [lia|]. split; [lia|]. split; [lia|]. split; [lia|].
  split; [lia|]. split; [lia|]. split; [lia|].
  split.
  { intros x Hx. apply in_app_or in Hx as [Hx|[<-|[]]];
      [specialize (Hmax x Hx)|]; lia. }
  split.
  { destruct (Z.max_spec (r_largest r) (size_of c)) as [[_ Hm]|[_ Hm]];
      rewrite Hm.
    - right. exists c. split; [apply in_or_app; right; now left | reflexivity].
    - destruct Hatt as [Hz|(x & Hx & Hsz)]; [now left|].
      right. exists x. split; [apply in_or_app; now left | exact Hsz]. }
  destruct (r_smallest r) as [m|].
  - destruct Hmin as (Hlow & x & Hx & Hsz). split.
    + intros y Hy. apply in_app_or in Hy as [Hy|[<-|[]]];
        [specialize (Hlow y Hy)|]; lia.
    + destruct (Z.min_spec m (size_of c)) as [[_ Hm]|[_ Hm]]; rewrite Hm.
      * exists x. split; [apply in_or_app; now left | exact Hsz].
      * exists c. split; [apply in_or_app; right; now left | reflexivity].
  - subst done. split.
    + intros y [<-|[]]. lia.
    + exists c. split; [now left | reflexivity].
Qed.

Lemma statistics_fold_counted (l : list Analyzer.FileChange) :
  forall r done, counted r done -> counted (fold_left statistics_step l r) (done ++ l).
Proof.
  induction l as [|c l IH]; intros r done Hc; simpl.
  - now rewrite app_nil_r.
  - replace (done ++ c :: l) with ((done ++ [c]) ++ l) by now rewrite <- app_assoc.
    apply IH. now apply statistics_step_counted.
Qed.

Lemma counted_init : counted running_init [].
Proof.
  unfold counted, running_init. simpl.
  repeat split; try reflexivity; try lia; try (intros c []); now left.
Qed.

(** X3.  The statistics of a change set: the totals are the sums of the
    added and the removed lines; each of the four status counters counts
    the files of its letter, and together they fall short of [total_files]
    by the files of any other status (copied files among them);
    [largest_change] is never negative, bounds every file's size and is
    0 or some file's size; [smallest_change] is 0 on the empty input and
    otherwise the smallest size. *)
Theorem get_change_statistics_spec (changes : dict Analyzer.FileChange) :
  let s := get_change_statistics changes in
  let cs := values changes in
  total_files s = len changes
  /\ total_lines_added s = total Analyzer.lines_added cs
  /\ total_lines_removed s = total Analyzer.lines_removed cs
  /\ files_added s = count (has_status "A") cs
  /\ files_modified s = count (has_status "M") cs
  /\ files_deleted s = count (has_status "D") cs
  /\ files_renamed s = count (has_status "R") cs
  /\ files_added s + files_modified s + files_deleted s + files_renamed s
     = total_files s - count uncounted cs
  /\ 0 <= largest_change s
  /\ (forall c, In c cs -> smallest_change s <= size_of c <= largest_change s)
  /\ (largest_change s = 0 \/ exists c, In c cs /\ size_of c = largest_change s)
  /\ (cs = [] -> smallest_change s = 0)
  /\ (cs <> [] -> exists c, In c cs /\ size_of c = smallest_change s).
Proof.
  intros s cs.
  pose proof (statistics_fold_counted cs running_init [] counted_init) as H.
  simpl app in H.
  destruct H as (Ha & Hr & Hfa & Hfm & Hfd & Hfr & H0 & Hmax & Hatt & Hmin).
  subst s. unfold get_change_statistics. simpl. fold cs.
  assert (Hlen : len changes = len cs).
  { unfold len, cs, values. now rewrite length_map. }
  split; [reflexivity|]. split; [exact Ha|]. split; [exact Hr|].
  split; [exact Hfa|]. split; [exact Hfm|]. split; [exact Hfd|].
  split; [exact Hfr|].
  split; [rewrite Hfa, Hfm, Hfd, Hfr, Hlen; pose proof (count_partition cs); lia|].
  split; [exact H0|].
  destruct (r_smallest (fold_left statistics_step cs running_init)) as [m|].
  - destruct Hmin as (Hlow & x & Hx & Hsz).
    split; [intros c Hc; split; [now apply Hlow | now apply Hmax]|].
    split; [exact Hatt|].
    split; [intros Hnil; rewrite Hnil in Hx; contradiction|].
    intros _. now exists x.
  - split; [intros c Hc; rewrite Hmin in Hc; contradiction|].
    split; [exact Hatt|].
    split; [reflexivity | intros Hne; contradiction].
Qed.

End StatisticsFacts.

Section ChunkDiffFacts.

Import Reports.

Lemma split_nonempty (c : ascii) (s : string) : split c s <> [].
Proof.
  destruct s as [|a s]; simpl; [discriminate|].
  destruct (Ascii.eqb a c); [discriminate|].
  destruct (split c s); discriminate.
Qed.



Variable chunk_size : Z.
Variable header_lines : list string.

Let step := chunk_step chunk_size header_lines.

Let chunking := Reports.chunking chunk_size header_lines.



End ChunkDiffFacts.

Section ChunkLargeDiffsFacts.

Import Reports.




End ChunkLargeDiffsFacts.

Section FloatSortFacts.

Context {A : Type}.
Variable key : A -> float.

Lemma insert_desc_float_perm (x : A) (l : list A) :
  Permutation (insert_desc_float key x l) (x :: l).
Proof.
  induction l as [|y l IH]; simpl; [reflexivity|].
  destruct (PrimFloat.ltb (key x) (key y)); [|reflexivity].
  rewrite IH. apply perm_swap.
Qed.

Lemma sorted_reverse_float_perm (l : list A) :
  Permutation (sorted_reverse_float key l) l.
Proof.
  induction l as [|x l IH]; simpl; [reflexivity|].
  rewrite insert_desc_float_perm. now apply perm_skip.
Qed.

Lemma insert_asc_float_perm (x : A) (l : list A) :
  Permutation (insert_asc_float key x l) (x :: l).
Proof.
  induction l as [|y l IH]; simpl; [reflexivity|].
  destruct (PrimFloat.ltb (key y) (key x)); [|reflexivity].
  rewrite IH. apply perm_swap.
Qed.

Lemma sorted_float_perm (l : list A) :
  Permutation (sorted_float key l) l.
Proof.
  induction l as [|x l IH]; simpl; [reflexivity|].
  rewrite insert_asc_float_perm. now apply perm_skip.
Qed.

End FloatSortFacts.

Section PrioritizeFacts.

Import Reports.

Variable fnmatch : string -> string -> bool.
Variable suffix_lower : string -> string.
Variable lower : string -> string.

(** X5.  [prioritize_files] only reorders: its result holds every filename
    of the input once and nothing else, whatever the scores are. *)
Theorem prioritize_files_permutation (changes : dict Analyzer.FileChange) :
  Permutation (prioritize_files fnmatch suffix_lower lower changes) (keys changes)
  /\ len (prioritize_files fnmatch suffix_lower lower changes) = len changes.
Proof.
  assert (Hp : Permutation (prioritize_files fnmatch suffix_lower lower changes)
                 (keys changes)).
  { unfold prioritize_files. rewrite sorted_reverse_float_perm.
    unfold keys. rewrite map_map. reflexivity. }
  split; [exact Hp|].
  unfold len. rewrite (Permutation_length Hp). unfold keys. now rewrite length_map.
Qed.

End PrioritizeFacts.

(** ** The counters of a file's result *)

Section CounterFacts.

Import Engine Run.

Lemma count_severity_length (s : string) (l : list ReviewIssue) :
  count_severity s l = len (filter (fun issue => eq_str (severity issue) s) l).
Proof.
  unfold count_severity. rewrite sum_map_total.
  induction (filter (fun issue => eq_str (severity issue) s) l) as [|x f IH];
    [reflexivity|].
  change (total (fun _ : ReviewIssue => 1) (x :: f))
    with (1 + total (fun _ : ReviewIssue => 1) f).
  rewrite IH. unfold len. simpl List.length. lia.
Qed.

Lemma parsed_issues_known (name : string) (entries : list json) :
  Forall known_severity (parsed_issues name entries).
Proof.
  unfold parsed_issues. induction entries as [|e entries IH]; simpl; [constructor|].
  apply Forall_app. split; [|exact IH].
  destruct (make_issue name e) as [issue|]; [|constructor].
  constructor; [|constructor].
  unfold known_severity, validate_severity. simpl.
  apply coerce_severity_valid.
Qed.

(** Issues whose severities are among the four are counted by exactly one
    of the four counters. *)
Lemma severity_counts_partition (l : list ReviewIssue) :
  Forall known_severity l ->
  count_severity "error" l + count_severity "warning" l
  + count_severity "info" l + count_severity "suggestion" l = len l.
Proof.
  rewrite !count_severity_length.
  induction 1 as [|issue l (s & Hs & Hin) Hl IH]; [reflexivity|].
  unfold len in *. simpl filter. rewrite Hs.
  simpl in Hin. destruct Hin as [<-|[<-|[<-|[<-|[]]]]];
    simpl eq_str; cbv iota; simpl List.length; lia.
Qed.

Lemma counters_of_issues (name : string) (l : list ReviewIssue) (summary : json)
  (tokens : Z) (cost : float) :
  Forall known_severity l ->
  counters_consistent
    (mkFileReviewResult name l summary (len l)
       (count_severity "error" l) (count_severity "warning" l)
       (count_severity "info" l) (count_severity "suggestion" l) tokens cost).
Proof.
  intros Hl. unfold counters_consistent. simpl.
  repeat split; try exact Hl. now apply severity_counts_partition.
Qed.

Lemma counters_error_result (name msg : string) :
  counters_consistent (_create_error_result name msg).
Proof.
  unfold counters_consistent. simpl. repeat split.
  constructor; [|constructor]. exists "error". split; [reflexivity | simpl; tauto].
Qed.

Lemma counters_empty_result (name : string) :
  counters_consistent (_create_empty_file_result name).
Proof. unfold counters_consistent. simpl. repeat split. constructor. Qed.

Lemma Forall_slice_to {A} (P : A -> Prop) (n : Z) (l : list A) :
  Forall P l -> Forall P (slice_to n l).
Proof.
  intros H. unfold slice_to.
  rewrite <- (firstn_skipn (slice_index n (List.length l)) l) in H.
  now apply Forall_app in H.
Qed.

Lemma slice_to_bound {A} (n : Z) (l : list A) :
  0 <= n -> len (if n <? len l then slice_to n l else l) <= n.
Proof.
  intros Hn. destruct (Z.ltb_spec n (len l)) as [Hlt|Hge]; [|exact Hge].
  rewrite slice_to_length; lia.
Qed.

Variable json_loads : string -> result (dict json).
Variable cfg : ReviewConfig.

(** A result that comes out of the [try] block has consistent counters
    and respects the cap. *)
Lemma parse_review_body_counters (name : string)
  (response : Client.BedrockResponse) (r : FileReviewResult) :
  parse_review_body json_loads cfg name response = Ok r ->
  counters_consistent r
  /\ filename r = name
  /\ tokens_used r = Client.input_tokens response + Client.output_tokens response
  /\ (0 <= max_issues_per_file cfg -> len (issues r) <= max_issues_per_file cfg).
Proof.
  unfold parse_review_body.
  destruct (json_block (strip (Client.content response))) as [text|e]; simpl;
    [|discriminate].
  destruct (json_loads text) as [parsed|e]; simpl; [|discriminate].
  destruct (dict_contains "issues" parsed); simpl; [|discriminate].
  destruct (iterate (dict_get_default "issues" (JList []) parsed))
    as [entries|e]; simpl; [|discriminate].
  rewrite issue_loop_spec. simpl app.
  set (kept := filter (fun i => threshold_level cfg <=? issue_level i)
                      (parsed_issues name entries)).
  assert (Hkept : Forall known_severity kept).
  { unfold kept. apply Forall_forall. intros i Hi. apply filter_In in Hi as [Hi _].
    pose proof (parsed_issues_known name entries) as Hall.
    rewrite Forall_forall in Hall. now apply Hall. }
  intros Hr. inversion Hr; subst r; clear Hr.
  split; [|split; [reflexivity|split; [reflexivity|]]].
  - apply counters_of_issues.
    destruct (max_issues_per_file cfg <? len kept);
      [now apply Forall_slice_to | exact Hkept].
  - intros Hcap. simpl. now apply slice_to_bound.
Qed.

Lemma parse_review_response_kept (name : string)
  (response : Client.BedrockResponse) :
  counters_consistent (_parse_review_response json_loads cfg name response)
  /\ filename (_parse_review_response json_loads cfg name response) = name
  /\ (0 <= max_issues_per_file cfg ->
      len (issues (_parse_review_response json_loads cfg name response))
      <= Z.max 1 (max_issues_per_file cfg)).
Proof.
  unfold _parse_review_response.
  destruct (parse_review_body json_loads cfg name response) as [r|e] eqn:Hbody.
  - destruct (parse_review_body_counters name response r Hbody)
      as (Hc & Hn & _ & Hcap).
    split; [exact Hc|]. split; [exact Hn|]. intros H. specialize (Hcap H). lia.
  - assert (Herr : forall msg,
               counters_consistent (_create_error_result name msg)
               /\ filename (_create_error_result name msg) = name
               /\ (0 <= max_issues_per_file cfg ->
                   len (issues (_create_error_result name msg))
                   <= Z.max 1 (max_issues_per_file cfg))).
    { intros msg. split; [apply counters_error_result|].
      split; [reflexivity|]. intros _. unfold len. simpl. lia. }
    destruct (exn_cls e); apply Herr.
Qed.

(** X6.  Whatever the model answered, the result [_parse_review_response]
    returns for a file carries the file's name and consistent counters:
    [total_issues] is the number of issues, each of the four counters is
    the number of issues of its severity, the four add up to
    [total_issues], and every issue has one of the four severities.  With
    a cap that is not negative it has at most [max(1, cap)] issues: the
    cap, or the single issue of an error result. *)
Theorem parse_review_response_counters (name : string)
  (response : Client.BedrockResponse) :
  let r := _parse_review_response json_loads cfg name response in
  counters_consistent r
  /\ filename r = name
  /\ (0 <= max_issues_per_file cfg ->
      len (issues r) <= Z.max 1 (max_issues_per_file cfg)).
Proof.
  exact (parse_review_response_kept name response).
Qed.

End CounterFacts.

(** ** The run's result *)

Section RunFacts.

Import Engine Run.

Variable get_rule_templates : string -> result (list string).
Variable load_rules_for_file : string -> list string -> result (dict json).
Variable _build_review_prompt :
  string -> Analyzer.FileChange -> dict json -> result string.
Variable invoke_model : string -> string -> result Client.BedrockResponse.
Variable json_loads : string -> result (dict json).
Variable float_sum : list float -> float.
Variable as_completed :
  list (dict FileReviewResult) -> list (dict FileReviewResult).
Variable cfg : ReviewConfig.

Let outcome :=
  file_outcome get_rule_templates load_rules_for_file
    _build_review_prompt invoke_model json_loads cfg.
Let step :=
  review_step get_rule_templates load_rules_for_file
    _build_review_prompt invoke_model json_loads cfg.
Let review_batch :=
  _review_file_batch get_rule_templates load_rules_for_file
    _build_review_prompt invoke_model json_loads cfg.
Let sequential :=
  _review_files_sequential get_rule_templates load_rules_for_file
    _build_review_prompt invoke_model json_loads cfg.
Let parallel :=
  _review_files_parallel get_rule_templates load_rules_for_file
    _build_review_prompt invoke_model json_loads as_completed cfg.
Let run :=
  review_changes get_rule_templates load_rules_for_file
    _build_review_prompt invoke_model json_loads float_sum as_completed cfg.

(** A well-kept entry: consistent counters, filed under its own name. *)
Let kept (entry : string * FileReviewResult) : Prop :=
  counters_consistent (snd entry) /\ filename (snd entry) = fst entry.

Lemma outcome_kept (name : string) (change : Analyzer.FileChange) :
  counters_consistent (outcome name change)
  /\ filename (outcome name change) = name.
Proof.
  unfold outcome, file_outcome, _review_single_file.
  destruct (get_rule_templates name) as [templates|e]; simpl;
    [|split; [apply counters_error_result | reflexivity]].
  destruct (nonempty templates); simpl;
    [|split; [apply counters_empty_result | reflexivity]].
  destruct (load_rules_for_file name templates) as [rules|e]; simpl;
    [|split; [apply counters_error_result | reflexivity]].
  destruct (nonempty rules); simpl;
    [|split; [apply counters_empty_result | reflexivity]].
  destruct (_build_review_prompt name change rules) as [prompt|e]; simpl;
    [|split; [apply counters_error_result | reflexivity]].
  destruct (invoke_model prompt _build_system_prompt) as [response|e]; simpl;
    [|split; [apply counters_error_result | reflexivity]].
  destruct (parse_review_response_kept json_loads cfg name response)
    as (Hc & Hn & _).
  now split.
Qed.

Lemma Forall_dict_set {V} (P : string * V -> Prop) (k : string) (v : V)
  (d : dict V) :
  (forall k', P (k', v)) -> Forall P d -> Forall P (dict_set k v d).
Proof.
  intros Hv. induction d as [|[k' v'] d IH]; simpl; intros Hd.
  - constructor; [apply Hv | constructor].
  - inversion Hd; subst. destruct (String.eqb k k').
    + constructor; [apply Hv | assumption].
    + constructor; [assumption | now apply IH].
Qed.

Lemma step_kept (results : dict FileReviewResult)
  (item : string * Analyzer.FileChange) :
  Forall kept results -> Forall kept (step results item).
Proof.
  intros H. unfold step. rewrite review_step_outcome.
  induction results as [|[k' v'] d IH]; simpl.
  - constructor; [|constructor]. apply outcome_kept.
  - inversion H; subst. destruct (String.eqb_spec (fst item) k') as [Heq|Hne].
    + constructor; [|assumption]. unfold kept. simpl. rewrite <- Heq.
      apply outcome_kept.
    + constructor; [assumption | now apply IH].
Qed.

Lemma fold_step_kept (l : dict Analyzer.FileChange) :
  forall results, Forall kept results -> Forall kept (fold_left step l results).
Proof.
  induction l as [|item l IH]; intros results H; simpl; [exact H|].
  apply IH. now apply step_kept.
Qed.

Lemma dict_set_kept (k : string) (v : FileReviewResult)
  (d : dict FileReviewResult) :
  kept (k, v) -> Forall kept d -> Forall kept (dict_set k v d).
Proof.
  intros Hv. induction d as [|[k' v'] d IH]; simpl; intros Hd.
  - constructor; [exact Hv | constructor].
  - inversion Hd; subst. destruct (String.eqb_spec k k') as [<-|Hne].
    + constructor; [exact Hv | assumption].
    + constructor; [assumption | now apply IH].
Qed.

Lemma dict_update_kept (e : dict FileReviewResult) :
  forall d, Forall kept d -> Forall kept e -> Forall kept (dict_update d e).
Proof.
  unfold dict_update.
  induction e as [|[k v] e IH]; intros d Hd He; simpl; [exact Hd|].
  inversion He; subst. apply IH; [|assumption].
  now apply dict_set_kept.
Qed.

Lemma merge_kept (batches : list (dict FileReviewResult)) :
  forall d, Forall kept d -> Forall (Forall kept) batches ->
  Forall kept (fold_left dict_update batches d).
Proof.
  induction batches as [|b batches IH]; intros d Hd Hb; simpl; [exact Hd|].
  inversion Hb; subst. apply IH; [|assumption].
  now apply dict_update_kept.
Qed.

(** The integer totals of entries with consistent counters. *)
Lemma totals_of_kept (d : dict FileReviewResult) :
  Forall kept d ->
  total total_issues (values d)
  = total error_count (values d) + total warning_count (values d)
    + total info_count (values d) + total suggestion_count (values d).
Proof.
  induction 1 as [|[k v] d [Hc _] Hd IH]; [reflexivity|].
  unfold values in *. simpl map. simpl total.
  destruct Hc as (_ & _ & _ & _ & _ & Hsum & _). simpl in Hsum. lia.
Qed.

Lemma aggregate_kept (d : dict FileReviewResult) :
  Forall kept d ->
  let r := _aggregate_results float_sum d in
  run_total_issues r
  = total_errors r + total_warnings r + total_info r + total_suggestions r.
Proof.
  intros Hd. simpl. rewrite !sum_map_total. now apply totals_of_kept.
Qed.

Lemma files_kept (changes : dict Analyzer.FileChange)
  (file_results : dict FileReviewResult) :
  (forall l, Permutation (as_completed l) l) ->
  (if parallel_processing cfg && (1 <? len changes)
   then parallel changes else Ok (sequential changes)) = Ok file_results ->
  Forall kept file_results.
Proof.
  intros Hperm.
  destruct (parallel_processing cfg && (1 <? len changes)).
  - unfold parallel, _review_files_parallel.
    destruct (max_workers cfg <=? 0); [discriminate|].
    destruct (batch_size cfg =? 0); [discriminate|].
    intros Hres. inversion Hres; subst; clear Hres.
    apply merge_kept; [constructor|].
    eapply Permutation_Forall; [symmetry; apply Hperm|].
    apply Forall_forall. intros b Hb. apply in_map_iff in Hb as (batch & <- & _).
    apply fold_step_kept. constructor.
  - intros Hres. inversion Hres; subst. apply fold_step_kept. constructor.
Qed.

Lemma run_kept (changes : dict Analyzer.FileChange) (r : ReviewResult) :
  (forall l, Permutation (as_completed l) l) ->
  run changes = Ok r ->
  Forall kept (files r)
  /\ run_total_issues r
     = total_errors r + total_warnings r + total_info r + total_suggestions r
  /\ total_files r = len (files r)
  /\ total_errors r = total error_count (values (files r))
  /\ total_warnings r = total warning_count (values (files r))
  /\ total_info r = total info_count (values (files r))
  /\ total_suggestions r = total suggestion_count (values (files r))
  /\ run_total_issues r = total total_issues (values (files r)).
Proof.
  intros Hperm. unfold run, review_changes.
  destruct (nonempty changes); simpl.
  - fold parallel sequential.
    destruct (if parallel_processing cfg && (1 <? len changes)
              then parallel changes else Ok (sequential changes))
      as [file_results|e] eqn:Hfiles; simpl; [|discriminate].
    intros Hr. inversion Hr; subst r; clear Hr.
    pose proof (files_kept changes file_results Hperm Hfiles) as Hk.
    split; [exact Hk|]. split; [now apply aggregate_kept|].
    split; [reflexivity|]. simpl. now rewrite !sum_map_total.
  - intros Hr. inversion Hr; subst r. simpl. repeat split. constructor.
Qed.

(** X7.  Whenever a run returns, its result is consistent: every file's
    entry is filed under the file's own name with consistent counters, the
    run's issue total is the sum of its four severity totals, and
    [total_files] is the number of entries.  This holds for any
    configuration and any input, as long as [as_completed] hands back the
    batches it was given. *)
Theorem review_changes_consistent (changes : dict Analyzer.FileChange)
  (r : ReviewResult) :
  (forall l, Permutation (as_completed l) l) ->
  run changes = Ok r ->
  Forall (fun entry => counters_consistent (snd entry)
                       /\ filename (snd entry) = fst entry) (files r)
  /\ run_total_issues r
     = total_errors r + total_warnings r + total_info r + total_suggestions r
  /\ total_files r = len (files r).
Proof.
  intros Hperm Hrun.
  destruct (run_kept changes r Hperm Hrun) as (H1 & H2 & H3 & _).
  now repeat split.
Qed.

Let item :=
  Engine.outcome_item get_rule_templates load_rules_for_file
    _build_review_prompt invoke_model json_loads cfg.

Lemma sequential_spec (changes : dict Analyzer.FileChange) :
  NoDup (keys changes) -> sequential changes = map item changes.
Proof.
  intros Hnd. unfold sequential, _review_files_sequential.
  now rewrite review_fold.
Qed.

(** What the run hands to [_aggregate_results]. *)
Lemma file_results_spec (changes : dict Analyzer.FileChange) :
  NoDup (keys changes) ->
  (forall l, Permutation (as_completed l) l) ->
  1 <= batch_size cfg ->
  1 <= max_workers cfg ->
  exists file_results,
    (if parallel_processing cfg && (1 <? len changes)
     then parallel changes else Ok (sequential changes)) = Ok file_results
    /\ Permutation file_results (map item changes)
    /\ (parallel_processing cfg && (1 <? len changes) = false ->
        file_results = map item changes).
Proof.
  intros Hnd Hperm Hbs Hw.
  destruct (parallel_processing cfg && (1 <? len changes)).
  - destruct (review_files_parallel_spec get_rule_templates load_rules_for_file
                _build_review_prompt invoke_model json_loads as_completed cfg
                changes Hperm Hbs Hw Hnd) as (results & Hrun & Hp).
    exists results. split; [exact Hrun|]. split; [exact Hp | discriminate].
  - exists (map item changes). rewrite sequential_spec by exact Hnd.
    split; [reflexivity|]. split; [apply Permutation_refl | reflexivity].
Qed.

(** X8.  On a change map (distinct filenames), with batches of at least
    one file and at least one worker, as the validator demands, a run
    always returns, and its result has exactly one entry per changed file:
    the outcome of that file's own review.  Run sequentially (the option is
    off, or there is a single file) the entries are in the order of the
    input; an empty input gives the empty result without any review. *)
Theorem review_changes_covers (changes : dict Analyzer.FileChange) :
  NoDup (keys changes) ->
  (forall l, Permutation (as_completed l) l) ->
  1 <= batch_size cfg ->
  1 <= max_workers cfg ->
  exists r,
    run changes = Ok r
    /\ Permutation (files r) (map item changes)
    /\ total_files r = len changes
    /\ (forall name change, In (name, change) changes ->
        dict_get name (files r) = Some (outcome name change))
    /\ (parallel_processing cfg && (1 <? len changes) = false ->
        files r = map item changes)
    /\ (changes = [] -> r = _create_empty_result).
Proof.
  intros Hnd Hperm Hbs Hw. unfold run, review_changes.
  destruct changes as [|c changes].
  - exists _create_empty_result. simpl.
    split; [reflexivity|]. split; [constructor|]. split; [reflexivity|].
    split; [intros name change []|]. split; reflexivity.
  - remember (c :: changes) as all eqn:Hall.
    assert (Hne : nonempty all = true) by now subst all.
    rewrite Hne. simpl negb. cbv iota.
    fold parallel sequential.
    destruct (file_results_spec all Hnd Hperm Hbs Hw)
      as (file_results & Hrun & Hp & Hseq).
    rewrite Hrun. simpl.
    exists (_aggregate_results float_sum file_results).
    split; [reflexivity|]. split; [exact Hp|]. split; [|split; [|split]].
    + simpl. unfold len. apply Permutation_length in Hp.
      rewrite Hp, length_map. reflexivity.
    + intros name change Hin. simpl.
      apply dict_get_In.
      * eapply Permutation_NoDup.
        -- apply Permutation_map. symmetry. exact Hp.
        -- fold (keys (map item all)). unfold item. now rewrite keys_outcomes.
      * eapply Permutation_in; [symmetry; exact Hp|].
        change (name, outcome name change) with (item (name, change)).
        now apply in_map.
    + exact Hseq.
    + subst all. discriminate.
Qed.

End RunFacts.

(** ** Parallel and sequential runs *)

Section ModeFacts.

Import Engine Run.

Variable get_rule_templates : string -> result (list string).
Variable load_rules_for_file : string -> list string -> result (dict json).
Variable _build_review_prompt :
  string -> Analyzer.FileChange -> dict json -> result string.
Variable invoke_model : string -> string -> result Client.BedrockResponse.
Variable json_loads : string -> result (dict json).
Variable float_sum : list float -> float.
Variable as_completed :
  list (dict FileReviewResult) -> list (dict FileReviewResult).
Variable cfg : ReviewConfig.

Let run (cfg' : ReviewConfig) :=
  review_changes get_rule_templates load_rules_for_file
    _build_review_prompt invoke_model json_loads float_sum as_completed cfg'.
Let item (cfg' : ReviewConfig) :=
  Engine.outcome_item get_rule_templates load_rules_for_file
    _build_review_prompt invoke_model json_loads cfg'.

(** The review of a file does not look at [parallel_processing]. *)
Lemma outcome_item_with_parallel (b : bool)
  (entry : string * Analyzer.FileChange) :
  item (with_parallel b cfg) entry = item cfg entry.
Proof. reflexivity. Qed.

Lemma dict_get_perm {V} (k : string) (d1 d2 : dict V) :
  NoDup (keys d1) -> Permutation d1 d2 -> dict_get k d1 = dict_get k d2.
Proof.
  intros Hnd Hp. destruct (dict_get k d2) as [v|] eqn:H2.
  - apply dict_get_In; [exact Hnd|].
    eapply Permutation_in; [symmetry; exact Hp|]. now apply dict_get_Some_In.
  - apply dict_get_None. apply dict_get_None in H2. intros Hin. apply H2.
    eapply Permutation_in; [|exact Hin]. now apply Permutation_map.
Qed.

Lemma aggregate_summary_order (d1 d2 : dict FileReviewResult) :
  Permutation d1 d2 ->
  run_summary (_aggregate_results float_sum d1)
  = run_summary (_aggregate_results float_sum d2).
Proof.
  intros Hp.
  assert (Hv : Permutation (values d1) (values d2)) by now apply Permutation_map.
  unfold _aggregate_results. cbv zeta. cbn [run_summary].
  rewrite !sum_map_total.
  rewrite (total_perm total_issues _ _ Hv), (total_perm error_count _ _ Hv),
    (total_perm warning_count _ _ Hv), (total_perm info_count _ _ Hv),
    (total_perm suggestion_count _ _ Hv).
  unfold len. now rewrite (Permutation_length Hp).
Qed.

(** X9.  Turning [parallel_processing] on or off does not change what a
    run finds.  On a change map, with batches of at least one file and at
    least one worker, both runs return; they hold the same entry for every
    file, the sequential one in the order of the input, and their file
    count, issue totals, token total and summary line are equal.  (The
    cost total is a sum of floats and may depend on the order.) *)
Theorem review_changes_mode_independent (changes : dict Analyzer.FileChange) :
  NoDup (keys changes) ->
  (forall l, Permutation (as_completed l) l) ->
  1 <= batch_size cfg ->
  1 <= max_workers cfg ->
  exists r_par r_seq,
    run (with_parallel true cfg) changes = Ok r_par
    /\ run (with_parallel false cfg) changes = Ok r_seq
    /\ keys (files r_seq) = keys changes
    /\ Permutation (files r_par) (files r_seq)
    /\ (forall name, dict_get name (files r_par) = dict_get name (files r_seq))
    /\ total_files r_par = total_files r_seq
    /\ run_total_issues r_par = run_total_issues r_seq
    /\ total_errors r_par = total_errors r_seq
    /\ total_warnings r_par = total_warnings r_seq
    /\ total_info r_par = total_info r_seq
    /\ total_suggestions r_par = total_suggestions r_seq
    /\ total_tokens r_par = total_tokens r_seq
    /\ run_summary r_par = run_summary r_seq.
Proof.
  intros Hnd Hperm Hbs Hw. unfold run, review_changes.
  destruct changes as [|c changes].
  - exists _create_empty_result, _create_empty_result. simpl.
    repeat split; constructor.
  - remember (c :: changes) as all eqn:Hall.
    assert (Hne : nonempty all = true) by now subst all.
    rewrite Hne. simpl negb. cbv iota.
    destruct (file_results_spec get_rule_templates load_rules_for_file
                _build_review_prompt invoke_model json_loads as_completed
                (with_parallel true cfg) all Hnd Hperm Hbs Hw)
      as (par & Hpar & Hp & _).
    destruct (file_results_spec get_rule_templates load_rules_for_file
                _build_review_prompt invoke_model json_loads as_completed
                (with_parallel false cfg) all Hnd Hperm Hbs Hw)
      as (seq & Hseq & _ & Hs).
    specialize (Hs eq_refl).
    rewrite Hpar, Hseq. simpl.
    exists (_aggregate_results float_sum par), (_aggregate_results float_sum seq).
    split; [reflexivity|]. split; [reflexivity|].
    assert (Hps : Permutation par seq).
    { rewrite Hs. exact Hp. }
    assert (Hkeys : keys seq = keys all).
    { rewrite Hs. apply keys_outcomes. }
    split; [exact Hkeys|]. split; [exact Hps|]. split.
    { intros name. simpl. symmetry. apply dict_get_perm.
      - now rewrite Hkeys.
      - now symmetry. }
    destruct (aggregate_results_order float_sum par seq Hps)
      as (H1 & H2 & H3 & H4 & H5 & H6 & H7).
    repeat (split; [assumption|]).
    now apply aggregate_summary_order.
Qed.

End ModeFacts.

(** ** From the changes to the review *)

Section CommandFacts.

Import Analyzer Engine Run.

Variable fnmatch : string -> string -> bool.
Variable suffix_lower : string -> string.
Variable git_cfg : GitConfig.
Variable get_rule_templates : string -> result (list string).
Variable load_rules_for_file : string -> list string -> result (dict json).
Variable _build_review_prompt :
  string -> FileChange -> dict json -> result string.
Variable invoke_model : string -> string -> result Client.BedrockResponse.
Variable json_loads : string -> result (dict json).
Variable float_sum : list float -> float.
Variable as_completed :
  list (dict FileReviewResult) -> list (dict FileReviewResult).
Variable cfg : ReviewConfig.

Let surv := survivors fnmatch suffix_lower git_cfg.
Let cls := classify fnmatch suffix_lower git_cfg.
Let analyze := analyze_changes fnmatch suffix_lower git_cfg.
Let outcome :=
  file_outcome get_rule_templates load_rules_for_file
    _build_review_prompt invoke_model json_loads cfg.
Let item :=
  Engine.outcome_item get_rule_templates load_rules_for_file
    _build_review_prompt invoke_model json_loads cfg.
Let command :=
  review_command fnmatch suffix_lower git_cfg get_rule_templates
    load_rules_for_file _build_review_prompt invoke_model json_loads
    float_sum as_completed cfg.

(** What the triage hands to the review. *)
Lemma filtered_changes_spec (changes : dict FileChange) :
  NoDup (keys changes) ->
  0 <= max_files git_cfg ->
  let reviewed := filtered_changes (analyze changes) in
  NoDup (keys reviewed)
  /\ len reviewed = Z.min (max_files git_cfg) (len (surv changes))
  /\ (forall entry, In entry reviewed ->
      In entry changes /\ cls entry = InFiltered).
Proof.
  intros Hnd Hcap. cbv zeta. unfold analyze.
  rewrite analyze_changes_spec by exact Hnd. cbv zeta. fold surv.
  assert (Hsurv : forall entry, In entry (surv changes) ->
                    In entry changes /\ cls entry = InFiltered).
  { intros entry Hin. unfold surv, survivors, in_bucket in Hin.
    apply filter_In in Hin as [Hin Hb]. split; [exact Hin|].
    unfold cls. now destruct (classify fnmatch suffix_lower git_cfg entry). }
  destruct (Z.ltb_spec (max_files git_cfg) (len (surv changes))) as [Hlt|Hge];
    cbn [filtered_changes].
  - set (sorted_files := sorted_reverse change_size (surv changes)).
    assert (Hlen : len sorted_files = len (surv changes)).
    { unfold len. f_equal. apply Permutation_length.
      apply sorted_reverse_perm. }
    split; [|split].
    + pose proof (sorted_keys_NoDup fnmatch suffix_lower git_cfg changes Hnd)
        as Hs.
      fold surv sorted_files in Hs.
      rewrite <- (slice_to_from (max_files git_cfg) sorted_files) in Hs.
      rewrite keys_app in Hs. now apply NoDup_app_remove_r in Hs.
    + rewrite slice_to_length by lia. lia.
    + intros entry Hin. apply Hsurv.
      apply (Permutation_in _ (sorted_reverse_perm change_size (surv changes))).
      fold sorted_files.
      rewrite <- (slice_to_from (max_files git_cfg) sorted_files).
      apply in_or_app. now left.
  - split; [|split].
    + now apply surv_keys_NoDup.
    + lia.
    + exact Hsurv.
Qed.

Lemma len_zero {A} (l : list A) : len l = 0 <-> l = [].
Proof.
  unfold len. destruct l; simpl; split; intros H; try reflexivity;
    try discriminate; lia.
Qed.

(** X10.  The review command reviews exactly what the triage lets through.
    On a change map, with [max_files] at least one and a review
    configuration with batches of at least one file and at least one
    worker (as the validator demands), the command always ends; it shows
    no result exactly when no file passes the triage; otherwise the result
    has [min(max_files, survivors)] entries, and every entry is the
    outcome of the review of a changed file that was neither excluded, nor
    binary, nor too large. *)
Theorem review_command_reviews_survivors (changes : dict FileChange) :
  NoDup (keys changes) ->
  1 <= max_files git_cfg ->
  (forall l, Permutation (as_completed l) l) ->
  1 <= batch_size cfg ->
  1 <= max_workers cfg ->
  exists shown,
    command changes = Ok shown
    /\ (shown = None <-> surv changes = [])
    /\ (forall r, shown = Some r ->
        total_files r = Z.min (max_files git_cfg) (len (surv changes))
        /\ NoDup (keys (files r))
        /\ forall name file_result, In (name, file_result) (files r) ->
           exists change,
             In (name, change) changes
             /\ cls (name, change) = InFiltered
             /\ file_result = outcome name change).
Proof.
  intros Hnd Hcap Hperm Hbs Hw. unfold command, review_command.
  destruct (filtered_changes_spec changes Hnd ltac:(lia))
    as (Hdistinct & Hlen & Hin).
  fold analyze.
  remember (filtered_changes (analyze changes)) as reviewed eqn:Hreviewed.
  assert (Hnone : reviewed = [] <-> surv changes = []).
  { pose proof (len_zero reviewed) as Hzr.
    pose proof (len_zero (surv changes)) as Hzs.
    pose proof (Zle_0_nat (List.length (surv changes))) as Hpos.
    fold (len (surv changes)) in Hpos.
    split; intros H.
    - apply Hzs. apply Hzr in H. lia.
    - apply Hzr. apply Hzs in H. lia. }
  destruct (nonempty changes) eqn:Hc; cbn [negb].
  - destruct (nonempty reviewed) eqn:Hr; cbn [negb].
    + unfold review_changes. rewrite Hr. cbn [negb].
      destruct (file_results_spec get_rule_templates load_rules_for_file
                  _build_review_prompt invoke_model json_loads as_completed
                  cfg reviewed Hdistinct Hperm Hbs Hw)
        as (file_results & Hrun & Hp & _).
      rewrite Hrun. simpl.
      exists (Some (_aggregate_results float_sum file_results)).
      split; [reflexivity|]. split.
      * split; [discriminate|]. intros Hs. apply Hnone in Hs.
        rewrite Hs in Hr. discriminate.
      * intros r Hr'. inversion Hr'; subst r; clear Hr'. simpl.
        split; [|split].
        -- rewrite <- Hlen. unfold len. apply Permutation_length in Hp.
           now rewrite Hp, length_map.
        -- assert (Hk : Permutation (keys (map item reviewed))
                                     (keys file_results)).
           { apply Permutation_map. symmetry. exact Hp. }
           apply (Permutation_NoDup Hk). unfold item.
           now rewrite keys_outcomes.
        -- intros name file_result Hentry.
           apply (Permutation_in _ Hp) in Hentry.
           apply in_map_iff in Hentry as ([name' change] & Heq & Hmem).
           inversion Heq; subst. exists change.
           destruct (Hin _ Hmem) as [H1 H2]. now repeat split.
    + assert (Hempty : reviewed = []) by now destruct reviewed.
      exists None. split; [reflexivity|]. split; [|discriminate].
      split; [intros _; now apply Hnone | reflexivity].
  - assert (Hempty : changes = []) by now destruct changes.
    exists None. split; [reflexivity|]. split; [|discriminate].
    split; [intros _; now rewrite Hempty | reflexivity].
Qed.

End CommandFacts.

(** ** Queries on the model catalog *)

Section CatalogFacts.

Import Models Catalog.

Lemma catalog_distinct : NoDup (keys _models).
Proof. apply distinct_NoDup. reflexivity. Qed.

(** Every entry of the catalog is filed under its own identifier, and
    marked as recommended for code. *)
Lemma catalog_entries :
  Forall (fun item => model_id (snd item) = fst item
                      /\ recommended_for_code (snd item) = true) _models.
Proof.
  unfold _models.
  repeat (apply Forall_cons; [split; reflexivity|]). apply Forall_nil.
Qed.

Lemma supported_entry (id : string) :
  is_model_supported id = true ->
  exists info,
    dict_get id _models = Some info
    /\ get_model_info id = Ok info
    /\ model_id info = id.
Proof.
  intros Hs. destruct (get_model_info_supported id Hs) as (info & Hget & Hinfo).
  exists info. split; [exact Hget|]. split; [exact Hinfo|].
  apply dict_get_Some_In in Hget.
  pose proof catalog_entries as Hall. rewrite Forall_forall in Hall.
  exact (proj1 (Hall _ Hget)).
Qed.

Lemma recommended_entry (id : string) :
  is_model_supported id = true ->
  In id Requests.BEDROCK_MODELS
  /\ exists info,
       get_model_info id = Ok info
       /\ model_id info = id
       /\ recommended_for_code info = true.
Proof.
  intros Hs. split; [now apply is_model_supported_catalog|].
  destruct (get_model_info_supported id Hs) as (info & Hget & Hinfo).
  exists info. split; [exact Hinfo|].
  apply dict_get_Some_In in Hget.
  pose proof catalog_entries as Hall. rewrite Forall_forall in Hall.
  exact (Hall _ Hget).
Qed.

Lemma recommended_models_facts (use_case : string) :
  2 <= len (get_recommended_models use_case)
  /\ NoDup (get_recommended_models use_case)
  /\ Forall (fun id =>
       In id Requests.BEDROCK_MODELS
       /\ exists info,
            get_model_info id = Ok info
            /\ model_id info = id
            /\ recommended_for_code info = true)
       (get_recommended_models use_case).
Proof.
  unfold get_recommended_models.
  destruct (String.eqb use_case "code_review");
    [|destruct (String.eqb use_case "cost_optimized");
      [|destruct (String.eqb use_case "performance");
        [|destruct (String.eqb use_case "long_context")]]];
    (split; [vm_compute; discriminate|]);
    (split; [apply distinct_NoDup; reflexivity|]);
    repeat (apply Forall_cons; [apply recommended_entry; reflexivity|]);
    apply Forall_nil.
Qed.

(** X11.  Whatever the use case, known or not, the recommendation is a
    list without repetition of at least two models, each of which the
    validator allows in a configuration, is in the catalog under its own
    identifier, and is marked as recommended for code. *)
Theorem get_recommended_models_supported (use_case : string) :
  let recommended := get_recommended_models use_case in
  2 <= len recommended
  /\ NoDup recommended
  /\ Forall (fun id =>
       In id Requests.BEDROCK_MODELS
       /\ exists info,
            get_model_info id = Ok info
            /\ model_id info = id
            /\ recommended_for_code info = true) recommended.
Proof. exact (recommended_models_facts use_case). Qed.

(** *** [compare_models] *)

(** The entry of a model of the catalog. *)
Let entry_of (id : string) : dict json :=
  match dict_get id _models with
  | Some info =>
      comparison_entry info
        (truediv 2000 1000 * input_cost_per_1k info
         + truediv 500 1000 * output_cost_per_1k info)%float
  | None => []
  end.

Let compared (comparison : dict (dict json)) (id : string) : dict (dict json) :=
  if is_model_supported id then dict_set id (entry_of id) comparison
  else comparison.

Lemma compare_step_spec (comparison : dict (dict json)) (id : string) :
  compare_step comparison id = Ok (compared comparison id).
Proof.
  unfold compare_step, compared, entry_of.
  destruct (is_model_supported id) eqn:Hs; [|reflexivity]. simpl negb. cbv iota.
  destruct (get_model_info_supported id Hs) as (info & Hget & Hinfo).
  rewrite Hinfo. unfold get_cost_estimate. rewrite Hs, Hinfo, Hget. reflexivity.
Qed.

Lemma compare_fold (ids : list string) :
  forall comparison,
  for_each compare_step ids comparison = Ok (fold_left compared ids comparison).
Proof.
  induction ids as [|id ids IH]; intros comparison; simpl; [reflexivity|].
  rewrite compare_step_spec. simpl. apply IH.
Qed.

Lemma compared_get_other (ids : list string) (id : string) :
  forall comparison,
  ~ In id ids \/ is_model_supported id = false ->
  dict_get id (fold_left compared ids comparison) = dict_get id comparison.
Proof.
  induction ids as [|x ids IH]; intros comparison Hid; [reflexivity|].
  simpl fold_left. rewrite IH.
  - unfold compared. destruct (is_model_supported x) eqn:Hs; [|reflexivity].
    apply dict_get_set_other. intros ->.
    destruct Hid as [Hout|Hno]; [apply Hout; now left | congruence].
  - destruct Hid as [Hout|Hno]; [left | now right].
    intros Hin. apply Hout. now right.
Qed.

Lemma compared_get_listed (ids : list string) (id : string) :
  forall comparison,
  In id ids -> is_model_supported id = true ->
  dict_get id (fold_left compared ids comparison) = Some (entry_of id).
Proof.
  induction ids as [|x ids IH]; intros comparison Hin Hs; [contradiction|].
  simpl fold_left.
  destruct (in_dec string_dec id ids) as [Hin'|Hout]; [now apply IH|].
  destruct Hin as [->|Hin]; [|contradiction].
  rewrite compared_get_other by now left.
  unfold compared. rewrite Hs. apply dict_get_set_same.
Qed.

Lemma compared_get (ids : list string) (id : string) :
  dict_get id (fold_left compared ids [])
  = if in_dec string_dec id ids
    then if is_model_supported id then Some (entry_of id) else None
    else None.
Proof.
  destruct (in_dec string_dec id ids) as [Hin|Hout].
  - destruct (is_model_supported id) eqn:Hs.
    + now apply compared_get_listed.
    + now rewrite compared_get_other by now right.
  - now rewrite compared_get_other by now left.
Qed.

Lemma compared_distinct (ids : list string) :
  forall comparison,
  NoDup (keys comparison) -> NoDup (keys (fold_left compared ids comparison)).
Proof.
  induction ids as [|x ids IH]; intros comparison Hnd; [exact Hnd|].
  simpl. apply IH. unfold compared.
  destruct (is_model_supported x); [|exact Hnd].
  now apply NoDup_keys_dict_set.
Qed.

Lemma compared_fresh (ids : list string) :
  forall comparison,
  NoDup (keys comparison ++ ids) ->
  fold_left compared ids comparison
  = comparison
    ++ map (fun id => (id, entry_of id)) (filter is_model_supported ids).
Proof.
  induction ids as [|x ids IH]; intros comparison Hnd; simpl.
  - now rewrite app_nil_r.
  - assert (Hx : ~ In x (keys comparison)).
    { intros Hin. apply NoDup_remove_2 in Hnd. apply Hnd.
      apply in_or_app. now left. }
    unfold compared at 2. destruct (is_model_supported x).
    + rewrite dict_set_fresh by exact Hx. rewrite IH.
      * now rewrite <- app_assoc.
      * rewrite keys_app. simpl. now rewrite <- app_assoc.
    + apply IH. now apply NoDup_remove_1 in Hnd.
Qed.

(** X12.  [compare_models] never raises.  Its result has an entry exactly
    for the models of the list that are in the catalog, each once however
    often it is listed and silently without the others; the entry holds
    the catalog's figures for that model and its cost estimate for 2000
    input and 500 output tokens.  For a list without repetition the
    entries are in the order of the list; so every recommendation is
    compared in full. *)
Theorem compare_models_spec (model_ids : list string) :
  exists comparison,
    compare_models model_ids = Ok comparison
    /\ NoDup (keys comparison)
    /\ (forall id, In id (keys comparison)
                   <-> In id model_ids /\ is_model_supported id = true)
    /\ (forall id entry, dict_get id comparison = Some entry ->
        exists info cost,
          get_model_info id = Ok info
          /\ get_cost_estimate id 2000 500 = Ok cost
          /\ entry = comparison_entry info cost)
    /\ (NoDup model_ids ->
        keys comparison = filter is_model_supported model_ids)
    /\ (forall use_case, model_ids = get_recommended_models use_case ->
        keys comparison = model_ids).
Proof.
  exists (fold_left compared model_ids []).
  split; [apply compare_fold|].
  split; [apply compared_distinct; constructor|].
  assert (Hget : forall id,
            dict_get id (fold_left compared model_ids [])
            = if in_dec string_dec id model_ids
              then if is_model_supported id then Some (entry_of id) else None
              else None).
  { intros id. apply compared_get. }
  assert (Horder : NoDup model_ids ->
            keys (fold_left compared model_ids [])
            = filter is_model_supported model_ids).
  { intros Hnd. rewrite compared_fresh by exact Hnd. simpl.
    unfold keys. rewrite map_map. simpl. apply map_id. }
  split; [|split; [|split]].
  - intros id. rewrite <- dict_contains_keys. unfold dict_contains.
    rewrite Hget.
    destruct (in_dec string_dec id model_ids) as [Hin|Hout];
      destruct (is_model_supported id); split;
      try tauto; try discriminate; intros [H1 H2]; try discriminate;
      contradiction.
  - intros id entry. rewrite Hget.
    destruct (in_dec string_dec id model_ids); [|discriminate].
    destruct (is_model_supported id) eqn:Hs; [|discriminate].
    intros Hentry. inversion Hentry; subst entry; clear Hentry.
    destruct (get_model_info_supported id Hs) as (info & Hcat & Hinfo).
    exists info. eexists. split; [exact Hinfo|].
    unfold get_cost_estimate. rewrite Hs, Hinfo. simpl.
    split; [reflexivity|]. unfold entry_of. now rewrite Hcat.
  - exact Horder.
  - intros use_case Hrec.
    destruct (recommended_models_facts use_case) as (_ & Hnd & Hall).
    rewrite <- Hrec in Hnd, Hall. rewrite (Horder Hnd).
    clear Hget Horder Hnd Hrec. induction Hall as [|id ids [_ Hid] _ IH]; simpl.
    + reflexivity.
    + destruct Hid as (info & Hinfo & _).
      assert (Hs : is_model_supported id = true).
      { unfold get_model_info in Hinfo. unfold is_model_supported.
        now destruct (dict_contains id _models). }
      rewrite Hs. now rewrite IH.
Qed.

End CatalogFacts.

(** *** [get_model_by_criteria] *)

Section CriteriaFacts.

Import Models Catalog.

Variable max_cost_per_1k : option float.
Variable min_context_window : option Z.
Variable provider' : option string.
Variable code_optimized : bool.

Let step :=
  criteria_step max_cost_per_1k min_context_window provider' code_optimized.
Let meets :=
  meets_criteria max_cost_per_1k min_context_window provider' code_optimized.

Lemma criteria_step_spec (matching_models : list string)
  (item : string * ModelInfo) :
  step matching_models item
  = if meets (snd item) then matching_models ++ [fst item]
    else matching_models.
Proof.
  destruct item as [id info].
  unfold step, meets, criteria_step, meets_criteria,
    given_str, given_float, given_int.
  cbn [fst snd].
  destruct code_optimized, (recommended_for_code info); cbn [negb andb orb];
    try reflexivity;
    (destruct provider' as [[|a p]|]; cbn [negb andb orb is_empty];
     [| destruct (String.eqb (provider info) (String a p));
        cbn [negb andb orb]; try reflexivity |]);
    (destruct max_cost_per_1k as [c|]; cbn [negb andb orb];
     [destruct (PrimFloat.eqb c 0%float), (PrimFloat.ltb c (output_cost_per_1k info));
      cbn [negb andb orb]; try reflexivity |]);
    (destruct min_context_window as [w|]; cbn [negb andb orb];
     [destruct (w =? 0), (context_window info <? w);
      cbn [negb andb orb]; reflexivity | reflexivity]).
Qed.

Lemma criteria_fold (l : dict ModelInfo) :
  forall matching_models,
  fold_left step l matching_models
  = matching_models ++ keys (filter (fun item => meets (snd item)) l).
Proof.
  induction l as [|item l IH]; intros acc; simpl.
  - now rewrite app_nil_r.
  - rewrite IH, criteria_step_spec.
    destruct (meets (snd item)); simpl; [|reflexivity].
    now rewrite <- app_assoc.
Qed.

End CriteriaFacts.

Section CostOrderFacts.

Import Models Catalog.

Let listed (id : string) : Prop := In id (keys _models).

Lemma cost_key_listed (id : string) :
  listed id -> cost_key id = Ok (output_cost id).
Proof.
  intros Hin. apply dict_contains_keys in Hin.
  unfold cost_key, models_subscript, output_cost, dict_contains in *.
  now destruct (dict_get id _models).
Qed.

Lemma decorate_listed (l : list string) :
  forall acc,
  Forall listed l ->
  for_each (fun acc x => k <- cost_key x ;; Ok (acc ++ [(x, k)])) l acc
  = Ok (acc ++ map (fun x => (x, output_cost x)) l).
Proof.
  induction l as [|x l IH]; intros acc Hall; simpl.
  - now rewrite app_nil_r.
  - inversion Hall; subst. rewrite cost_key_listed by assumption. simpl.
    rewrite IH by assumption. now rewrite <- app_assoc.
Qed.

Lemma insert_decorated {A} (key : A -> float) (x : A) (l : list A) :
  insert_asc_float snd (x, key x) (map (fun y => (y, key y)) l)
  = map (fun y => (y, key y)) (insert_asc_float key x l).
Proof.
  induction l as [|y l IH]; simpl; [reflexivity|].
  destruct (PrimFloat.ltb (key y) (key x)); simpl; [now rewrite IH | reflexivity].
Qed.

Lemma sorted_decorated {A} (key : A -> float) (l : list A) :
  sorted_float snd (map (fun y => (y, key y)) l)
  = map (fun y => (y, key y)) (sorted_float key l).
Proof.
  unfold sorted_float.
  induction l as [|x l IH]; simpl; [reflexivity|].
  rewrite IH. apply insert_decorated.
Qed.

Lemma sort_by_cost_listed (l : list string) :
  Forall listed l -> sort_by_cost l = Ok (sorted_float output_cost l).
Proof.
  intros Hall. unfold sort_by_cost. rewrite decorate_listed by exact Hall.
  simpl. rewrite sorted_decorated, map_map. simpl. now rewrite map_id.
Qed.

(** On the prices of the catalog the comparisons of floats are a total
    order. *)
Lemma cost_order_checked :
  forallb (fun a =>
    forallb (fun b =>
      (PrimFloat.ltb (output_cost a) (output_cost b)
       || PrimFloat.leb (output_cost b) (output_cost a))
      && (negb (PrimFloat.ltb (output_cost a) (output_cost b))
          || PrimFloat.leb (output_cost a) (output_cost b))
      && forallb (fun c =>
           negb (PrimFloat.leb (output_cost a) (output_cost b))
           || negb (PrimFloat.leb (output_cost b) (output_cost c))
           || PrimFloat.leb (output_cost a) (output_cost c)) (keys _models))
      (keys _models)) (keys _models) = true.
Proof. vm_compute. reflexivity. Qed.

Lemma cost_order (a b : string) :
  listed a -> listed b ->
  (PrimFloat.ltb (output_cost a) (output_cost b) = false ->
   PrimFloat.leb (output_cost b) (output_cost a) = true)
  /\ (PrimFloat.ltb (output_cost a) (output_cost b) = true ->
      PrimFloat.leb (output_cost a) (output_cost b) = true)
  /\ (forall c, listed c ->
      PrimFloat.leb (output_cost a) (output_cost b) = true ->
      PrimFloat.leb (output_cost b) (output_cost c) = true ->
      PrimFloat.leb (output_cost a) (output_cost c) = true).
Proof.
  intros Ha Hb. pose proof cost_order_checked as H.
  rewrite forallb_forall in H. specialize (H a Ha).
  rewrite forallb_forall in H. specialize (H b Hb).
  apply andb_prop in H as [H Htrans]. apply andb_prop in H as [Htot Hlt].
  split; [|split].
  - intros Hf. rewrite Hf in Htot. exact Htot.
  - intros Ht. rewrite Ht in Hlt. exact Hlt.
  - intros c Hc Hab Hbc. rewrite forallb_forall in Htrans.
    specialize (Htrans c Hc). rewrite Hab, Hbc in Htrans. exact Htrans.
Qed.

Lemma insert_ascending (x : string) (l : list string) :
  listed x -> Forall listed l -> ascending_cost l ->
  ascending_cost (insert_asc_float output_cost x l).
Proof.
  intros Hx. induction l as [|y l IH]; intros Hall Hasc; simpl.
  - split; constructor.
  - inversion Hall as [|? ? Hy Hl]; subst. destruct Hasc as [Hhead Htail].
    destruct (cost_order y x Hy Hx) as (Htot & Hlt & _).
    destruct (PrimFloat.ltb (output_cost y) (output_cost x)) eqn:Hcmp.
    + simpl. split; [|now apply IH].
      eapply Permutation_Forall;
        [symmetry; apply insert_asc_float_perm|].
      constructor; [now apply Hlt | exact Hhead].
    + simpl. split; [|split; assumption].
      specialize (Htot eq_refl). constructor; [exact Htot|].
      rewrite Forall_forall in Hhead, Hl. apply Forall_forall. intros z Hz.
      destruct (cost_order x y Hx Hy) as (_ & _ & Htrans).
      apply Htrans; [now apply Hl | exact Htot | now apply Hhead].
Qed.

Lemma sorted_ascending (l : list string) :
  Forall listed l -> ascending_cost (sorted_float output_cost l).
Proof.
  induction l as [|x l IH]; intros Hall; simpl; [exact I|].
  inversion Hall; subst. apply insert_ascending; [assumption| |now apply IH].
  eapply Permutation_Forall; [symmetry; apply sorted_float_perm|]. assumption.
Qed.

(** X13.  [get_model_by_criteria] never raises and returns, cheapest output
    price first, exactly the models of the catalog that meet every
    criterion given, each once.  A criterion that is [None], a price limit
    of [0.0], a context window of [0] and an empty provider name all mean
    no constraint; a model meets a price limit when its output price is
    not above it. *)
Theorem get_model_by_criteria_spec (max_cost_per_1k : option float)
  (min_context_window : option Z) (provider' : option string)
  (code_optimized : bool) :
  exists matching,
    get_model_by_criteria max_cost_per_1k min_context_window provider'
      code_optimized = Ok matching
    /\ NoDup matching
    /\ (forall id, In id matching <->
        exists info,
          dict_get id _models = Some info
          /\ meets_criteria max_cost_per_1k min_context_window provider'
               code_optimized info = true)
    /\ ascending_cost matching.
Proof.
  set (meets := meets_criteria max_cost_per_1k min_context_window provider'
                  code_optimized).
  set (found := keys (filter (fun item => meets (snd item)) _models)).
  assert (Hsub : forall id, In id found <->
                   exists info, dict_get id _models = Some info
                                /\ meets info = true).
  { intros id. unfold found, keys. rewrite in_map_iff. split.
    - intros ([id' info] & Hid & Hin). simpl in Hid. subst id'.
      apply filter_In in Hin as [Hin Hm]. exists info.
      split; [|exact Hm]. apply dict_get_In; [apply catalog_distinct | exact Hin].
    - intros (info & Hget & Hm). exists (id, info). split; [reflexivity|].
      apply filter_In. split; [now apply dict_get_Some_In | exact Hm]. }
  assert (Hlisted : Forall listed found).
  { apply Forall_forall. intros id Hin. apply Hsub in Hin as (info & Hget & _).
    apply dict_contains_keys. unfold dict_contains. now rewrite Hget. }
  assert (Hnd : NoDup found).
  { unfold found, keys. pose proof catalog_distinct as Hc. unfold keys in Hc.
    revert Hc. generalize _models. intros l.
    induction l as [|item l IH]; simpl; intros Hc; [constructor|].
    inversion Hc as [|? ? Hnotin Hc']; subst.
    destruct (meets (snd item)); simpl; [|now apply IH].
    constructor; [|now apply IH]. intros Hin. apply Hnotin.
    apply in_map_iff in Hin as (item' & Heq & Hin).
    apply filter_In in Hin as [Hin _]. rewrite <- Heq. now apply in_map. }
  exists (sorted_float output_cost found).
  split.
  - unfold get_model_by_criteria. rewrite criteria_fold. simpl app.
    fold meets found. now apply sort_by_cost_listed.
  - split; [|split].
    + eapply Permutation_NoDup; [symmetry; apply sorted_float_perm | exact Hnd].
    + intros id. rewrite <- Hsub. split; intros Hin.
      * eapply Permutation_in; [apply sorted_float_perm | exact Hin].
      * eapply Permutation_in; [symmetry; apply sorted_float_perm | exact Hin].
    + now apply sorted_ascending.
Qed.

End CostOrderFacts.

(** ** The request made for a model *)

Section RequestFacts.

Import Models Requests.

Variable self : ClientConfig.







End RequestFacts.

(** ** The rule templates of a file *)

Section TemplateFacts.

Import Config.

Variable fnmatch : string -> string -> bool.
Variable rule_templates : dict templates.


(** The names of the first loop: those the matching patterns offer. *)
Lemma applicable_fold (filename : string) (l : dict templates) :
  forall acc name,
  In name (fold_left (applicable_step fnmatch filename) l acc)
  <-> In name acc
      \/ exists pattern value,
           In (pattern, value) l
           /\ fnmatch filename pattern = true
           /\ offers value name.
Proof.
  induction l as [|[pattern value] l IH]; intros acc name; simpl fold_left.
  - split; [now left | intros [H|(p & v & [] & _)]; exact H].
  - rewrite IH. unfold applicable_step.
    split.
    + intros [Hacc|(p & v & Hin & Hm & Ho)].
      * destruct (fnmatch filename pattern) eqn:Hm; [|now left].
        destruct value as [t|names|]; [| |now left].
        -- apply in_app_or in Hacc as [H|[<-|[]]]; [now left|].
           right. exists pattern, (One t). repeat split; [now left | exact Hm].
        -- apply in_app_or in Hacc as [H|H]; [now left|].
           right. exists pattern, (Many names).
           repeat split; [now left | exact Hm | exact H].
      * right. exists p, v. repeat split; [now right | exact Hm | exact Ho].
    + intros [Hacc|(p & v & [Heq|Hin] & Hm & Ho)].
      * left. destruct (fnmatch filename pattern); [|exact Hacc].
        destruct value; [apply in_or_app; now left
                        |apply in_or_app; now left | exact Hacc].
      * inversion Heq; subst p v. rewrite Hm. left.
        destruct value as [t|names|]; simpl in Ho.
        -- subst. apply in_or_app. right. now left.
        -- apply in_or_app. now right.
        -- contradiction.
      * right. exists p, v. now repeat split.
Qed.

(** Keeping the first occurrence of every element. *)
Let firsts (l : list string) : list string := rev (nodup string_dec (rev l)).

Lemma nodup_snoc (l : list string) (x : string) :
  nodup string_dec (l ++ [x]) = remove string_dec x (nodup string_dec l) ++ [x].
Proof.
  induction l as [|a l IH]; simpl; [reflexivity|].
  destruct (in_dec string_dec a (l ++ [x])) as [Hin|Hout];
    destruct (in_dec string_dec a l) as [Hin'|Hout'].
  - exact IH.
  - apply in_app_or in Hin as [Hin|[<-|[]]]; [contradiction|].
    rewrite IH. simpl. now destruct (string_dec x x).
  - exfalso. apply Hout. apply in_or_app. now left.
  - simpl. destruct (string_dec x a) as [->|Hne].
    + exfalso. apply Hout. apply in_or_app. right. now left.
    + simpl. now rewrite IH.
Qed.

Lemma remove_rev (x : string) (l : list string) :
  remove string_dec x (rev l) = rev (remove string_dec x l).
Proof.
  induction l as [|a l IH]; simpl; [reflexivity|].
  rewrite remove_app, IH. simpl.
  destruct (string_dec x a); simpl; [now rewrite app_nil_r | reflexivity].
Qed.

Lemma firsts_cons (x : string) (l : list string) :
  firsts (x :: l) = x :: remove string_dec x (firsts l).
Proof.
  unfold firsts. simpl rev. rewrite nodup_snoc, rev_app_distr. simpl.
  now rewrite remove_rev.
Qed.

Lemma filter_remove (p : string -> bool) (x : string) (l : list string) :
  p x = false -> filter p (remove string_dec x l) = filter p l.
Proof.
  intros Hp. induction l as [|a l IH]; simpl; [reflexivity|].
  destruct (string_dec x a) as [<-|Hne]; simpl.
  - now rewrite Hp.
  - now rewrite IH.
Qed.

Lemma filter_remove_new (seen : list string) (x : string) (l : list string) :
  filter (fun t => negb (mem t (x :: seen))) l
  = filter (fun t => negb (mem t seen)) (remove string_dec x l).
Proof.
  induction l as [|a l IH]; [reflexivity|].
  cbn [filter remove].
  destruct (string_dec x a) as [<-|Hne].
  - assert (Hx : mem x (x :: seen) = true).
    { unfold mem. simpl. now rewrite String.eqb_refl. }
    rewrite Hx. exact IH.
  - assert (Ha : mem a (x :: seen) = mem a seen).
    { unfold mem. simpl. apply String.eqb_neq in Hne.
      now rewrite String.eqb_sym, Hne. }
    cbn [filter]. rewrite Ha, IH. reflexivity.
Qed.

Lemma filter_unseen (l : list string) :
  filter (fun t => negb (mem t [])) l = l.
Proof.
  induction l as [|a l IH]; [reflexivity|].
  change (filter (fun t => negb (mem t [])) (a :: l))
    with (a :: filter (fun t => negb (mem t [])) l).
  now rewrite IH.
Qed.

Lemma unique_fold (l : list string) :
  forall seen unique_templates,
  snd (fold_left unique_step l (seen, unique_templates))
  = unique_templates ++ filter (fun t => negb (mem t seen)) (firsts l).
Proof.
  induction l as [|x l IH]; intros seen unique; simpl fold_left.
  - simpl. now rewrite app_nil_r.
  - rewrite firsts_cons. simpl filter.
    destruct (mem x seen) eqn:Hseen; simpl negb; cbv iota.
    + rewrite IH. f_equal. symmetry. apply filter_remove. now rewrite Hseen.
    + rewrite IH, <- app_assoc. simpl. f_equal. f_equal.
      apply filter_remove_new.
Qed.

(** X15.  [get_rule_templates] returns, without repetition, exactly the
    template names that the patterns matching the file offer, each at the
    place of its first occurrence in the order of the configuration.  So
    a file that no pattern matches has no templates. *)
Theorem get_rule_templates_spec (filename : string) :
  let unique_templates := get_rule_templates fnmatch rule_templates filename in
  unique_templates
  = rev (nodup string_dec (rev (applicable fnmatch rule_templates filename)))
  /\ NoDup unique_templates
  /\ (forall name, In name unique_templates <->
      exists pattern value,
        In (pattern, value) rule_templates
        /\ fnmatch filename pattern = true
        /\ offers value name)
  /\ ((forall pattern, In pattern (keys rule_templates) ->
       fnmatch filename pattern = false) ->
      unique_templates = []).
Proof.
  cbv zeta.
  assert (Heq : get_rule_templates fnmatch rule_templates filename
                = firsts (applicable fnmatch rule_templates filename)).
  { unfold get_rule_templates.
    pose proof (unique_fold (applicable fnmatch rule_templates filename) [] [])
      as H.
    destruct (fold_left unique_step _ ([], [])) as [seen unique].
    simpl in H. rewrite H. apply filter_unseen. }
  assert (Hmem : forall name,
            In name (get_rule_templates fnmatch rule_templates filename) <->
            exists pattern value,
              In (pattern, value) rule_templates
              /\ fnmatch filename pattern = true
              /\ offers value name).
  { intros name. rewrite Heq. unfold firsts.
    rewrite <- in_rev, nodup_In, <- in_rev. unfold applicable.
    rewrite applicable_fold. split; [intros [[]|H]; exact H | now right]. }
  split; [exact Heq|]. split; [|split; [exact Hmem|]].
  - rewrite Heq. unfold firsts. apply NoDup_rev. apply NoDup_nodup.
  - intros Hnone.
    destruct (get_rule_templates fnmatch rule_templates filename)
      as [|name l] eqn:Hres; [reflexivity|].
    exfalso. destruct (proj1 (Hmem name) (or_introl eq_refl))
      as (pattern & value & Hin & Hm & _).
    rewrite Hnone in Hm; [discriminate|].
    change pattern with (fst (pattern, value)). now apply in_map.
Qed.

End TemplateFacts.

(** ** The rules of a file *)

Section RulesFacts.

Import Rules.

Variable _load_rule_template : string -> result (dict json).
Variable _apply_file_overrides : json -> string -> result json.
Variable enabled_rules : list string.

Let merged := merged_rules _load_rule_template.
Let step := filter_step _apply_file_overrides enabled_rules.

Lemma dict_update_nil {V} (d : dict V) : dict_update d [] = d.
Proof. reflexivity. Qed.









End RulesFacts.

(** ** Counting the lines of a diff *)

Section CountFacts.

Import Operations.

Lemma split_stacked (c : ascii) (a b : string) :
  split c (a ++ String c b) = split c a ++ split c b.
Proof.
  induction a as [|x a IH]; simpl.
  - now rewrite Ascii.eqb_refl.
  - destruct (Ascii.eqb x c); [now rewrite IH|].
    rewrite IH. pose proof (split_nonempty c a) as Hne.
    destruct (split c a) as [|piece pieces]; [contradiction | reflexivity].
Qed.

Lemma count_step_shift (counts : Z * Z) (line : string) :
  count_step counts line
  = (fst counts + fst (count_step (0, 0) line),
     snd counts + snd (count_step (0, 0) line))
  /\ 0 <= fst (count_step (0, 0) line)
  /\ 0 <= snd (count_step (0, 0) line)
  /\ fst (count_step (0, 0) line) + snd (count_step (0, 0) line) <= 1.
Proof.
  destruct counts as [added removed]. unfold count_step.
  destruct (startswith "+" line && negb (startswith "+++" line));
    [|destruct (startswith "-" line && negb (startswith "---" line))];
    cbn [fst snd]; (split; [f_equal; lia|]); repeat split; lia.
Qed.

Lemma count_fold_shift (l : list string) :
  forall counts,
  fold_left count_step l counts
  = (fst counts + fst (fold_left count_step l (0, 0)),
     snd counts + snd (fold_left count_step l (0, 0))).
Proof.
  induction l as [|line l IH]; intros counts.
  - destruct counts. cbn [fold_left fst snd]. f_equal; lia.
  - cbn [fold_left].
    rewrite (IH (count_step counts line)), (IH (count_step (0, 0) line)).
    destruct (count_step_shift counts line) as (Hs & _). rewrite Hs.
    cbn [fst snd]. f_equal; lia.
Qed.

Lemma count_fold_bounds (l : list string) :
  0 <= fst (fold_left count_step l (0, 0))
  /\ 0 <= snd (fold_left count_step l (0, 0))
  /\ fst (fold_left count_step l (0, 0)) + snd (fold_left count_step l (0, 0))
     <= len l.
Proof.
  induction l as [|line l IH].
  - unfold len. cbn [fold_left fst snd List.length]. lia.
  - cbn [fold_left]. rewrite count_fold_shift.
    destruct (count_step_shift (0, 0) line) as (_ & Ha & Hr & Har).
    assert (Hlen : len (line :: l) = 1 + len l).
    { unfold len. simpl List.length. lia. }
    cbn [fst snd]. lia.
Qed.

(** X17.  [_count_diff_lines] never counts below zero and never more than
    the diff has lines, and it is additive: of two diffs put one after
    the other it counts the sum of what it counts of each. *)
Theorem count_diff_lines_additive (first second : string) :
  let '(lines_added, lines_removed) := _count_diff_lines first in
  0 <= lines_added
  /\ 0 <= lines_removed
  /\ lines_added + lines_removed <= len (split LF first)
  /\ _count_diff_lines (stacked first second)
     = (lines_added + fst (_count_diff_lines second),
        lines_removed + snd (_count_diff_lines second)).
Proof.
  unfold _count_diff_lines, stacked. rewrite split_stacked, fold_left_app.
  pose proof (count_fold_bounds (split LF first)) as Hb.
  destruct (fold_left count_step (split LF first) (0, 0)) as [a r].
  cbn [fst snd] in Hb. destruct Hb as (Ha & Hr & Har).
  split; [exact Ha|]. split; [exact Hr|]. split; [exact Har|].
  now rewrite count_fold_shift.
Qed.

End CountFacts.

(** ** Whether the push goes on *)

Section DecisionFacts.

Import Engine Run Interactive.

Variable get_rule_templates : string -> result (list string).
Variable load_rules_for_file : string -> list string -> result (dict json).
Variable _build_review_prompt :
  string -> Analyzer.FileChange -> dict json -> result string.
Variable invoke_model : string -> string -> result Client.BedrockResponse.
Variable json_loads : string -> result (dict json).
Variable float_sum : list float -> float.
Variable as_completed :
  list (dict FileReviewResult) -> list (dict FileReviewResult).
Variable cfg : ReviewConfig.
Variable ask : string -> bool -> bool.

Lemma count_severity_nonneg (s : string) (l : list ReviewIssue) :
  0 <= count_severity s l.
Proof. rewrite count_severity_length. unfold len. lia. Qed.

Lemma count_severity_found (s : string) (l : list ReviewIssue) :
  count_severity s l <> 0
  <-> exists issue, In issue l /\ severity issue = JStr s.
Proof.
  rewrite count_severity_length. unfold len. split.
  - intros Hne.
    destruct (filter (fun issue => eq_str (severity issue) s) l)
      as [|issue f] eqn:Hf; [contradiction|].
    assert (Hin : In issue (filter (fun issue => eq_str (severity issue) s) l)).
    { rewrite Hf. now left. }
    apply filter_In in Hin as [Hin Heq]. exists issue. split; [exact Hin|].
    unfold eq_str in Heq. destruct (severity issue); try discriminate.
    apply String.eqb_eq in Heq. now subst.
  - intros (issue & Hin & Hs).
    assert (Hf : In issue (filter (fun issue => eq_str (severity issue) s) l)).
    { apply filter_In. split; [exact Hin|]. rewrite Hs. simpl.
      apply String.eqb_refl. }
    destruct (filter (fun issue => eq_str (severity issue) s) l);
      [contradiction | discriminate].
Qed.

Lemma total_found {A} (f : A -> Z) (l : list A) :
  Forall (fun x => 0 <= f x) l ->
  (total f l <> 0 <-> exists x, In x l /\ f x <> 0).
Proof.
  induction 1 as [|x l Hx Hl IH]; simpl.
  - split; [contradiction | intros (x & [] & _)].
  - assert (Hpos : 0 <= total f l).
    { clear IH. induction Hl; simpl; lia. }
    split.
    + intros Hne. destruct (Z.eq_dec (f x) 0) as [Hz|Hnz].
      * assert (Hrest : total f l <> 0) by lia.
        apply IH in Hrest as (y & Hy & Hfy). exists y. split; [now right|].
        exact Hfy.
      * exists x. split; [now left | exact Hnz].
    + intros (y & [<-|Hy] & Hfy); [lia|].
      assert (Hrest : total f l <> 0) by (apply IH; now exists y).
      lia.
Qed.

(** The total of a counter is not zero exactly when some file holds an
    issue of its severity. *)
Lemma total_severity_found (s : string) (counter : FileReviewResult -> Z)
  (d : dict FileReviewResult) :
  Forall (fun entry => counter (snd entry) = count_severity s (issues (snd entry)))
         d ->
  (total counter (values d) <> 0
   <-> exists name file_result,
         In (name, file_result) d /\ has_severity s file_result).
Proof.
  intros Hd. rewrite total_found.
  - split.
    + intros (file_result & Hin & Hne). unfold values in Hin.
      apply in_map_iff in Hin as ([name fr] & Heq & Hin). simpl in Heq. subst fr.
      exists name, file_result. split; [exact Hin|].
      rewrite Forall_forall in Hd. specialize (Hd _ Hin). simpl in Hd.
      rewrite Hd in Hne. now apply count_severity_found.
    + intros (name & file_result & Hin & Hhas).
      exists file_result. split.
      * unfold values. change file_result with (snd (name, file_result)).
        now apply in_map.
      * rewrite Forall_forall in Hd. specialize (Hd _ Hin). simpl in Hd.
        rewrite Hd. now apply count_severity_found.
  - unfold values. apply Forall_forall. intros fr Hin.
    apply in_map_iff in Hin as (entry & <- & Hin).
    rewrite Forall_forall in Hd. rewrite (Hd _ Hin).
    apply count_severity_nonneg.
Qed.

(** X18.  After a run, without interaction the push goes on exactly when
    no reviewed file holds an issue of severity [error], and the command
    exits with 5 exactly when one does; in particular a single file whose
    review failed stops the push.  With interaction the user is not asked
    when no file holds an error or a warning, and the push goes on. *)
Theorem get_user_decision_after_run (changes : dict Analyzer.FileChange)
  (r : ReviewResult) :
  (forall l, Permutation (as_completed l) l) ->
  review_changes get_rule_templates load_rules_for_file _build_review_prompt
    invoke_model json_loads float_sum as_completed cfg changes = Ok r ->
  (get_user_decision ask false r = false
   <-> exists name file_result,
         In (name, file_result) (files r) /\ has_severity "error" file_result)
  /\ (exit_code (get_user_decision ask false r) = 5
      <-> exists name file_result,
            In (name, file_result) (files r)
            /\ has_severity "error" file_result)
  /\ (forall name message,
      In (name, _create_error_result name message) (files r) ->
      get_user_decision ask false r = false)
  /\ ((forall name file_result, In (name, file_result) (files r) ->
       ~ has_severity "error" file_result
       /\ ~ has_severity "warning" file_result) ->
      get_user_decision ask true r = true).
Proof.
  intros Hperm Hrun.
  destruct (run_kept get_rule_templates load_rules_for_file
              _build_review_prompt invoke_model json_loads float_sum
              as_completed cfg changes r Hperm Hrun)
    as (Hkept & _ & _ & Herrors & Hwarnings & _).
  assert (He : total_errors r <> 0
               <-> exists name file_result,
                     In (name, file_result) (files r)
                     /\ has_severity "error" file_result).
  { rewrite Herrors. apply total_severity_found.
    eapply Forall_impl; [|exact Hkept]. intros entry [Hc _].
    now destruct Hc as (_ & H & _). }
  assert (Hw : total_warnings r <> 0
               <-> exists name file_result,
                     In (name, file_result) (files r)
                     /\ has_severity "warning" file_result).
  { rewrite Hwarnings. apply total_severity_found.
    eapply Forall_impl; [|exact Hkept]. intros entry [Hc _].
    now destruct Hc as (_ & _ & H & _). }
  assert (Hdecision : get_user_decision ask false r = false
                      <-> total_errors r <> 0).
  { unfold get_user_decision. simpl. now rewrite Z.eqb_neq. }
  split; [now rewrite Hdecision|]. split; [|split].
  - rewrite <- He, <- Hdecision. unfold exit_code.
    destruct (get_user_decision ask false r); split; intros H;
      try reflexivity; discriminate.
  - intros name message Hin. apply Hdecision, He.
    exists name, (_create_error_result name message). split; [exact Hin|].
    eexists. split; [now left | reflexivity].
  - intros Hclean. unfold get_user_decision, _get_interactive_decision. simpl.
    assert (He0 : total_errors r = 0).
    { destruct (Z.eq_dec (total_errors r) 0) as [H|H]; [exact H|].
      apply He in H as (name & fr & Hin & Hhas).
      now destruct (Hclean name fr Hin). }
    assert (Hw0 : total_warnings r = 0).
    { destruct (Z.eq_dec (total_warnings r) 0) as [H|H]; [exact H|].
      apply Hw in H as (name & fr & Hin & Hhas).
      now destruct (Hclean name fr Hin). }
    now rewrite He0, Hw0.
Qed.

End DecisionFacts.

(** ** Further runs on the sample inputs *)

Section FurtherRuns.

Import Samples Cases.


(** The sample patch in chunks of two lines: three chunks, each under the
    header, and the small diff as it is. *)
Example chunk_large_diffs_run :
  let header :=
    ["diff --git a/x.py b/x.py"; "index 1a2b..3c4d 100644"; "--- a/x.py";
     "+++ b/x.py"] in
  Reports.chunk_large_diffs patched 2
  = [("x.py", [join (String LF "") (header ++ ["@@ -1,2 +1,3 @@"; " keep"]);
               join (String LF "") (header ++ ["+one"; "+two"]);
               join (String LF "") (header ++ ["-three"])]);
     ("y.py", ["+new"])].
Proof. vm_compute. reflexivity. Qed.


(** The sample patch adds two lines and removes one; the header lines
    are not counted. *)
Example count_diff_lines_run :
  Operations._count_diff_lines patch = (2, 1)
  /\ Operations._count_diff_lines (Operations.stacked patch patch) = (4, 2).
Proof. vm_compute. split; reflexivity. Qed.

(** Templates of the sample configuration: first occurrences, in order. *)
Example get_rule_templates_run :
  Config.get_rule_templates fnmatch_star rule_templates "x.py"
  = ["python"; "security"; "legacy"]
  /\ Config.get_rule_templates fnmatch_star rule_templates "README.md" = ["docs"]
  /\ Config.get_rule_templates fnmatch_star rule_templates "Makefile" = [].
Proof. vm_compute. repeat split. Qed.

(** The later template wins on [style]; the broken one is skipped; only
    enabled rules are returned. *)
Example load_rules_for_file_run :
  Rules.load_rules_for_file load_rule_template apply_file_overrides
    ["style"; "secrets"] "x.py" ["python"; "broken"; "security"]
  = Ok [("style", JDict [("severity", JStr "warning")]);
        ("secrets", JDict [("severity", JStr "error")])].
Proof. vm_compute. reflexivity. Qed.

(** Code models of at most 0.002 per thousand output tokens, cheapest
    first; a limit of zero is no limit. *)
Example get_model_by_criteria_run :
  Catalog.get_model_by_criteria (Some 0.002%float) None None true
  = Ok ["meta.llama3-8b-instruct-v1:0"; "ai21.jamba-instruct-v1:0";
        "anthropic.claude-3-haiku-20240307-v1:0"; "cohere.command-r-v1:0"]
  /\ (exists all, Catalog.get_model_by_criteria (Some 0%float) None None true
                  = Ok all /\ len all = 8)
  /\ Catalog.get_model_by_criteria None (Some 200000) (Some "anthropic") true
     = Ok ["anthropic.claude-3-haiku-20240307-v1:0";
           "anthropic.claude-3-5-sonnet-20241022-v2:0";
           "anthropic.claude-3-sonnet-20240229-v1:0"].
Proof.
  split; [vm_compute; reflexivity|]. split; [|vm_compute; reflexivity].
  eexists. split; vm_compute; reflexivity.
Qed.

(** An unknown model is left out of the comparison, a repeated one is
    compared once. *)
Example compare_models_run :
  exists comparison,
    Catalog.compare_models
      ["cohere.command-r-v1:0"; "gpt-4"; "cohere.command-r-v1:0";
       "ai21.jamba-instruct-v1:0"] = Ok comparison
    /\ keys comparison = ["cohere.command-r-v1:0"; "ai21.jamba-instruct-v1:0"].
Proof. eexists. split; vm_compute; reflexivity. Qed.

(** A Llama request with a system prompt. *)
Example build_request_body_run :
  Requests._build_request_body
    (Requests.mkClientConfig "meta.llama3-8b-instruct-v1:0" (JInt 4000)
                             (JFloat 0.1))
    "Review this." (Some "Be brief.")
  = Ok [("prompt",
         JStr (join (String LF "")
                 ["<s>[INST] <<SYS>>"; "Be brief."; "<</SYS>>"; "";
                  "Review this. [/INST]"]));
        ("max_gen_len", JInt 4000); ("temperature", JFloat 0.1);
        ("top_p", JFloat 0.9)].
Proof. vm_compute. reflexivity. Qed.

Let reversed (l : list (dict Engine.FileReviewResult)) :
  Permutation (as_completed l) l :=
  Permutation_sym (Permutation_rev l).

Lemma review_changes_consistent_witness :
  exists r,
    Engine.review_changes get_rule_templates load_rules_for_file
      build_review_prompt invoke_model json_loads float_sum as_completed
      review_config batch = Ok r
    /\ Engine.run_total_issues r
       = Engine.total_errors r + Engine.total_warnings r
         + Engine.total_info r + Engine.total_suggestions r
    /\ Engine.total_files r = len (Engine.files r).
Proof.
  eexists. split; [vm_compute; reflexivity|].
  refine (proj2 (review_changes_consistent get_rule_templates
                   load_rules_for_file build_review_prompt invoke_model
                   json_loads float_sum as_completed review_config batch _
                   reversed _)).
  vm_compute. reflexivity.
Defined.

Lemma review_changes_covers_witness :
  exists r,
    Engine.review_changes get_rule_templates load_rules_for_file
      build_review_prompt invoke_model json_loads float_sum as_completed
      review_config batch = Ok r
    /\ Engine.total_files r = len batch.
Proof.
  destruct (review_changes_covers get_rule_templates load_rules_for_file
              build_review_prompt invoke_model json_loads float_sum
              as_completed review_config batch batch_distinct reversed
              ltac:(simpl; lia) ltac:(simpl; lia))
    as (r & Hrun & _ & Hfiles & _).
  exists r. split; [exact Hrun | exact Hfiles].
Defined.

Lemma review_changes_mode_independent_witness :
  exists r_par r_seq,
    Engine.review_changes get_rule_templates load_rules_for_file
      build_review_prompt invoke_model json_loads float_sum as_completed
      (Run.with_parallel true review_config) batch = Ok r_par
    /\ Engine.review_changes get_rule_templates load_rules_for_file
         build_review_prompt invoke_model json_loads float_sum as_completed
         (Run.with_parallel false review_config) batch = Ok r_seq
    /\ keys (Engine.files r_seq) = keys batch
    /\ Engine.run_summary r_par = Engine.run_summary r_seq.
Proof.
  destruct (review_changes_mode_independent get_rule_templates
              load_rules_for_file build_review_prompt invoke_model json_loads
              float_sum as_completed review_config batch batch_distinct
              reversed ltac:(simpl; lia) ltac:(simpl; lia))
    as (r_par & r_seq & Hpar & Hseq & Hkeys & H).
  exists r_par, r_seq. split; [exact Hpar|]. split; [exact Hseq|].
  split; [exact Hkeys|]. apply H.
Defined.

(** The command on the seven sample files: the two the triage keeps are
    reviewed. *)
Lemma review_command_reviews_survivors_witness :
  exists shown,
    Run.review_command fnmatch_literal plain_suffix git_config
      get_rule_templates load_rules_for_file build_review_prompt invoke_model
      json_loads float_sum as_completed review_config changes = Ok shown
    /\ (forall r, shown = Some r ->
        Engine.total_files r
        = Z.min (Analyzer.max_files git_config)
                (len (Analyzer.survivors fnmatch_literal plain_suffix
                        git_config changes))).
Proof.
  destruct (review_command_reviews_survivors fnmatch_literal plain_suffix
              git_config get_rule_templates load_rules_for_file
              build_review_prompt invoke_model json_loads float_sum
              as_completed review_config changes changes_distinct
              ltac:(simpl; lia) reversed ltac:(simpl; lia) ltac:(simpl; lia))
    as (shown & Hrun & _ & Hsome).
  exists shown. split; [exact Hrun|].
  intros r Hr. exact (proj1 (Hsome r Hr)).
Defined.

Example review_command_run :
  exists r,
    Run.review_command fnmatch_literal plain_suffix git_config
      get_rule_templates load_rules_for_file build_review_prompt invoke_model
      json_loads float_sum as_completed review_config changes = Ok (Some r)
    /\ keys (Engine.files r) = ["a.py"; "b.py"]
    /\ Engine.total_files r = 2.
Proof. eexists. split; [vm_compute; reflexivity|]. vm_compute. split; reflexivity. Qed.

(** The throttled file of the sample batch stops the push of a run
    without interaction. *)
Lemma get_user_decision_after_run_witness :
  exists r,
    Engine.review_changes get_rule_templates load_rules_for_file
      build_review_prompt invoke_model json_loads float_sum as_completed
      review_config batch = Ok r
    /\ Interactive.get_user_decision ask false r = false.
Proof.
  eexists. split; [vm_compute; reflexivity|].
  refine (proj1 (proj2 (proj2
            (get_user_decision_after_run get_rule_templates
               load_rules_for_file build_review_prompt invoke_model json_loads
               float_sum as_completed review_config ask batch _ reversed _)))
            "bad.py"
            "AWS Bedrock error: Rate limit exceeded: slow down (ThrottlingException)"
            _).
  - vm_compute. reflexivity.
  - vm_compute. right. left. reflexivity.
Defined.

End FurtherRuns.

(** ** The summary of a run *)

Section FormatFacts.

Import Engine Run Formatter.

Variable get_rule_templates : string -> result (list string).
Variable load_rules_for_file : string -> list string -> result (dict json).
Variable _build_review_prompt :
  string -> Analyzer.FileChange -> dict json -> result string.
Variable invoke_model : string -> string -> result Client.BedrockResponse.
Variable json_loads : string -> result (dict json).
Variable float_sum : list float -> float.
Variable as_completed :
  list (dict FileReviewResult) -> list (dict FileReviewResult).
Variable cfg : ReviewConfig.

Lemma total_nonneg {A} (f : A -> Z) (l : list A) :
  Forall (fun x => 0 <= f x) l -> 0 <= total f l.
Proof. induction 1; simpl; lia. Qed.

Lemma total_zero {A} (f : A -> Z) (l : list A) :
  Forall (fun x => 0 <= f x) l ->
  (total f l = 0 <-> Forall (fun x => f x = 0) l).
Proof.
  induction 1 as [|x l Hx Hl IH]; simpl.
  - split; [constructor | reflexivity].
  - pose proof (total_nonneg f l Hl) as Hpos. split.
    + intros Hsum. constructor; [lia|]. apply IH. lia.
    + intros Hall. inversion Hall; subst. apply IH in H2. lia.
Qed.

Lemma summary_parts_empty (r : ReviewResult) :
  0 <= total_errors r -> 0 <= total_warnings r ->
  0 <= total_info r -> 0 <= total_suggestions r ->
  (summary_parts r = []
   <-> total_errors r + total_warnings r + total_info r + total_suggestions r
       = 0).
Proof.
  intros He Hw Hi Hs. unfold summary_parts.
  destruct (Z.ltb_spec 0 (total_errors r));
    destruct (Z.ltb_spec 0 (total_warnings r));
    destruct (Z.ltb_spec 0 (total_info r));
    destruct (Z.ltb_spec 0 (total_suggestions r));
    cbn [app]; split; intros H'; try discriminate; try reflexivity; lia.
Qed.

Lemma files_with_issues_empty (d : dict FileReviewResult) :
  Forall (fun entry => 0 <= total_issues (snd entry)) d ->
  (map fst (filter (fun item => 0 <? total_issues (snd item)) d) = []
   <-> total total_issues (values d) = 0).
Proof.
  induction 1 as [|entry d Hx Hd IH]; simpl.
  - tauto.
  - assert (Hpos : 0 <= total total_issues (values d)).
    { apply total_nonneg. unfold values. apply Forall_forall. intros x Hin.
      apply in_map_iff in Hin as (e & <- & Hin).
      rewrite Forall_forall in Hd. now apply Hd. }
    unfold values in *.
    destruct (Z.ltb_spec 0 (total_issues (snd entry))); simpl.
    + split; [discriminate | lia].
    + rewrite IH. lia.
Qed.

(** X19.  After a run the figures shown add up.  The four counts of
    [get_issue_counts_by_severity] are not negative and their sum is the
    run's [total_issues]; the breakdown of [format_summary_only] is empty
    exactly when there is no issue, so a line ["Found N issues: "] is
    always followed by at least one count; and [get_files_with_issues]
    lists reviewed files only, and none exactly when there is no issue. *)
Theorem format_summary_only_after_run (changes : dict Analyzer.FileChange)
  (r : ReviewResult) :
  (forall l, Permutation (as_completed l) l) ->
  review_changes get_rule_templates load_rules_for_file _build_review_prompt
    invoke_model json_loads float_sum as_completed cfg changes = Ok r ->
  Forall (fun count => 0 <= snd count) (get_issue_counts_by_severity r)
  /\ total snd (get_issue_counts_by_severity r) = run_total_issues r
  /\ (summary_parts r = [] <-> run_total_issues r = 0)
  /\ (run_total_issues r <> 0 ->
      exists part parts, summary_parts r = part :: parts)
  /\ (get_files_with_issues r = [] <-> run_total_issues r = 0)
  /\ Forall (fun name => In name (keys (files r))) (get_files_with_issues r).
Proof.
  intros Hperm Hrun.
  destruct (run_kept get_rule_templates load_rules_for_file
              _build_review_prompt invoke_model json_loads float_sum
              as_completed cfg changes r Hperm Hrun)
    as (Hkept & Hsum & _ & He & Hw & Hi & Hs & Ht).
  assert (Hcount : forall (counter : FileReviewResult -> Z) (s : string),
            Forall (fun entry =>
                      counter (snd entry)
                      = count_severity s (issues (snd entry))) (files r) ->
            0 <= total counter (values (files r))).
  { intros counter s Hc. apply total_nonneg. unfold values.
    apply Forall_forall. intros x Hin.
    apply in_map_iff in Hin as (e & <- & Hin).
    rewrite Forall_forall in Hc. rewrite (Hc _ Hin).
    apply count_severity_nonneg. }
  assert (Hpe : 0 <= total_errors r).
  { rewrite He. apply (Hcount _ "error").
    eapply Forall_impl; [|exact Hkept]. intros e [Hc _].
    now destruct Hc as (_ & H & _). }
  assert (Hpw : 0 <= total_warnings r).
  { rewrite Hw. apply (Hcount _ "warning").
    eapply Forall_impl; [|exact Hkept]. intros e [Hc _].
    now destruct Hc as (_ & _ & H & _). }
  assert (Hpi : 0 <= total_info r).
  { rewrite Hi. apply (Hcount _ "info").
    eapply Forall_impl; [|exact Hkept]. intros e [Hc _].
    now destruct Hc as (_ & _ & _ & H & _). }
  assert (Hps : 0 <= total_suggestions r).
  { rewrite Hs. apply (Hcount _ "suggestion").
    eapply Forall_impl; [|exact Hkept]. intros e [Hc _].
    now destruct Hc as (_ & _ & _ & _ & H & _). }
  assert (Hparts : summary_parts r = [] <-> run_total_issues r = 0).
  { rewrite Hsum. now apply summary_parts_empty. }
  split; [|split; [|split; [|split; [|split]]]].
  - unfold get_issue_counts_by_severity. repeat constructor; assumption.
  - unfold get_issue_counts_by_severity. cbn [total snd]. lia.
  - exact Hparts.
  - intros Hne. destruct (summary_parts r) as [|part parts] eqn:Hp.
    + exfalso. apply Hne. now apply Hparts.
    + now exists part, parts.
  - unfold get_files_with_issues. rewrite Ht. apply files_with_issues_empty.
    eapply Forall_impl; [|exact Hkept]. intros e [Hc _].
    destruct Hc as (Hlen & _). rewrite Hlen. unfold len. lia.
  - unfold get_files_with_issues. apply Forall_forall. intros name Hin.
    apply in_map_iff in Hin as (entry & <- & Hin).
    apply filter_In in Hin as [Hin _]. now apply in_map.
Qed.

End FormatFacts.

(** ** The summary of the sample run *)

Section SummaryRuns.

Import Samples Cases.

Lemma format_summary_only_after_run_witness :
  exists r,
    Engine.review_changes get_rule_templates load_rules_for_file
      build_review_prompt invoke_model json_loads float_sum as_completed
      review_config batch = Ok r
    /\ total snd (Formatter.get_issue_counts_by_severity r)
       = Engine.run_total_issues r
    /\ (Formatter.summary_parts r = [] <-> Engine.run_total_issues r = 0).
Proof.
  eexists. split; [vm_compute; reflexivity|].
  refine (let H := format_summary_only_after_run get_rule_templates
                     load_rules_for_file build_review_prompt invoke_model
                     json_loads float_sum as_completed review_config batch _
                     (fun l => Permutation_sym (Permutation_rev l)) _ in
          conj (proj1 (proj2 H)) (proj1 (proj2 (proj2 H)))).
  vm_compute. reflexivity.
Defined.

(** Without colours the summary of the sample run names its one error,
    and the one file that has it. *)
Example format_summary_only_run :
  exists r,
    Engine.review_changes get_rule_templates load_rules_for_file
      build_review_prompt invoke_model json_loads float_sum as_completed
      review_config batch = Ok r
    /\ Formatter.summary_parts r = ["1 errors"]
    /\ Formatter.get_files_with_issues r = ["bad.py"]
    /\ Formatter.format_summary_only false format_cost r
       = "âŒ Found 1 issues: 1 errors".
Proof.
  eexists. split; [vm_compute; reflexivity|].
  split; [vm_compute; reflexivity|]. split; vm_compute; reflexivity.
Qed.

End SummaryRuns.
